(** * Account & Ledger API: a shallow embedding of the request router

    The router is the Cloudflare Worker [fetch] handler of the repository,
    in its complete variant: the one with [env.IH_DB], [env.JWT_SECRET],
    input validation and paginated listing.  (The repository also holds an
    earlier draft of the same routes with a constant secret and neither
    validation nor pagination; of it only the two presence tests are
    embedded, for comparison.)  The pure helpers become
    Rocq functions; the handler itself becomes a program over the awaited
    store statements, so that the same definition can be run sequentially or
    interleaved with another request at its suspension points.

    Conventions of the embedding:
    - a JavaScript string is a [string]; one [ascii] stands for one code
      unit, so [String.length] is the [length] property;
    - a number taken from a JSON body is a rational ([Q]); the result of
      [parseInt] is a double: [NaN], an infinity, or the double nearest to
      the integer that was read;
    - [Date.now()] and the random salt drawn by the hasher are inputs of the
      handler (the record [World]);
    - the token library, the password library and the store engine are
      packages and services outside the repository: they enter as
      interfaces ([JwtLib], [BcryptLib], [D1Lib]). *)

From Stdlib Require Import ZArith QArith List String Ascii Bool Lia.
From Stdlib Require Import DecimalString.
From Stdlib Require Import Permutation Sorted OrderedTypeEx.
Import ListNotations.

Set Warnings "-register-all".

Local Open Scope string_scope.
Local Open Scope Z_scope.

(** ** JavaScript values *)

Inductive JValue : Type :=
| JUndefined
| JNull
| JBool (b : bool)
| JNum (q : Q)
| JStr (s : string)
| JArr (xs : list JValue)
| JObj (fields : list (string * JValue)).

(** [!!v] of the language: the values that count as true in a condition. *)
Definition truthy (v : JValue) : bool :=
  match v with
  | JUndefined | JNull => false
  | JBool b => b
  | JNum q => negb (Qeq_bool q 0)
  | JStr s => negb (s =? "")%string
  | JArr _ | JObj _ => true
  end.

Fixpoint assoc {A : Type} (k : string) (l : list (string * A)) : option A :=
  match l with
  | [] => None
  | (k', v) :: rest => if (k' =? k)%string then Some v else assoc k rest
  end.

(** [data.k] for the keys the router reads ([email], [password], [date],
    [amount], [type], [description], [category]): an own property of an
    object, [undefined] on anything else that is not [null]. *)
Definition prop (data : JValue) (k : string) : JValue :=
  match data with
  | JObj fields => match assoc k fields with Some v => v | None => JUndefined end
  | _ => JUndefined
  end.

(** [a || b] *)
Definition js_or (a b : JValue) : JValue := if truthy a then a else b.

(** ** Strings: white space, [trim], [startsWith], [slice], [parseInt] *)

(** White space of [\s] and of [trim] among the 8-bit code units. *)
Definition is_space (c : ascii) : bool :=
  let n := N_of_ascii c in
  ((9 <=? n) && (n <=? 13) || (n =? 32) || (n =? 160))%N.

Fixpoint trimStart (s : string) : string :=
  match s with
  | EmptyString => EmptyString
  | String c r => if is_space c then trimStart r else s
  end.

Fixpoint trimEnd (s : string) : string :=
  match s with
  | EmptyString => EmptyString
  | String c r =>
      let r' := trimEnd r in
      if (r' =? "")%string && is_space c then EmptyString else String c r'
  end.

Definition trim (s : string) : string := trimEnd (trimStart s).

Definition startsWith (s p : string) : bool := String.prefix p s.

(** [s.slice(n)] for a non-negative [n]. *)
Fixpoint slice (n : nat) (s : string) : string :=
  match n, s with
  | O, _ => s
  | S n', String _ r => slice n' r
  | S _, EmptyString => EmptyString
  end.

(** The number a [parseInt] call yields: not a number, an infinity, or a
    double whose value is the integer [z]. *)
Inductive Num : Type :=
| NaN
| Infinity (negative : bool)
| Int (z : Z).

(** The double nearest to an integer, ties to the even significand; an
    integer beyond the largest double becomes an infinity.  Up to [2^53] in
    magnitude every integer is a double. *)
Definition round_double (z : Z) : Num :=
  let a := Z.abs z in
  if a <? 2 ^ 53 then Int z
  else
    let e := Z.log2 a - 52 in
    let q := a / 2 ^ e in
    let r := a mod 2 ^ e in
    let half := 2 ^ (e - 1) in
    let q' := if (half <? r) || ((r =? half) && Z.odd q) then q + 1 else q in
    if 2 ^ 1024 <=? q' * 2 ^ e then Infinity (z <? 0)
    else Int (Z.sgn z * (q' * 2 ^ e)).

Definition digit_of (c : ascii) : option Z :=
  let n := Z.of_N (N_of_ascii c) in
  if (48 <=? n) && (n <=? 57) then Some (n - 48) else None.

Fixpoint parse_digits (acc : Z) (s : string) : Z :=
  match s with
  | EmptyString => acc
  | String c r =>
      match digit_of c with
      | Some d => parse_digits (10 * acc + d) r
      | None => acc
      end
  end.

(** [parseInt(s, 10)]: leading white space is skipped, one sign is read,
    then the longest run of decimal digits; no digit at all gives [NaN].
    The integer read is returned as a number of the language, that is,
    rounded to a double. *)
Definition parseInt (s : string) : Num :=
  let s0 := trimStart s in
  let '(neg, s1) :=
    match s0 with
    | String "-"%char r => (true, r)
    | String "+"%char r => (false, r)
    | _ => (false, s0)
    end in
  match s1 with
  | EmptyString => NaN
  | String c _ =>
      match digit_of c with
      | None => NaN
      | Some _ =>
          round_double (if neg then - parse_digits 0 s1 else parse_digits 0 s1)
      end
  end.

(** [Math.min(a, b)] with [b] a proper number. *)
Definition Math_min (a : Num) (b : Z) : Num :=
  match a with
  | NaN => NaN
  | Infinity true => Infinity true
  | Infinity false => Int b
  | Int z => Int (Z.min z b)
  end.

(** How [JSON.stringify] prints a number: [NaN] and the infinities become
    [null]. *)
Definition num_json (n : Num) : JValue :=
  match n with
  | NaN | Infinity _ => JNull
  | Int z => JNum (inject_Z z)
  end.

(** ** Regular expressions, by derivatives *)

Inductive regex : Type :=
| RNone
| REps
| RClass (p : ascii -> bool)
| RCat (r1 r2 : regex)
| RAlt (r1 r2 : regex)
| RStar (r : regex).

Definition RPlus (r : regex) : regex := RCat r (RStar r).

Fixpoint nullable (r : regex) : bool :=
  match r with
  | RNone => false
  | REps => true
  | RClass _ => false
  | RCat r1 r2 => nullable r1 && nullable r2
  | RAlt r1 r2 => nullable r1 || nullable r2
  | RStar _ => true
  end.

Fixpoint deriv (c : ascii) (r : regex) : regex :=
  match r with
  | RNone | REps => RNone
  | RClass p => if p c then REps else RNone
  | RCat r1 r2 =>
      if nullable r1
      then RAlt (RCat (deriv c r1) r2) (deriv c r2)
      else RCat (deriv c r1) r2
  | RAlt r1 r2 => RAlt (deriv c r1) (deriv c r2)
  | RStar r1 => RCat (deriv c r1) (RStar r1)
  end.

(** [re.test(s)] for a pattern anchored with [^] and [$]. *)
Fixpoint re_test (r : regex) (s : string) : bool :=
  match s with
  | EmptyString => nullable r
  | String c s' => re_test (deriv c r) s'
  end.

(** ** The validators of the router *)

(** The class [[^\s@]]. *)
Definition not_space_at (c : ascii) : bool :=
  negb (is_space c) && negb (Ascii.eqb c "@").

(** [/^[^\s@]+@[^\s@]+\.[^\s@]+$/] *)
Definition email_re : regex :=
  RCat (RPlus (RClass not_space_at))
    (RCat (RClass (Ascii.eqb "@"))
       (RCat (RPlus (RClass not_space_at))
          (RCat (RClass (Ascii.eqb "."))
             (RPlus (RClass not_space_at))))).

Definition validateEmail (email : JValue) : bool :=
  match email with
  | JStr s => re_test email_re s
  | _ => false
  end.

Definition validatePassword (password : JValue) : bool :=
  match password with
  | JStr s => (6 <=? String.length s)%nat
  | _ => false
  end.

Definition is_string (v : JValue) : bool :=
  match v with JStr _ => true | _ => false end.

Definition is_number (v : JValue) : bool :=
  match v with JNum _ => true | _ => false end.

(** [typeof v !== 'string' || !v.trim()] *)
Definition blank_or_not_string (v : JValue) : bool :=
  match v with
  | JStr s => (trim s =? "")%string
  | _ => true
  end.

Definition validateTransaction (data : JValue) : bool :=
  if negb (truthy data) then false
  else
    let date := prop data "date" in
    let amount := prop data "amount" in
    let type := prop data "type" in
    if blank_or_not_string date then false
    else if negb (is_number amount) then false
    else if blank_or_not_string type then false
    else true.

(** ** Requests and responses *)

Record Request : Type := {
  url_pathname : string;                     (* new URL(request.url).pathname *)
  req_method : string;                       (* request.method *)
  hdr_authorization : option string;         (* headers.get('Authorization') *)
  searchParams : list (string * string);     (* url.searchParams *)
  req_json : option JValue                   (* request.json(); None: it rejects *)
}.

Record Response : Type := {
  status : Z;
  body : JValue;                             (* the value given to JSON.stringify *)
  content_type : string
}.

Record Env : Type := { JWT_SECRET : string }.

(** What a request reads from its surroundings: the clock ([Date.now()], in
    milliseconds) and the salt the password hasher draws. *)
Record World : Type := { now_ms : Z; salt : string }.

(** [Math.floor(Date.now() / 1000)] *)
Definition now_sec (w : World) : Z := now_ms w / 1000.

(** [parseJSON]: the body, or [null] when [req.json()] rejects. *)
Definition parseJSON (req : Request) : JValue :=
  match req_json req with
  | Some v => v
  | None => JNull
  end.

Definition createJsonResponse (data : JValue) (st : Z) : Response :=
  {| status := st; body := data; content_type := "application/json" |}.

(** [url.searchParams.get(k)] *)
Definition searchParams_get (req : Request) (k : string) : option string :=
  assoc k (searchParams req).

(** [url.searchParams.get(k) || d] *)
Definition param_or (req : Request) (k d : string) : string :=
  match searchParams_get req k with
  | Some v => if (v =? "")%string then d else v
  | None => d
  end.

(** A query parameter used as a condition: present and not empty. *)
Definition param_if (req : Request) (k : string) : option string :=
  match searchParams_get req k with
  | Some v => if (v =? "")%string then None else Some v
  | None => None
  end.

(** ** The token and hashing libraries *)

(** What an awaited call settles to: a value, or a thrown error with its
    message. *)
Inductive Res (A : Type) : Type :=
| Ok (a : A)
| Exn (e : string).
Arguments Ok {A} a.
Arguments Exn {A} e.

Record Payload : Type := { p_id : Z; p_email : string; p_exp : option Z }.

(** Modelled from the spec: the token library ([jwt.sign], [jwt.verify],
    [jwt.decode]) is an imported package, not a file of the repository.  Its
    contract is the Token Service of the specification: a token embeds its
    claims, and verification under the signing key succeeds exactly while the
    current time (in seconds) is before the embedded expiry.  [jwt.verify]
    is a call that can throw (on a string that is not a token at all); the
    contract says nothing about when, only that it does not on a token it
    signed. *)
Class JwtLib : Type := {
  jwt_sign : Payload -> string -> string;
  jwt_verify : string -> string -> Z -> Res bool;
  jwt_decode : string -> option Payload;
  jwt_decode_sign : forall p k, jwt_decode (jwt_sign p k) = Some p;
  jwt_verify_sign : forall p k e t,
    p_exp p = Some e -> jwt_verify (jwt_sign p k) k t = Ok (t <? e)
}.

(** Modelled from the spec: the password library ([bcrypt.hash],
    [bcrypt.compare]) is an imported package.  Its contract is the Password
    Hasher of the specification: hashing is salted, and a hash verifies
    against the plaintext it was made from. *)
Class BcryptLib : Type := {
  bcrypt_hash : string -> nat -> string -> string;   (* plaintext, rounds, salt *)
  bcrypt_compare : string -> string -> bool;
  bcrypt_compare_hash : forall pw rounds s,
    bcrypt_compare pw (bcrypt_hash pw rounds s) = true
}.

(** ** The relational store

    The tables are those of the migration: [users(id, email UNIQUE NOT NULL,
    password, created_at)] and [transactions(id, user_id REFERENCES
    users(id), date TEXT, description TEXT, category TEXT, amount REAL,
    type TEXT, created_at)].  Rows are kept in insertion (rowid) order;
    [created_at] is filled by [DEFAULT CURRENT_TIMESTAMP], a text. *)

Inductive SqlValue : Type :=
| SqlNull
| SqlInt (z : Z)
| SqlReal (q : Q)
| SqlText (s : string)
| SqlBlob (bytes : list Q).

Record UserRow : Type := {
  u_id : Z; u_email : string; u_password : string; u_created_at : string
}.

Record TxRow : Type := {
  t_id : Z; t_user_id : Z; t_date : string;
  t_description : SqlValue; t_category : SqlValue;
  t_amount : Q; t_type : string; t_created_at : string
}.

Record DB : Type := {
  users : list UserRow;
  transactions : list TxRow;
  users_seq : Z;                (* AUTOINCREMENT counters *)
  transactions_seq : Z
}.

(** The listing statement as the handler assembles it: the user id bound to
    [user_id = ?], the optional bounds appended to the text, then the limit
    and the offset. *)
Record TxQuery : Type := {
  q_user : Z;
  q_start : option string;
  q_end : option string;
  q_limit : Num;
  q_offset : Num
}.

Definition tx_query_text (q : TxQuery) : string :=
  "SELECT * FROM transactions WHERE user_id = ?"
  ++ match q_start q with Some _ => " AND date >= ?" | None => "" end
  ++ match q_end q with Some _ => " AND date <= ?" | None => "" end
  ++ " ORDER BY date DESC LIMIT ? OFFSET ?".

(** The awaited statements, indexed by what they resolve to. *)
Inductive StoreOp : Type -> Type :=
| SelectUserId (email : string) : StoreOp (option Z)
| InsertUser (email password : string) : StoreOp unit
| SelectUser (email : string) : StoreOp (option UserRow)
| SelectTransactions (q : TxQuery) : StoreOp (list TxRow)
| InsertTransaction (user_id : Z) (date : string)
    (description category : SqlValue) (amount : Q) (type : string)
  : StoreOp unit.

Definition sql_text {B : Type} (op : StoreOp B) : string :=
  match op with
  | SelectUserId _ => "SELECT id FROM users WHERE email = ?"
  | InsertUser _ _ => "INSERT INTO users (email, password) VALUES (?, ?)"
  | SelectUser _ => "SELECT * FROM users WHERE email = ?"
  | SelectTransactions q => tx_query_text q
  | InsertTransaction _ _ _ _ _ _ =>
      "INSERT INTO transactions (user_id, date, description, category, amount, type) VALUES (?, ?, ?, ?, ?, ?)"
  end.

(** [WHERE email = ?] followed by [.first()]. *)
Definition find_user (db : DB) (email : string) : option UserRow :=
  find (fun u => (u_email u =? email)%string) (users db).

(** Text comparison of the store: byte-wise lexicographic. *)
Definition date_leb (a b : string) : bool := String.leb a b.
Definition date_ltb (a b : string) : bool := String.ltb a b.

Definition tx_where (q : TxQuery) (r : TxRow) : bool :=
  (t_user_id r =? q_user q)
  && match q_start q with Some s => date_leb s (t_date r) | None => true end
  && match q_end q with Some e => date_leb (t_date r) e | None => true end.

(** [ORDER BY date DESC]: the statement names no second key.  Rows of equal
    date keep the order of the scan, which is ascending rowid both for the
    table and for the index [(user_id, date DESC)] of the migration. *)
Fixpoint insert_desc (r : TxRow) (l : list TxRow) : list TxRow :=
  match l with
  | [] => [r]
  | x :: rest =>
      if date_ltb (t_date r) (t_date x) then x :: insert_desc r rest
      else r :: l
  end.

Fixpoint order_by_date_desc (l : list TxRow) : list TxRow :=
  match l with
  | [] => []
  | r :: rest => insert_desc r (order_by_date_desc rest)
  end.

(** [LIMIT n OFFSET m]: a negative offset counts as zero and a negative
    limit as no limit. *)
Definition limit_offset {A : Type} (lim off : Z) (l : list A) : list A :=
  let dropped := skipn (Z.to_nat (Z.max 0 off)) l in
  if lim <? 0 then dropped else firstn (Z.to_nat lim) dropped.

(** A number bound to [LIMIT ?] or [OFFSET ?] must turn into a 64-bit
    integer without loss: an integer-valued double strictly between [-2^63]
    and [2^63].  [NaN], the infinities and the doubles from [2^63] on in
    magnitude are refused. *)
Definition int64_of (n : Num) : option Z :=
  match n with
  | Int z => if (- 2 ^ 63 <? z) && (z <? 2 ^ 63) then Some z else None
  | NaN | Infinity _ => None
  end.

Definition select_transactions (db : DB) (q : TxQuery) : Res (list TxRow) :=
  match int64_of (q_limit q), int64_of (q_offset q) with
  | Some lim, Some off =>
      Ok (limit_offset lim off
            (order_by_date_desc (filter (tx_where q) (transactions db))))
  | _, _ => Exn "D1_ERROR: datatype mismatch"
  end.

(** The store engine is a service of the platform, not a file of the
    repository.  Two of its conversions are taken as they come: the text it
    keeps for a REAL that is written to a TEXT column, and the text of
    [CURRENT_TIMESTAMP] at a reading of its clock (in seconds). *)
Class D1Lib : Type := {
  real_text : Q -> string;
  current_timestamp : Z -> string
}.

(** The text of an integer. *)
Definition int_text (z : Z) : string := NilZero.string_of_int (Z.to_int z).

(** What a TEXT column keeps of a bound value: numbers become their text,
    [NULL], texts and blobs stay. *)
Definition text_affinity {d1 : D1Lib} (v : SqlValue) : SqlValue :=
  match v with
  | SqlInt z => SqlText (int_text z)
  | SqlReal q => SqlText (real_text q)
  | SqlNull | SqlText _ | SqlBlob _ => v
  end.

(** One statement against the store, at store time [now] (seconds). *)
Definition exec {d1 : D1Lib} {B : Type} (now : Z) (op : StoreOp B) (db : DB)
  : Res B * DB :=
  match op in StoreOp T return Res T * DB with
  | SelectUserId email =>
      (Ok (option_map u_id (find_user db email)), db)
  | SelectUser email =>
      (Ok (find_user db email), db)
  | InsertUser email password =>
      match find_user db email with
      | Some _ => (Exn "D1_ERROR: UNIQUE constraint failed: users.email", db)
      | None =>
          let id := users_seq db + 1 in
          (Ok tt,
           {| users := users db ++
                [{| u_id := id; u_email := email; u_password := password;
                    u_created_at := current_timestamp now |}];
              transactions := transactions db;
              users_seq := id;
              transactions_seq := transactions_seq db |})
      end
  | SelectTransactions q => (select_transactions db q, db)
  | InsertTransaction uid date description category amount type =>
      if existsb (fun u => u_id u =? uid) (users db) then
        let id := transactions_seq db + 1 in
        (Ok tt,
         {| users := users db;
            transactions := transactions db ++
              [{| t_id := id; t_user_id := uid; t_date := date;
                  t_description := text_affinity description;
                  t_category := text_affinity category;
                  t_amount := amount; t_type := type;
                  t_created_at := current_timestamp now |}];
            users_seq := users_seq db;
            transactions_seq := id |})
      else (Exn "D1_ERROR: FOREIGN KEY constraint failed", db)
  end.

(** ** Handlers as programs over the store

    A handler either answers, throws, or awaits one statement and goes on
    with what the statement resolves to.  Nothing in the router catches a
    rejected statement, so a failing statement ends the handler. *)

Inductive Prog (A : Type) : Type :=
| Ret (a : A)
| Throw (e : string)
| Await {B : Type} (op : StoreOp B) (k : B -> Prog A).
Arguments Ret {A} a.
Arguments Throw {A} e.
Arguments Await {A B} op k.

Notation "x <- 'await' op ;; k" := (Await op (fun x => k))
  (at level 61, op at next level, right associativity).

Record Outcome (A : Type) : Type := {
  result : Res A;
  final : DB;
  trace : list string      (* text of the statements that ran, in order *)
}.
Arguments result {A} o.
Arguments final {A} o.
Arguments trace {A} o.

(** A handler run to its end with no other request in between. *)
Fixpoint run {d1 : D1Lib} {A : Type} (now : Z) (p : Prog A) (db : DB)
  : Outcome A :=
  match p with
  | Ret a => {| result := Ok a; final := db; trace := [] |}
  | Throw e => {| result := Exn e; final := db; trace := [] |}
  | Await op k =>
      match exec now op db with
      | (Ok b, db') =>
          let o := run now (k b) db' in
          {| result := result o; final := final o;
             trace := sql_text op :: trace o |}
      | (Exn e, db') =>
          {| result := Exn e; final := db'; trace := [sql_text op] |}
      end
  end.

(** A suspended handler resumes: its awaited statement runs atomically. *)
Definition step {d1 : D1Lib} {A : Type} (now : Z) (p : Prog A) (db : DB)
  : Prog A * DB :=
  match p with
  | Await op k =>
      match exec now op db with
      | (Ok b, db') => (k b, db')
      | (Exn e, db') => (Throw e, db')
      end
  | _ => (p, db)
  end.

(** A handler that has answered or thrown. *)
Definition settled {A : Type} (p : Prog A) : bool :=
  match p with
  | Await _ _ => false
  | _ => true
  end.

(** Two requests in flight; the schedule names the one that resumes next
    ([true]: the first). *)
Fixpoint interleave {d1 : D1Lib} {A : Type} (sched : list bool)
    (now1 now2 : Z) (p1 p2 : Prog A) (db : DB) : Prog A * Prog A * DB :=
  match sched with
  | [] => (p1, p2, db)
  | true :: rest =>
      let '(p1', db') := step now1 p1 db in interleave rest now1 now2 p1' p2 db'
  | false :: rest =>
      let '(p2', db') := step now2 p2 db in interleave rest now1 now2 p1 p2' db'
  end.

(** An element of an array that [bind] takes as a blob: a number in
    [0, 256). *)
Definition byte_like (v : JValue) : option Q :=
  match v with
  | JNum q => if Qle_bool 0 q && negb (Qle_bool 256 q) then Some q else None
  | _ => None
  end.

Fixpoint bytes_of (xs : list JValue) : option (list Q) :=
  match xs with
  | [] => Some []
  | x :: rest =>
      match byte_like x, bytes_of rest with
      | Some b, Some bs => Some (b :: bs)
      | _, _ => None
      end
  end.

(** Values as [bind] passes them to the store: [null], booleans as 0 or 1,
    numbers, strings, arrays of bytes; any other array, an object and
    [undefined] are refused with a type error. *)
Definition to_sql (v : JValue) : option SqlValue :=
  match v with
  | JNull => Some SqlNull
  | JBool b => Some (SqlInt (if b then 1 else 0))
  | JNum q => Some (SqlReal q)
  | JStr s => Some (SqlText s)
  | JArr xs => option_map SqlBlob (bytes_of xs)
  | JUndefined | JObj _ => None
  end.

Definition of_sql (v : SqlValue) : JValue :=
  match v with
  | SqlNull => JNull
  | SqlInt z => JNum (inject_Z z)
  | SqlReal q => JNum q
  | SqlText s => JStr s
  | SqlBlob bytes => JArr (map JNum bytes)
  end.

(** A row of [results.results]. *)
Definition tx_json (r : TxRow) : JValue :=
  JObj [("id", JNum (inject_Z (t_id r)));
        ("user_id", JNum (inject_Z (t_user_id r)));
        ("date", JStr (t_date r));
        ("description", of_sql (t_description r));
        ("category", of_sql (t_category r));
        ("amount", JNum (t_amount r));
        ("type", JStr (t_type r));
        ("created_at", JStr (t_created_at r))].

(** The string and the number inside a value a validator has accepted. *)
Definition str_of (v : JValue) : string :=
  match v with JStr s => s | _ => "" end.

Definition num_of (v : JValue) : Q :=
  match v with JNum q => q | _ => 0%Q end.

Definition error_body (msg : string) : JValue := JObj [("error", JStr msg)].
Definition message_body (msg : string) : JValue := JObj [("message", JStr msg)].

Definition seven_days : Z := 7 * 24 * 60 * 60.

Section Router.

Context {jwt : JwtLib} {bcrypt : BcryptLib} {d1 : D1Lib}.

(** [verifyToken]: [null] or the claims; the awaited [jwt.verify] stands in
    no [try], so what it throws leaves the function. *)
Definition verifyToken (authHeader : string) (env : Env) (w : World)
  : Res (option Payload) :=
  if (authHeader =? "")%string || negb (startsWith authHeader "Bearer ")
  then Ok None
  else
    let token := slice 7 authHeader in
    match jwt_verify token (JWT_SECRET env) (now_sec w) with
    | Exn e => Exn e
    | Ok valid =>
        if negb valid then Ok None
        else Ok (jwt_decode token)
    end.

(** The two checks that open the signup and the login handler. *)
Definition credentials_invalid (data : JValue) : bool :=
  negb (truthy data)
  || negb (validateEmail (prop data "email"))
  || negb (validatePassword (prop data "password")).

Definition signup (request : Request) (env : Env) (w : World)
  : Prog Response :=
  let data := parseJSON request in
  if credentials_invalid data then
    Ret (createJsonResponse (error_body "Invalid email or password") 400)
  else
    let email := str_of (prop data "email") in
    let password := str_of (prop data "password") in
    existing <- await (SelectUserId email) ;;
    match existing with
    | Some _ =>
        Ret (createJsonResponse (error_body "Email already registered") 409)
    | None =>
        let hashedPassword := bcrypt_hash password 10 (salt w) in
        _ <- await (InsertUser email hashedPassword) ;;
        Ret (createJsonResponse (message_body "User created") 201)
    end.

Definition login (request : Request) (env : Env) (w : World)
  : Prog Response :=
  let data := parseJSON request in
  if credentials_invalid data then
    Ret (createJsonResponse (error_body "Invalid email or password") 400)
  else
    let email := str_of (prop data "email") in
    let password := str_of (prop data "password") in
    user <- await (SelectUser email) ;;
    match user with
    | None => Ret (createJsonResponse (error_body "Invalid credentials") 401)
    | Some user =>
        let validPassword := bcrypt_compare password (u_password user) in
        if negb validPassword then
          Ret (createJsonResponse (error_body "Invalid credentials") 401)
        else
          let exp := now_sec w + seven_days in
          let token :=
            jwt_sign {| p_id := u_id user; p_email := u_email user;
                        p_exp := Some exp |} (JWT_SECRET env) in
          Ret (createJsonResponse (JObj [("token", JStr token)]) 200)
    end.

Definition metrics : Response :=
  createJsonResponse
    (JObj [("totalRevenue", JNum (inject_Z 100000));
           ("monthlyGrowth", JNum (21 # 2));
           ("cashFlow", JNum (inject_Z 50000))]) 200.

(** The statement of [GET /api/transactions] for a request and the
    verified claims. *)
Definition list_query (request : Request) (decoded : Payload) : TxQuery :=
  let limit := Math_min (parseInt (param_or request "limit" "50")) 100 in
  let offset := parseInt (param_or request "offset" "0") in
  {| q_user := p_id decoded;
     q_start := param_if request "startDate";
     q_end := param_if request "endDate";
     q_limit := limit;
     q_offset := offset |}.

Definition list_transactions (request : Request) (decoded : Payload)
  : Prog Response :=
  let q := list_query request decoded in
  results <- await (SelectTransactions q) ;;
  Ret (createJsonResponse
         (JObj [("transactions", JArr (map tx_json results));
                ("pagination",
                 JObj [("limit", num_json (q_limit q));
                       ("offset", num_json (q_offset q));
                       ("count",
                        JNum (inject_Z (Z.of_nat (List.length results))))])])
         200).

Definition add_transaction (request : Request) (decoded : Payload)
  : Prog Response :=
  let data := parseJSON request in
  if negb (validateTransaction data) then
    Ret (createJsonResponse (error_body "Invalid transaction data") 400)
  else
    match to_sql (js_or (prop data "description") JNull),
          to_sql (js_or (prop data "category") JNull) with
    | Some description, Some category =>
        _ <- await (InsertTransaction (p_id decoded)
                      (str_of (prop data "date")) description category
                      (num_of (prop data "amount"))
                      (str_of (prop data "type"))) ;;
        Ret (createJsonResponse (message_body "Transaction added") 201)
    | _, _ => Throw "D1_TYPE_ERROR: Type 'object' not supported"
    end.

Definition is_route (request : Request) (path method : string) : bool :=
  (url_pathname request =? path)%string && (req_method request =? method)%string.

Definition fetch (request : Request) (env : Env) (w : World)
  : Prog Response :=
  if is_route request "/api/auth/signup" "POST" then signup request env w
  else if is_route request "/api/auth/login" "POST" then login request env w
  else
    let authHeader :=
      match hdr_authorization request with
      | Some h => h
      | None => ""
      end in
    match verifyToken authHeader env w with
    | Exn e => Throw e
    | Ok None => Ret (createJsonResponse (error_body "Unauthorized") 401)
    | Ok (Some decoded) =>
        if is_route request "/api/metrics" "GET" then Ret metrics
        else if is_route request "/api/transactions" "GET"
        then list_transactions request decoded
        else if is_route request "/api/transactions" "POST"
        then add_transaction request decoded
        else Ret (createJsonResponse (error_body "Not found") 404)
    end.

(** The worker answering one request on a store. *)
Definition serve (request : Request) (env : Env) (w : World) (db : DB)
  : Outcome Response :=
  run (now_sec w) (fetch request env w) db.

End Router.

(** ** Reference instances of the libraries

    A transparent codec for tokens, a transparent salted hash and the two
    conversions of the store.  They show that the contracts [JwtLib] and
    [BcryptLib] can be met and let the handlers be evaluated on concrete
    requests. *)

Module Reference.

Fixpoint enc_pos (p : positive) (rest : string) : string :=
  match p with
  | xH => String "." rest
  | xO q => String "0" (enc_pos q rest)
  | xI q => String "1" (enc_pos q rest)
  end.

Fixpoint dec_pos (s : string) : option (positive * string) :=
  match s with
  | EmptyString => None
  | String c r =>
      if Ascii.eqb c "." then Some (xH, r)
      else if Ascii.eqb c "0" then
        match dec_pos r with Some (q, r') => Some (xO q, r') | None => None end
      else if Ascii.eqb c "1" then
        match dec_pos r with Some (q, r') => Some (xI q, r') | None => None end
      else None
  end.

Definition enc_Z (z : Z) (rest : string) : string :=
  match z with
  | Z0 => String "z" rest
  | Zpos p => String "p" (enc_pos p rest)
  | Zneg p => String "n" (enc_pos p rest)
  end.

Definition dec_Z (s : string) : option (Z * string) :=
  match s with
  | EmptyString => None
  | String c r =>
      if Ascii.eqb c "z" then Some (0, r)
      else if Ascii.eqb c "p" then
        match dec_pos r with Some (q, r') => Some (Zpos q, r') | None => None end
      else if Ascii.eqb c "n" then
        match dec_pos r with Some (q, r') => Some (Zneg q, r') | None => None end
      else None
  end.

Definition enc_exp (e : option Z) (rest : string) : string :=
  match e with
  | None => String "N" rest
  | Some z => String "S" (enc_Z z rest)
  end.

Definition dec_exp (s : string) : option (option Z * string) :=
  match s with
  | EmptyString => None
  | String c r =>
      if Ascii.eqb c "N" then Some (None, r)
      else if Ascii.eqb c "S" then
        match dec_Z r with Some (z, r') => Some (Some z, r') | None => None end
      else None
  end.

(** A string, one marked character at a time, closed by ["e"]. *)
Fixpoint enc_str (s rest : string) : string :=
  match s with
  | EmptyString => String "e" rest
  | String c s' => String "c" (String c (enc_str s' rest))
  end.

Fixpoint dec_str (s : string) : option (string * string) :=
  match s with
  | EmptyString => None
  | String m r =>
      if Ascii.eqb m "e" then Some (EmptyString, r)
      else
        match r with
        | EmptyString => None
        | String c r' =>
            match dec_str r' with
            | Some (x, rest) => Some (String c x, rest)
            | None => None
            end
        end
  end.

Definition sign (p : Payload) (key : string) : string :=
  enc_Z (p_id p) (enc_exp (p_exp p) (enc_str (p_email p) key)).

Definition decode (t : string) : option Payload :=
  match dec_Z t with
  | None => None
  | Some (id, r1) =>
      match dec_exp r1 with
      | None => None
      | Some (e, r2) =>
          match dec_str r2 with
          | None => None
          | Some (email, _) =>
              Some {| p_id := id; p_email := email; p_exp := e |}
          end
      end
  end.

(** A string that does not decode is no token: [verify] throws on it. *)
Definition verify (t key : string) (now : Z) : Res bool :=
  match decode t with
  | None => Exn "token must consist of 3 parts"
  | Some p =>
      Ok ((t =? sign p key)%string
          && match p_exp p with Some e => now <? e | None => true end)
  end.

Fixpoint ends_with (h x : string) : bool :=
  (h =? x)%string
  || match h with
     | EmptyString => false
     | String _ r => ends_with r x
     end.

Definition hash (pw : string) (rounds : nat) (s : string) : string :=
  s ++ String ":" pw.

Definition compare (pw h : string) : bool := ends_with h (String ":" pw).

(** [CURRENT_TIMESTAMP]: the civil date and time of day, in UTC, of a count
    of seconds since 1970-01-01, as [YYYY-MM-DD HH:MM:SS]. *)
Definition two_digits (n : Z) : string :=
  if n <? 10 then "0" ++ int_text n else int_text n.

Definition civil_of_days (days : Z) : Z * Z * Z :=
  let z := days + 719468 in
  let era := z / 146097 in
  let doe := z - era * 146097 in
  let yoe := (doe - doe / 1460 + doe / 36524 - doe / 146096) / 365 in
  let doy := doe - (365 * yoe + yoe / 4 - yoe / 100) in
  let mp := (5 * doy + 2) / 153 in
  let d := doy - (153 * mp + 2) / 5 + 1 in
  let m := if mp <? 10 then mp + 3 else mp - 9 in
  let y := yoe + era * 400 + (if m <=? 2 then 1 else 0) in
  (y, m, d).

Definition timestamp (now : Z) : string :=
  let '(y, m, d) := civil_of_days (now / 86400) in
  let secs := now mod 86400 in
  int_text y ++ "-" ++ two_digits m ++ "-" ++ two_digits d ++ " "
  ++ two_digits (secs / 3600) ++ ":" ++ two_digits (secs / 60 mod 60) ++ ":"
  ++ two_digits (secs mod 60).

(** The text of a REAL: exact on integers and on short decimal fractions,
    cut after fifteen decimals otherwise. *)
Fixpoint decimals (fuel : nat) (n d : Z) : string :=
  match fuel with
  | O => ""
  | S fuel' =>
      if n =? 0 then ""
      else int_text (10 * n / d) ++ decimals fuel' (10 * n mod d) d
  end.

Definition text_of_real (q : Q) : string :=
  let n := Z.abs (Qnum q) in
  let d := Zpos (Qden q) in
  (if Qnum q <? 0 then "-" else "")
  ++ int_text (n / d) ++ "."
  ++ (if n mod d =? 0 then "0" else decimals 15 (n mod d) d).

Lemma dec_enc_pos p rest : dec_pos (enc_pos p rest) = Some (p, rest).
Proof.
  induction p as [q IH | q IH | ]; simpl; try rewrite IH; reflexivity.
Qed.

Lemma dec_enc_Z z rest : dec_Z (enc_Z z rest) = Some (z, rest).
Proof.
  destruct z; simpl; try rewrite dec_enc_pos; reflexivity.
Qed.

Lemma dec_enc_exp e rest : dec_exp (enc_exp e rest) = Some (e, rest).
Proof.
  destruct e; simpl; try rewrite dec_enc_Z; reflexivity.
Qed.

Lemma dec_enc_str s rest : dec_str (enc_str s rest) = Some (s, rest).
Proof.
  induction s as [ | c s IH]; simpl; try rewrite IH; reflexivity.
Qed.

Lemma decode_sign p key : decode (sign p key) = Some p.
Proof.
  unfold decode, sign.
  rewrite dec_enc_Z, dec_enc_exp, dec_enc_str.
  destruct p; reflexivity.
Qed.

Lemma verify_sign p key e t :
  p_exp p = Some e -> verify (sign p key) key t = Ok (t <? e).
Proof.
  intros He. unfold verify.
  rewrite decode_sign, String.eqb_refl, He. reflexivity.
Qed.

Lemma ends_with_append s x : ends_with (s ++ x) x = true.
Proof.
  induction s as [ | c s IH]; simpl.
  - destruct x; simpl; rewrite ?Ascii.eqb_refl, ?String.eqb_refl; reflexivity.
  - rewrite IH. apply orb_true_r.
Qed.

Lemma compare_hash pw rounds s : compare pw (hash pw rounds s) = true.
Proof. apply ends_with_append. Qed.

Definition jwt : JwtLib := {|
  jwt_sign := sign;
  jwt_verify := verify;
  jwt_decode := decode;
  jwt_decode_sign := decode_sign;
  jwt_verify_sign := verify_sign
|}.

Definition bcrypt : BcryptLib := {|
  bcrypt_hash := hash;
  bcrypt_compare := compare;
  bcrypt_compare_hash := compare_hash
|}.

Definition d1 : D1Lib := {|
  real_text := text_of_real;
  current_timestamp := timestamp
|}.

End Reference.

(** * Notions used in the statements *)

(** The header the router reads: [headers.get('Authorization') || '']. *)
Definition auth_header (request : Request) : string :=
  match hdr_authorization request with
  | Some h => h
  | None => ""
  end.

(** The claims a successful login signs for a user, at world [w]. *)
Definition login_claims (u : UserRow) (w : World) : Payload :=
  {| p_id := u_id u; p_email := u_email u;
     p_exp := Some (now_sec w + seven_days) |}.

(** The fixed responses of the router. *)
Definition invalid_email_or_password : Response :=
  createJsonResponse (error_body "Invalid email or password") 400.

Definition invalid_credentials : Response :=
  createJsonResponse (error_body "Invalid credentials") 401.

Definition invalid_transaction : Response :=
  createJsonResponse (error_body "Invalid transaction data") 400.

Definition user_created : Response :=
  createJsonResponse (message_body "User created") 201.

Definition email_registered : Response :=
  createJsonResponse (error_body "Email already registered") 409.

(** The rows the statement selects, in the order it gives them, before the
    page is cut. *)
Definition selected (db : DB) (q : TxQuery) : list TxRow :=
  order_by_date_desc (filter (tx_where q) (transactions db)).

(** The body the handler builds around the rows of a page. *)
Definition list_response (q : TxQuery) (results : list TxRow) : Response :=
  createJsonResponse
    (JObj [("transactions", JArr (map tx_json results));
           ("pagination",
            JObj [("limit", num_json (q_limit q));
                  ("offset", num_json (q_offset q));
                  ("count", JNum (inject_Z (Z.of_nat (List.length results))))])])
    200.

(** [a] is listed no later than [b]: its date is not smaller. *)
Definition date_desc (a b : TxRow) : Prop := date_leb (t_date b) (t_date a) = true.

(** The rows of one date. *)
Definition on_date (d : string) (r : TxRow) : bool := (t_date r =? d)%string.

(** The user rows that carry an email. *)
Definition rows_with_email (db : DB) (email : string) : list UserRow :=
  filter (fun u => (u_email u =? email)%string) (users db).

(** The constraint [email UNIQUE] as a property of the table. *)
Definition unique_emails (db : DB) : Prop := NoDup (map u_email (users db)).

(** What the table is after a row was added for [email]. *)
Definition with_user {d1 : D1Lib} (db : DB) (email password : string)
    (now : Z) : DB :=
  {| users := users db ++
       [{| u_id := users_seq db + 1; u_email := email; u_password := password;
           u_created_at := current_timestamp now |}];
     transactions := transactions db;
     users_seq := users_seq db + 1;
     transactions_seq := transactions_seq db |}.

(** The two suspension points of a signup whose body passed the validators:
    before the lookup and before the insert. *)
Definition signup_insert (email hashed : string) : Prog Response :=
  Await (InsertUser email hashed) (fun _ => Ret user_created).

Definition signup_lookup (email hashed : string) : Prog Response :=
  Await (SelectUserId email)
    (fun existing =>
       match existing with
       | Some _ => Ret email_registered
       | None => signup_insert email hashed
       end).

(** Where a signup for [email] can be while it is in flight. *)
Inductive in_signup (email hashed : string) : Prog Response -> Prop :=
| at_lookup : in_signup email hashed (signup_lookup email hashed)
| at_insert : in_signup email hashed (signup_insert email hashed)
| at_conflict : in_signup email hashed (Ret email_registered)
| at_created : in_signup email hashed (Ret user_created)
| at_thrown e : in_signup email hashed (Throw e).

(** Exactly one row carries [email]. *)
Definition registered (db : DB) (email : string) : Prop :=
  List.length (rows_with_email db email) = 1%nat.

(** What holds throughout two signups for one email on a store that did not
    have it: either no row is written yet and both are still suspended, or
    exactly one row carries the email. *)
Definition race_inv (email : string) (p1 p2 : Prog Response) (db : DB) : Prop :=
  (find_user db email = None /\ settled p1 = false /\ settled p2 = false)
  \/ registered db email.

(** * Sample requests and stores

    The worker with the reference libraries, on small stores: the user
    Sarah (id 2) of the seed script, alone or with a second user. *)

Definition demo_env : Env := {| JWT_SECRET := "s3cret" |}.

Definition json_post (path : string) (auth : option string) (data : option JValue)
  : Request :=
  {| url_pathname := path; req_method := "POST"; hdr_authorization := auth;
     searchParams := []; req_json := data |}.

Definition get_request (path : string) (auth : option string)
    (params : list (string * string)) : Request :=
  {| url_pathname := path; req_method := "GET"; hdr_authorization := auth;
     searchParams := params; req_json := None |}.

Definition credentials (email password : string) : JValue :=
  JObj [("email", JStr email); ("password", JStr password)].

Definition unparseable_post (path : string) (auth : option string) : Request :=
  json_post path auth None.

(** A token of the reference codec for the seeded user, and the header that
    carries it. *)
Definition sarah_claims : Payload :=
  {| p_id := 2; p_email := "sarah@example.com"; p_exp := Some 604801 |}.

Definition sarah_bearer : option string :=
  Some ("Bearer " ++ Reference.sign sarah_claims "s3cret").

Definition post_transaction (data : JValue) : Request :=
  json_post "/api/transactions" sarah_bearer (Some data).

Definition list_page (params : list (string * string)) : Request :=
  get_request "/api/transactions" sarah_bearer params.

Definition list_all : Request := get_request "/api/transactions" sarah_bearer [].

Definition reversed_range : Request :=
  list_page [("startDate", "2025-09-05"); ("endDate", "2025-09-01")].

Definition signup_emma : Request :=
  json_post "/api/auth/signup" None
    (Some (credentials "emma@example.com" "letmein")).

Definition login_emma : Request :=
  json_post "/api/auth/login" None
    (Some (credentials "emma@example.com" "letmein")).

Definition login_sarah : Request :=
  json_post "/api/auth/login" None
    (Some (credentials "sarah@example.com" "secret456")).

(** The two bodies of the example scenario. *)
Definition income_0901 : JValue :=
  JObj [("date", JStr "2025-09-01"); ("amount", JNum (inject_Z 1200));
        ("type", JStr "income")].

Definition expense_0903 : JValue :=
  JObj [("date", JStr "2025-09-03"); ("amount", JNum (inject_Z (-150)));
        ("type", JStr "expense")].

Definition same_day (description : string) : JValue :=
  JObj [("date", JStr "2025-09-05"); ("description", JStr description);
        ("amount", JNum (inject_Z 10)); ("type", JStr "income")].

Definition at_second_one : World := {| now_ms := 1000; salt := "pepper" |}.

Definition at_second_two : World := {| now_ms := 2000; salt := "thyme" |}.

Definition before_expiry : World := {| now_ms := 604800999; salt := "" |}.
Definition at_expiry : World := {| now_ms := 604801000; salt := "" |}.

Definition sarah_db : DB :=
  {| users := [{| u_id := 2; u_email := "sarah@example.com";
                  u_password := Reference.hash "secret456" 10 "NaCl";
                  u_created_at := "2025-08-30 09:00:00" |}];
     transactions := []; users_seq := 2; transactions_seq := 0 |}.

Definition seed_row (id uid : Z) (date description : string) (amount : Z)
    (type : string) : TxRow :=
  {| t_id := id; t_user_id := uid; t_date := date;
     t_description := SqlText description; t_category := SqlNull;
     t_amount := inject_Z amount; t_type := type;
     t_created_at := "2025-08-30 09:00:00" |}.

Definition ledger_db : DB :=
  {| users :=
       [{| u_id := 2; u_email := "sarah@example.com";
           u_password := Reference.hash "secret456" 10 "NaCl";
           u_created_at := "2025-08-30 09:00:00" |};
        {| u_id := 3; u_email := "david@example.com";
           u_password := Reference.hash "mypassword" 10 "KCl";
           u_created_at := "2025-08-30 09:00:00" |}];
     transactions :=
       [seed_row 1 2 "2025-09-01" "Freelance Payment" 2000 "income";
        seed_row 2 3 "2025-09-01" "Consulting Income" 3500 "income";
        seed_row 3 2 "2025-09-02" "Laptop Purchase" (-1200) "expense";
        seed_row 4 3 "2025-09-04" "Coworking Rent" (-300) "expense"];
     users_seq := 3; transactions_seq := 4 |}.

Definition demo_serve : Request -> Env -> World -> DB -> Outcome Response :=
  @serve Reference.jwt Reference.bcrypt Reference.d1.

(** The store after a sequence of requests, each at its own world. *)
Definition after (requests : list (Request * World)) (db : DB) : DB :=
  fold_left (fun d rw => final (demo_serve (fst rw) demo_env (snd rw) d))
    requests db.

(** The ids of the records of a listing. *)
Definition listed_ids (o : Outcome Response) : list JValue :=
  match result o with
  | Ok resp =>
      match prop (body resp) "transactions" with
      | JArr items => map (fun item => prop item "id") items
      | _ => []
      end
  | Exn _ => []
  end.

Definition status_of (o : Outcome Response) : option Z :=
  match result o with
  | Ok resp => Some (status resp)
  | Exn _ => None
  end.

Definition four_rows : DB :=
  after [(post_transaction (same_day "a"), at_second_one);
         (post_transaction income_0901, at_second_one);
         (post_transaction expense_0903, at_second_one);
         (post_transaction (same_day "b"), at_second_one)] sarah_db.

(** * Further notions

    What the validators accept, in terms of the strings themselves. *)

(** The strings a pattern matches. *)
Inductive matches : regex -> string -> Prop :=
| m_eps : matches REps ""
| m_class p c : p c = true -> matches (RClass p) (String c "")
| m_cat r1 r2 s1 s2 :
    matches r1 s1 -> matches r2 s2 -> matches (RCat r1 r2) (s1 ++ s2)
| m_alt_l r1 r2 s : matches r1 s -> matches (RAlt r1 r2) s
| m_alt_r r1 r2 s : matches r2 s -> matches (RAlt r1 r2) s
| m_star_nil r : matches (RStar r) ""
| m_star_more r s1 s2 :
    matches r s1 -> matches (RStar r) s2 -> matches (RStar r) (s1 ++ s2).

(** Every code unit of a string satisfies [p]. *)
Fixpoint all_chars (p : ascii -> bool) (s : string) : bool :=
  match s with
  | EmptyString => true
  | String c r => p c && all_chars p r
  end.

(** A non-empty run of code units that are neither white space nor ["@"]:
    what [[^\s@]+] stands for. *)
Definition email_part (s : string) : Prop :=
  s <> "" /\ all_chars not_space_at s = true.

(** How often a code unit occurs in a string. *)
Fixpoint occurrences (c : ascii) (s : string) : nat :=
  match s with
  | EmptyString => O
  | String x r => (if Ascii.eqb x c then 1 else 0) + occurrences c r
  end.

(** The statuses the router answers with. *)
Definition router_statuses : list Z := [200; 201; 400; 401; 404; 409].

Definition unauthorized : Response :=
  createJsonResponse (error_body "Unauthorized") 401.

Definition not_found : Response :=
  createJsonResponse (error_body "Not found") 404.

Definition transaction_added : Response :=
  createJsonResponse (message_body "Transaction added") 201.

(** The row the store keeps of a [POST /api/transactions] for a body and
    verified claims: description and category as the TEXT columns take the
    bound values, [created_at] from the store's clock. *)
Definition new_transaction {d1 : D1Lib} (db : DB) (decoded : Payload)
    (data : JValue) (description category : SqlValue) (now : Z) : TxRow :=
  {| t_id := transactions_seq db + 1;
     t_user_id := p_id decoded;
     t_date := str_of (prop data "date");
     t_description := text_affinity description;
     t_category := text_affinity category;
     t_amount := num_of (prop data "amount");
     t_type := str_of (prop data "type");
     t_created_at := current_timestamp now |}.

(** The store with one more transaction. *)
Definition with_transaction (db : DB) (row : TxRow) : DB :=
  {| users := users db;
     transactions := transactions db ++ [row];
     users_seq := users_seq db;
     transactions_seq := transactions_seq db + 1 |}.

(** The user a token's claims name exists. *)
Definition user_exists (db : DB) (decoded : Payload) : bool :=
  existsb (fun u => u_id u =? p_id decoded) (users db).

(** One of the three routes behind the token check. *)
Definition protected_route (request : Request) : bool :=
  is_route request "/api/metrics" "GET"
  || is_route request "/api/transactions" "GET"
  || is_route request "/api/transactions" "POST".

(** Signup or login. *)
Definition auth_route (request : Request) : bool :=
  is_route request "/api/auth/signup" "POST"
  || is_route request "/api/auth/login" "POST".

(** A row lies within the bounds a listing request gives, both inclusive;
    an absent or empty bound does not restrict. *)
Definition within_bounds (request : Request) (r : TxRow) : Prop :=
  (forall s, param_if request "startDate" = Some s ->
             date_leb s (t_date r) = true)
  /\ (forall e, param_if request "endDate" = Some e ->
                date_leb (t_date r) e = true).

(** The records of a listing response. *)
Definition listed (resp : Response) : list JValue :=
  match prop (body resp) "transactions" with
  | JArr items => items
  | _ => []
  end.


(** ** The guards of the earlier draft of the router

    The draft tests its bodies for presence only.  Its two guards are
    embedded as they stand; its handlers are not, since they depend on
    library calls whose results the draft misreads. *)

Module Draft.

(** [!data?.email || !data?.password] *)
Definition missing_credentials (data : JValue) : bool :=
  negb (truthy (prop data "email")) || negb (truthy (prop data "password")).

(** [!data], then [!date || !amount || !type] on the destructured body. *)
Definition transaction_rejected (data : JValue) : bool :=
  if negb (truthy data) then true
  else negb (truthy (prop data "date"))
       || negb (truthy (prop data "amount"))
       || negb (truthy (prop data "type")).

End Draft.

(** ** The client: [apiFetch], the state container and the metrics effect *)

Inductive Page : Type :=
| dashboard | forecast | reports | settings | analytics | onboarding.

Record AppState : Type := {
  currentPage : Page;
  app_metrics : option JValue;      (* metrics: Metrics | null *)
  loading : bool;
  app_error : option string         (* error: string | null *)
}.

Inductive Action : Type :=
| SET_PAGE (payload : Page)
| SET_METRICS (payload : JValue)
| SET_LOADING (payload : bool)
| SET_ERROR (payload : option string).

Definition initialState : AppState :=
  {| currentPage := dashboard; app_metrics := None; loading := false;
     app_error := None |}.

Definition appReducer (state : AppState) (action : Action) : AppState :=
  match action with
  | SET_PAGE payload =>
      {| currentPage := payload; app_metrics := app_metrics state;
         loading := loading state; app_error := None |}
  | SET_METRICS payload =>
      {| currentPage := currentPage state; app_metrics := Some payload;
         loading := loading state; app_error := app_error state |}
  | SET_LOADING payload =>
      {| currentPage := currentPage state; app_metrics := app_metrics state;
         loading := payload; app_error := app_error state |}
  | SET_ERROR payload =>
      {| currentPage := currentPage state; app_metrics := app_metrics state;
         loading := loading state; app_error := payload |}
  end.

Definition is_dashboard (p : Page) : bool :=
  match p with dashboard => true | _ => false end.

(** The dispatches of [loadMetrics], in order, for what [apiFetch] settles
    to. *)
Definition loadMetrics (fetched : Res JValue) : list Action :=
  [SET_LOADING true; SET_ERROR None]
  ++ match fetched with
     | Ok metrics => [SET_METRICS metrics]
     | Exn _ => [SET_ERROR (Some "Failed to load metrics")]
     end
  ++ [SET_LOADING false].

(** The effect of [useMetrics(currentPage)] on the state, run to its end
    with no other dispatch in between. *)
Definition useMetrics (page : Page) (fetched : Res JValue) (state : AppState)
  : AppState :=
  if negb (is_dashboard page) then state
  else fold_left appReducer (loadMetrics fetched) state.

(** The options of an [apiFetch] call that matter to the worker. *)
Record FetchOptions : Type := {
  opt_method : option string;
  opt_authorization : option string;    (* options.headers.Authorization *)
  opt_json : option JValue              (* what the body parses to *)
}.

Definition no_options : FetchOptions :=
  {| opt_method := None; opt_authorization := None; opt_json := None |}.

(** The request [apiFetch] sends: the Authorization header is
    ["Bearer " + token] when local storage holds a non-empty token, else
    whatever the options carry. *)
Definition api_request (token : option string) (path : string)
    (params : list (string * string)) (options : FetchOptions) : Request :=
  {| url_pathname := path;
     req_method := match opt_method options with Some m => m | None => "GET" end;
     hdr_authorization :=
       match token with
       | Some t => if (t =? "")%string then opt_authorization options
                   else Some ("Bearer " ++ t)
       | None => opt_authorization options
       end;
     searchParams := params;
     req_json := opt_json options |}.

(** [res.ok] *)
Definition status_ok (st : Z) : bool := (200 <=? st) && (st <=? 299).

Section Client.

Context {jwt : JwtLib} {bcrypt : BcryptLib} {d1 : D1Lib}.

(** [JSON.stringify], and the body of the platform's answer to a handler
    that threw. *)
Variable JSON_stringify : JValue -> string.
Variable error_page : string.

(** [apiFetch(endpoint, options)] against the worker: the parsed body of an
    ok response, or an error with the response text ([API Error] when the
    text is empty).  [res.json()] gives back the value the worker
    serialised: its bodies hold strings, numbers, [null], arrays and
    objects only. *)
Definition apiFetch (token : option string) (path : string)
    (params : list (string * string)) (options : FetchOptions)
    (env : Env) (w : World) (db : DB) : Res JValue :=
  let thrown (text : string) :=
    Exn (if (text =? "")%string then "API Error" else text) in
  match result (serve (api_request token path params options) env w db) with
  | Ok resp =>
      if status_ok (status resp) then Ok (body resp)
      else thrown (JSON_stringify (body resp))
  | Exn _ => thrown error_page
  end.

End Client.

(** *** The authentication hook

    The state of [useAuth] in the variant that keeps the token in the user
    context, and what an awaited [fetch] settles to: a response of any
    status, or a rejection (the network failed) with its message. *)

Record AuthState : Type := {
  auth_user : option string;        (* user: { email } | null *)
  auth_token : JValue;              (* token, [null] at first *)
  auth_loading : bool;
  auth_error : option string
}.

Record HttpResponse : Type := {
  http_status : Z;
  http_text : string;               (* res.text() *)
  http_json : option JValue         (* res.json(); None: it rejects *)
}.

(** The request the hooks send: a JSON body of the two fields, no
    Authorization header. *)
Definition credentials_post (path email password : string) : Request :=
  json_post path None (Some (credentials email password)).

(** [e.message || fallback] *)
Definition message_or (message fallback : string) : string :=
  if (message =? "")%string then fallback else message.

(** [signup] of the hook that does not look at the response: only a
    rejected fetch is an error. *)
Definition signup_unchecked (fetched : Res HttpResponse) (state : AuthState)
  : AuthState :=
  {| auth_user := auth_user state;
     auth_token := auth_token state;
     auth_loading := false;
     auth_error :=
       match fetched with
       | Ok _ => None
       | Exn message => Some (message_or message "Signup failed")
       end |}.

(** [signup] of the hook that throws on [!res.ok]. *)
Definition signup_checked (fetched : Res HttpResponse) (state : AuthState)
  : AuthState :=
  {| auth_user := auth_user state;
     auth_token := auth_token state;
     auth_loading := false;
     auth_error :=
       match fetched with
       | Ok res =>
           if status_ok (http_status res) then None
           else Some (message_or (http_text res) "Signup failed")
       | Exn message => Some (message_or message "Signup failed")
       end |}.

Section Hooks.

Context {jwt : JwtLib} {bcrypt : BcryptLib} {d1 : D1Lib}.

(** [JSON.stringify]; the body of the platform's answer to a handler that
    threw; the messages of the errors raised by [res.json()] on a body that
    is not JSON and by [data.token] on a [null] body. *)
Variable JSON_stringify : JValue -> string.
Variable error_page : string.
Variable json_error : string.
Variable type_error : string.

(** The worker's outcome as the client receives it. *)
Definition http_of (o : Outcome Response) : HttpResponse :=
  match result o with
  | Ok resp =>
      {| http_status := status resp;
         http_text := JSON_stringify (body resp);
         http_json := Some (body resp) |}
  | Exn _ =>
      {| http_status := 500; http_text := error_page; http_json := None |}
  end.

(** [login] of the hook: the state once the call has ended. *)
Definition login_hook (email : string) (fetched : Res HttpResponse)
    (state : AuthState) : AuthState :=
  let caught (message : string) :=
    {| auth_user := auth_user state; auth_token := auth_token state;
       auth_loading := false; auth_error := Some message |} in
  match fetched with
  | Exn message => caught message
  | Ok res =>
      if negb (status_ok (http_status res)) then caught (http_text res)
      else
        match http_json res with
        | None => caught json_error
        | Some JNull | Some JUndefined => caught type_error
        | Some data =>
            {| auth_user := Some email; auth_token := prop data "token";
               auth_loading := false; auth_error := None |}
        end
  end.

End Hooks.

(** ** Further sample data

    A token for the second seeded user, and stand-ins for what the platform
    supplies to the client: the text of a body and the page sent for a
    handler that threw. *)

Definition david_claims : Payload :=
  {| p_id := 3; p_email := "david@example.com"; p_exp := Some 604801 |}.

Definition david_bearer : option string :=
  Some ("Bearer " ++ Reference.sign david_claims "s3cret").

Definition sarah_token : string := Reference.sign sarah_claims "s3cret".

Definition sarah_login_response : Response :=
  createJsonResponse (JObj [("token", JStr sarah_token)]) 200.

Definition sample_text (v : JValue) : string :=
  match prop v "error" with
  | JStr message => message
  | _ => "{}"
  end.

Definition sample_error_page : string := "error code: 1101".


Definition signed_out : AuthState :=
  {| auth_user := None; auth_token := JNull; auth_loading := true;
     auth_error := None |}.

(** * Properties of the router *)

(** ** The helpers on sample inputs *)

Example validateEmail_ok : validateEmail (JStr "sarah@example.com") = true.
Proof. reflexivity. Qed.

Example validateEmail_no_dot : validateEmail (JStr "sarah@example") = false.
Proof. reflexivity. Qed.

Example validateEmail_two_ats : validateEmail (JStr "a@b@c.d") = false.
Proof. reflexivity. Qed.

Example validateEmail_space : validateEmail (JStr "a b@c.d") = false.
Proof. reflexivity. Qed.

Example parseInt_examples :
  parseInt "50" = Int 50 /\ parseInt " -7x" = Int (-7) /\
  parseInt "abc" = NaN /\ parseInt "" = NaN /\ parseInt "12.5" = Int 12.
Proof. repeat split; reflexivity. Qed.

(** Beyond [2^53] the integer read is rounded to the nearest double, and a
    long run of digits is an infinity. *)
Example parseInt_rounds :
  parseInt "9007199254740993" = Int 9007199254740992
  /\ parseInt "99999999999999999999" = Int 100000000000000000000
  /\ parseInt "9223372036854775807" = Int 9223372036854775808
  /\ round_double (10 ^ 309) = Infinity false
  /\ round_double (- 10 ^ 309) = Infinity true.
Proof. repeat split; vm_compute; reflexivity. Qed.

(** What the store takes as a limit or an offset. *)
Example int64_of_examples :
  int64_of (parseInt "-5") = Some (-5)
  /\ int64_of (parseInt "9007199254740993") = Some 9007199254740992
  /\ int64_of (parseInt "9223372036854775808") = None
  /\ int64_of (parseInt "-99999999999999999999") = None
  /\ int64_of (parseInt "ten") = None.
Proof. repeat split; vm_compute; reflexivity. Qed.

Example trim_examples :
  trim "  2025-09-01 " = "2025-09-01" /\ trim "   " = "" /\ trim "a b" = "a b".
Proof. repeat split; reflexivity. Qed.

(** ** Routing *)

Lemma is_route_inv request path method :
  is_route request path method = true ->
  url_pathname request = path /\ req_method request = method.
Proof.
  unfold is_route. intros H.
  apply andb_true_iff in H. destruct H as [Hp Hm].
  apply String.eqb_eq in Hp. apply String.eqb_eq in Hm. auto.
Qed.

Ltac at_route H :=
  let Hp := fresh "Hpath" in
  let Hm := fresh "Hmethod" in
  destruct (is_route_inv _ _ _ H) as [Hp Hm];
  unfold serve, fetch, is_route; rewrite Hp, Hm; simpl.

Section RouterFacts.

Context {jwt : JwtLib} {bcrypt : BcryptLib} {d1 : D1Lib}.

Lemma fetch_signup request env w :
  is_route request "/api/auth/signup" "POST" = true ->
  fetch request env w = signup request env w.
Proof. intros H. unfold fetch. rewrite H. reflexivity. Qed.

Lemma fetch_login request env w :
  is_route request "/api/auth/login" "POST" = true ->
  fetch request env w = login request env w.
Proof. intros H. at_route H. reflexivity. Qed.

Lemma fetch_unauthorized request env w :
  is_route request "/api/auth/signup" "POST" = false ->
  is_route request "/api/auth/login" "POST" = false ->
  verifyToken (auth_header request) env w = Ok None ->
  fetch request env w =
  Ret (createJsonResponse (error_body "Unauthorized") 401).
Proof.
  intros H1 H2 Hv. unfold fetch. rewrite H1, H2.
  fold (auth_header request). rewrite Hv. reflexivity.
Qed.

Lemma fetch_list request env w decoded :
  is_route request "/api/transactions" "GET" = true ->
  verifyToken (auth_header request) env w = Ok (Some decoded) ->
  fetch request env w = list_transactions request decoded.
Proof.
  intros H Hv. at_route H. fold (auth_header request).
  rewrite Hv. reflexivity.
Qed.

Lemma fetch_add request env w decoded :
  is_route request "/api/transactions" "POST" = true ->
  verifyToken (auth_header request) env w = Ok (Some decoded) ->
  fetch request env w = add_transaction request decoded.
Proof.
  intros H Hv. at_route H. fold (auth_header request).
  rewrite Hv. reflexivity.
Qed.

End RouterFacts.

(** ** Login failures *)

Section Login.

Context {jwt : JwtLib} {bcrypt : BcryptLib} {d1 : D1Lib}.

Lemma login_unknown_email request env w db :
  credentials_invalid (parseJSON request) = false ->
  find_user db (str_of (prop (parseJSON request) "email")) = None ->
  run (now_sec w) (login request env w) db =
  {| result := Ok invalid_credentials; final := db;
     trace := ["SELECT * FROM users WHERE email = ?"] |}.
Proof.
  intros Hv Hf. unfold login. rewrite Hv. simpl. rewrite Hf. reflexivity.
Qed.

Lemma login_wrong_password request env w db u :
  credentials_invalid (parseJSON request) = false ->
  find_user db (str_of (prop (parseJSON request) "email")) = Some u ->
  bcrypt_compare (str_of (prop (parseJSON request) "password"))
    (u_password u) = false ->
  run (now_sec w) (login request env w) db =
  {| result := Ok invalid_credentials; final := db;
     trace := ["SELECT * FROM users WHERE email = ?"] |}.
Proof.
  intros Hv Hf Hc. unfold login. rewrite Hv. simpl. rewrite Hf, Hc.
  reflexivity.
Qed.

(** A login whose body fails the validators is answered without a lookup. *)
Lemma login_invalid request env w db :
  credentials_invalid (parseJSON request) = true ->
  run (now_sec w) (login request env w) db =
  {| result := Ok invalid_email_or_password; final := db; trace := [] |}.
Proof. intros Hv. unfold login. rewrite Hv. reflexivity. Qed.

(** C2: a login that fails because the email is unknown and a login that
    fails because the password does not match get the same response, status
    401 with the body [{error: 'Invalid credentials'}]; the outcomes agree
    down to the single statement each one ran.  Moreover one and the same
    login request gets the same response on a store that lacks the email and
    on a store that has it with another password, whatever the body is. *)
Theorem C2_login_failures_indistinguishable :
  (forall (env : Env) (w1 w2 : World) (db1 db2 : DB) (r1 r2 : Request)
          (u : UserRow),
      is_route r1 "/api/auth/login" "POST" = true ->
      is_route r2 "/api/auth/login" "POST" = true ->
      credentials_invalid (parseJSON r1) = false ->
      credentials_invalid (parseJSON r2) = false ->
      find_user db1 (str_of (prop (parseJSON r1) "email")) = None ->
      find_user db2 (str_of (prop (parseJSON r2) "email")) = Some u ->
      bcrypt_compare (str_of (prop (parseJSON r2) "password")) (u_password u)
        = false ->
      result (serve r1 env w1 db1) = Ok invalid_credentials
      /\ result (serve r2 env w2 db2) = Ok invalid_credentials
      /\ status invalid_credentials = 401
      /\ body invalid_credentials = JObj [("error", JStr "Invalid credentials")]
      /\ trace (serve r1 env w1 db1) = trace (serve r2 env w2 db2))
  /\ (forall (env : Env) (w1 w2 : World) (db1 db2 : DB) (r : Request)
             (u : UserRow),
         is_route r "/api/auth/login" "POST" = true ->
         find_user db1 (str_of (prop (parseJSON r) "email")) = None ->
         find_user db2 (str_of (prop (parseJSON r) "email")) = Some u ->
         bcrypt_compare (str_of (prop (parseJSON r) "password")) (u_password u)
           = false ->
         result (serve r env w1 db1) = result (serve r env w2 db2)
         /\ trace (serve r env w1 db1) = trace (serve r env w2 db2)).
Proof.
  split.
  - intros env w1 w2 db1 db2 r1 r2 u R1 R2 V1 V2 F1 F2 C.
    unfold serve. rewrite (fetch_login _ _ _ R1), (fetch_login _ _ _ R2).
    rewrite (login_unknown_email _ _ _ _ V1 F1).
    rewrite (login_wrong_password _ _ _ _ _ V2 F2 C).
    repeat split; reflexivity.
  - intros env w1 w2 db1 db2 r u R F1 F2 C.
    unfold serve. rewrite !(fetch_login _ _ _ R).
    destruct (credentials_invalid (parseJSON r)) eqn:V.
    + rewrite !(login_invalid _ _ _ _ V). split; reflexivity.
    + rewrite (login_unknown_email _ _ _ _ V F1).
      rewrite (login_wrong_password _ _ _ _ _ V F2 C).
      split; reflexivity.
Qed.

End Login.

Lemma C2_login_failures_witness :
  result (demo_serve
            (json_post "/api/auth/login" None
               (Some (credentials "nobody@example.com" "secret456")))
            demo_env at_second_one sarah_db)
  = Ok invalid_credentials
  /\ result (demo_serve
               (json_post "/api/auth/login" None
                  (Some (credentials "sarah@example.com" "wrong-password")))
               demo_env at_second_two sarah_db)
     = Ok invalid_credentials.
Proof.
  pose proof (proj1 (@C2_login_failures_indistinguishable Reference.jwt
                       Reference.bcrypt Reference.d1)
    demo_env at_second_one at_second_two sarah_db sarah_db
    (json_post "/api/auth/login" None
       (Some (credentials "nobody@example.com" "secret456")))
    (json_post "/api/auth/login" None
       (Some (credentials "sarah@example.com" "wrong-password")))
    {| u_id := 2; u_email := "sarah@example.com";
       u_password := Reference.hash "secret456" 10 "NaCl";
       u_created_at := "2025-08-30 09:00:00" |}
    eq_refl eq_refl eq_refl eq_refl eq_refl eq_refl eq_refl) as H.
  split; [exact (proj1 H) | exact (proj1 (proj2 H))].
Defined.

(** ** Creating a transaction *)

Section AddTransaction.

Context {jwt : JwtLib} {bcrypt : BcryptLib} {d1 : D1Lib}.

Lemma validateTransaction_rejects data :
  blank_or_not_string (prop data "date") = true
  \/ is_number (prop data "amount") = false
  \/ blank_or_not_string (prop data "type") = true ->
  validateTransaction data = false.
Proof.
  intros H. unfold validateTransaction.
  destruct (truthy data); simpl; [ | reflexivity].
  destruct H as [H | [H | H]].
  - rewrite H. reflexivity.
  - rewrite H. destruct (blank_or_not_string (prop data "date")); reflexivity.
  - rewrite H.
    destruct (blank_or_not_string (prop data "date")); [reflexivity | ].
    destruct (is_number (prop data "amount")); reflexivity.
Qed.

Lemma add_transaction_invalid request decoded now db :
  validateTransaction (parseJSON request) = false ->
  run now (add_transaction request decoded) db =
  {| result := Ok invalid_transaction; final := db; trace := [] |}.
Proof.
  intros H. unfold add_transaction. rewrite H. reflexivity.
Qed.

Lemma validateTransaction_accepts data :
  blank_or_not_string (prop data "date") = false ->
  is_number (prop data "amount") = true ->
  blank_or_not_string (prop data "type") = false ->
  validateTransaction data = true.
Proof.
  intros Hd Ha Ht. unfold validateTransaction.
  assert (Htr : truthy data = true).
  { destruct data; cbn in Hd; try discriminate; reflexivity. }
  rewrite Htr, Hd, Ha, Ht. reflexivity.
Qed.

Lemma add_transaction_valid_not_400 request decoded now db :
  validateTransaction (parseJSON request) = true ->
  result (run now (add_transaction request decoded) db)
  <> Ok invalid_transaction.
Proof.
  intros H. unfold add_transaction. rewrite H. cbn [negb].
  destruct (to_sql (js_or (prop (parseJSON request) "description") JNull));
    [ | discriminate].
  destruct (to_sql (js_or (prop (parseJSON request) "category") JNull));
    [ | discriminate].
  cbn [run].
  destruct (exec now _ db) as [[[] | e] db']; cbn; discriminate.
Qed.

(** C6 (as the router has it): an authenticated POST /api/transactions is
    answered 400, with no statement run and the store unchanged, whenever
    the body's [date] is not a string with a non-blank character, or
    [amount] is not a JSON number, or [type] is not a string with a
    non-blank character; a body that passes these three checks is never
    answered with that 400, whatever its date and type say. *)
Theorem C6_malformed_transaction_rejected
    (request : Request) (env : Env) (w : World) (db : DB) (decoded : Payload) :
  is_route request "/api/transactions" "POST" = true ->
  verifyToken (auth_header request) env w = Ok (Some decoded) ->
  (blank_or_not_string (prop (parseJSON request) "date") = true
   \/ is_number (prop (parseJSON request) "amount") = false
   \/ blank_or_not_string (prop (parseJSON request) "type") = true ->
   serve request env w db =
   {| result := Ok invalid_transaction; final := db; trace := [] |})
  /\ status invalid_transaction = 400
  /\ (blank_or_not_string (prop (parseJSON request) "date") = false ->
      is_number (prop (parseJSON request) "amount") = true ->
      blank_or_not_string (prop (parseJSON request) "type") = false ->
      result (serve request env w db) <> Ok invalid_transaction).
Proof.
  intros R A. unfold serve. rewrite (fetch_add _ _ _ _ R A).
  split; [ | split; [reflexivity | ]].
  - intros H.
    apply add_transaction_invalid, validateTransaction_rejects, H.
  - intros Hd Ha Ht.
    apply add_transaction_valid_not_400, validateTransaction_accepts;
      assumption.
Qed.

End AddTransaction.

Lemma C6_malformed_transaction_witness :
  result (@serve Reference.jwt Reference.bcrypt Reference.d1
            (json_post "/api/transactions" sarah_bearer
               (Some (JObj [("date", JStr "2025-09-01");
                            ("amount", JStr "12.50");
                            ("type", JStr "income")])))
            demo_env at_second_one sarah_db)
  = Ok invalid_transaction.
Proof.
  exact (f_equal result
    (proj1 (@C6_malformed_transaction_rejected Reference.jwt Reference.bcrypt Reference.d1
       (json_post "/api/transactions" sarah_bearer
          (Some (JObj [("date", JStr "2025-09-01");
                       ("amount", JStr "12.50");
                       ("type", JStr "income")])))
       demo_env at_second_one sarah_db sarah_claims
       eq_refl eq_refl) (or_intror (or_introl eq_refl)))).
Defined.

(** C6, as stated, fails: a date that is no calendar date and a type outside
    the two enumerated values are accepted with 201 and the row is written. *)
Lemma C6_counterexample_not_a_date :
  result (@serve Reference.jwt Reference.bcrypt Reference.d1
            (json_post "/api/transactions" sarah_bearer
               (Some (JObj [("date", JStr "not-a-date");
                            ("amount", JNum (inject_Z 5));
                            ("type", JStr "gift")])))
            demo_env at_second_one sarah_db)
  = Ok (createJsonResponse (message_body "Transaction added") 201)
  /\ map (fun r => (t_user_id r, t_date r, t_type r))
       (transactions
          (final (@serve Reference.jwt Reference.bcrypt Reference.d1
            (json_post "/api/transactions" sarah_bearer
               (Some (JObj [("date", JStr "not-a-date");
                            ("amount", JNum (inject_Z 5));
                            ("type", JStr "gift")])))
            demo_env at_second_one sarah_db)))
     = [(2, "not-a-date", "gift")].
Proof. split; vm_compute; reflexivity. Qed.

(** ** The order of dates and the listing statement *)

Lemma date_leb_iff a b :
  date_leb a b = true <-> String_as_OT.lt a b \/ a = b.
Proof.
  unfold date_leb, String.leb.
  destruct (String.compare a b) eqn:E.
  - apply String_as_OT.cmp_eq in E. tauto.
  - apply String_as_OT.cmp_lt in E. tauto.
  - split; [discriminate | ].
    intros [H | H].
    + apply String_as_OT.cmp_lt in H. unfold String_as_OT.cmp in H. congruence.
    + apply String_as_OT.cmp_eq in H. unfold String_as_OT.cmp in H. congruence.
Qed.

Lemma date_ltb_iff a b : date_ltb a b = true <-> String_as_OT.lt a b.
Proof.
  unfold date_ltb, String.ltb. rewrite <- String_as_OT.cmp_lt.
  unfold String_as_OT.cmp. destruct (String.compare a b); intuition congruence.
Qed.

Lemma date_leb_trans a b c :
  date_leb a b = true -> date_leb b c = true -> date_leb a c = true.
Proof.
  rewrite !date_leb_iff. intros [H1 | H1] [H2 | H2]; subst; auto.
  left. eapply String_as_OT.lt_trans; eauto.
Qed.

Lemma date_ltb_false_leb a b : date_ltb a b = false -> date_leb b a = true.
Proof.
  unfold date_ltb, date_leb, String.ltb, String.leb.
  pose proof (String_as_OT.cmp_antisym b a) as H.
  unfold String_as_OT.cmp in H. rewrite H.
  destruct (String.compare a b); simpl; congruence.
Qed.

Lemma date_ltb_leb a b : date_ltb a b = true -> date_leb a b = true.
Proof.
  intros H. apply date_leb_iff. left. apply date_ltb_iff, H.
Qed.

(** No date lies between a start and a strictly smaller end. *)
Lemma date_window_empty s e d :
  date_ltb e s = true -> date_leb s d = true -> date_leb d e = true -> False.
Proof.
  intros Hlt H1 H2.
  pose proof (date_leb_trans _ _ _ H1 H2) as Hse.
  apply date_ltb_iff in Hlt. apply date_leb_iff in Hse.
  destruct Hse as [Hse | Hse].
  - apply (String_as_OT.lt_not_eq e e); [ | reflexivity].
    eapply String_as_OT.lt_trans; eauto.
  - subst. apply (String_as_OT.lt_not_eq e e); [assumption | reflexivity].
Qed.

Lemma insert_desc_perm r l : Permutation (insert_desc r l) (r :: l).
Proof.
  induction l as [ | x l IH]; simpl; [reflexivity | ].
  destruct (date_ltb (t_date r) (t_date x)); [ | reflexivity].
  rewrite IH. apply perm_swap.
Qed.

Lemma order_by_date_desc_perm l : Permutation (order_by_date_desc l) l.
Proof.
  induction l as [ | r l IH]; simpl; [reflexivity | ].
  rewrite insert_desc_perm. now constructor.
Qed.

Lemma insert_desc_sorted r l :
  StronglySorted date_desc l -> StronglySorted date_desc (insert_desc r l).
Proof.
  induction 1 as [ | x l Hs IH Hx]; simpl.
  - repeat constructor.
  - destruct (date_ltb (t_date r) (t_date x)) eqn:E.
    + constructor; [exact IH | ].
      eapply Permutation_Forall.
      * symmetry. apply insert_desc_perm.
      * constructor; [ | exact Hx]. apply date_ltb_leb, E.
    + constructor; [constructor; assumption | ].
      pose proof (date_ltb_false_leb _ _ E) as Hxr.
      constructor; [exact Hxr | ].
      eapply Forall_impl; [ | exact Hx].
      intros y Hy. unfold date_desc in *.
      eapply date_leb_trans; eauto.
Qed.

Lemma order_by_date_desc_sorted l :
  StronglySorted date_desc (order_by_date_desc l).
Proof.
  induction l as [ | r l IH]; simpl; [constructor | ].
  apply insert_desc_sorted, IH.
Qed.

Lemma date_ltb_irrefl a : date_ltb a a = false.
Proof.
  destruct (date_ltb a a) eqn:E; [ | reflexivity].
  apply date_ltb_iff in E.
  exfalso. apply (String_as_OT.lt_not_eq a a); [assumption | reflexivity].
Qed.

Lemma insert_desc_stable d r l :
  filter (on_date d) (insert_desc r l) = filter (on_date d) (r :: l).
Proof.
  induction l as [ | x l IH]; [reflexivity | ].
  cbn [insert_desc].
  destruct (date_ltb (t_date r) (t_date x)) eqn:E; [ | reflexivity].
  cbn [filter] in *. rewrite IH.
  destruct (on_date d x) eqn:Hx, (on_date d r) eqn:Hr; try reflexivity.
  unfold on_date in Hx, Hr.
  apply String.eqb_eq in Hx. apply String.eqb_eq in Hr.
  rewrite Hx, Hr, date_ltb_irrefl in E. discriminate.
Qed.

Lemma order_by_date_desc_stable d l :
  filter (on_date d) (order_by_date_desc l) = filter (on_date d) l.
Proof.
  induction l as [ | r l IH]; [reflexivity | ].
  cbn [order_by_date_desc]. rewrite insert_desc_stable.
  cbn [filter]. rewrite IH. reflexivity.
Qed.

(** A page is a window of the sorted rows. *)
Lemma In_firstn {A : Type} n (l : list A) x : In x (firstn n l) -> In x l.
Proof.
  intros H. rewrite <- (firstn_skipn n l). apply in_or_app. now left.
Qed.

Lemma In_skipn {A : Type} n (l : list A) x : In x (skipn n l) -> In x l.
Proof.
  intros H. rewrite <- (firstn_skipn n l). apply in_or_app. now right.
Qed.

Lemma limit_offset_incl {A : Type} lim off (l : list A) x :
  In x (limit_offset lim off l) -> In x l.
Proof.
  unfold limit_offset. intros H.
  destruct (lim <? 0).
  - eapply In_skipn, H.
  - eapply In_skipn, In_firstn, H.
Qed.

Lemma StronglySorted_skipn {A : Type} (R : A -> A -> Prop) n l :
  StronglySorted R l -> StronglySorted R (skipn n l).
Proof.
  revert l. induction n as [ | n IH]; intros l H; [exact H | ].
  destruct l as [ | x l]; [constructor | ].
  simpl. apply IH. now inversion H.
Qed.

Lemma StronglySorted_firstn {A : Type} (R : A -> A -> Prop) n l :
  StronglySorted R l -> StronglySorted R (firstn n l).
Proof.
  revert l. induction n as [ | n IH]; intros l H; [constructor | ].
  destruct l as [ | x l]; [constructor | ].
  simpl. inversion H as [ | ? ? Hs Hx]; subst.
  constructor; [apply IH, Hs | ].
  rewrite Forall_forall in *. intros y Hy. apply Hx.
  eapply In_firstn. exact Hy.
Qed.

Lemma limit_offset_sorted {A : Type} (R : A -> A -> Prop) lim off l :
  StronglySorted R l -> StronglySorted R (limit_offset lim off l).
Proof.
  intros H. unfold limit_offset.
  destruct (lim <? 0).
  - apply StronglySorted_skipn, H.
  - apply StronglySorted_firstn, StronglySorted_skipn, H.
Qed.

(** ** Listing transactions *)

Lemma selected_owner db q r :
  In r (selected db q) -> In r (transactions db) /\ t_user_id r = q_user q.
Proof.
  unfold selected. intros H.
  apply (Permutation_in _ (order_by_date_desc_perm _)) in H.
  apply filter_In in H. destruct H as [Hin Hw]. split; [exact Hin | ].
  unfold tx_where in Hw.
  apply andb_true_iff in Hw. destruct Hw as [Hw _].
  apply andb_true_iff in Hw. destruct Hw as [Hw _].
  apply Z.eqb_eq, Hw.
Qed.

(** What the store accepts as a limit or an offset. *)
Lemma int64_of_Some n z :
  int64_of n = Some z <-> n = Int z /\ - 2 ^ 63 < z < 2 ^ 63.
Proof.
  unfold int64_of. destruct n as [ | neg | v].
  - split; [discriminate | intros [H _]; discriminate H].
  - split; [discriminate | intros [H _]; discriminate H].
  - destruct (Z.ltb_spec (- 2 ^ 63) v) as [Hlo | Hlo];
      destruct (Z.ltb_spec v (2 ^ 63)) as [Hhi | Hhi]; cbn [andb];
      (split;
       [ intros H; inversion H; subst; repeat split; (reflexivity || assumption)
       | intros [H [H1 H2]]; inversion H; subst;
         first [reflexivity | exfalso; lia] ]).
Qed.

Lemma int64_of_Int n z : int64_of n = Some z -> n = Int z.
Proof. intros H. apply int64_of_Some in H. apply H. Qed.

Lemma int64_of_small z :
  - 2 ^ 63 < z < 2 ^ 63 -> int64_of (Int z) = Some z.
Proof. intros H. apply int64_of_Some. split; [reflexivity | exact H]. Qed.

Section Listing.

Context {jwt : JwtLib} {bcrypt : BcryptLib} {d1 : D1Lib}.

Lemma run_select now q db (k : list TxRow -> Prog Response) :
  run now (Await (SelectTransactions q) k) db =
  match int64_of (q_limit q), int64_of (q_offset q) with
  | Some lim, Some off =>
      let o := run now (k (limit_offset lim off (selected db q))) db in
      {| result := result o; final := final o;
         trace := tx_query_text q :: trace o |}
  | _, _ =>
      {| result := Exn "D1_ERROR: datatype mismatch"; final := db;
         trace := [tx_query_text q] |}
  end.
Proof.
  cbn [run exec]. unfold select_transactions, selected.
  destruct (int64_of (q_limit q)); [ | reflexivity].
  destruct (int64_of (q_offset q)); reflexivity.
Qed.

Lemma run_list request decoded now db lim off :
  int64_of (q_limit (list_query request decoded)) = Some lim ->
  int64_of (q_offset (list_query request decoded)) = Some off ->
  run now (list_transactions request decoded) db =
  {| result :=
       Ok (list_response (list_query request decoded)
             (limit_offset lim off (selected db (list_query request decoded))));
     final := db;
     trace := [tx_query_text (list_query request decoded)] |}.
Proof.
  intros Hl Ho. unfold list_transactions, list_response. cbv zeta.
  rewrite run_select, Hl, Ho. reflexivity.
Qed.

Lemma run_list_trace request decoded now db :
  trace (run now (list_transactions request decoded) db)
  = [tx_query_text (list_query request decoded)]
  /\ final (run now (list_transactions request decoded) db) = db.
Proof.
  unfold list_transactions. cbv zeta. rewrite run_select.
  destruct (int64_of (q_limit (list_query request decoded)));
    [ | split; reflexivity].
  destruct (int64_of (q_offset (list_query request decoded)));
    split; reflexivity.
Qed.

Lemma run_list_result request decoded now db :
  match result (run now (list_transactions request decoded) db) with
  | Ok resp =>
      exists lim off,
        int64_of (q_limit (list_query request decoded)) = Some lim
        /\ int64_of (q_offset (list_query request decoded)) = Some off
        /\ resp = list_response (list_query request decoded)
                    (limit_offset lim off
                       (selected db (list_query request decoded)))
  | Exn _ =>
      int64_of (q_limit (list_query request decoded)) = None
      \/ int64_of (q_offset (list_query request decoded)) = None
  end.
Proof.
  unfold list_transactions. cbv zeta. rewrite run_select.
  destruct (int64_of (q_limit (list_query request decoded))) as [lim | ]
    eqn:Hl; [ | now left].
  destruct (int64_of (q_offset (list_query request decoded))) as [off | ]
    eqn:Ho; [ | now right].
  exists lim, off. cbn [result run].
  repeat split; reflexivity.
Qed.

(** C1: an authenticated GET /api/transactions runs one statement, whose
    [user_id = ?] is bound to the id of the verified claims; every record
    of the response is a stored row owned by that user, so no row of
    another user is ever listed.  The handler answers whenever the store
    accepts the limit and the offset (integers within 64 bits). *)
Theorem C1_listing_scoped_to_token_user
    (request : Request) (env : Env) (w : World) (db : DB) (decoded : Payload) :
  is_route request "/api/transactions" "GET" = true ->
  verifyToken (auth_header request) env w = Ok (Some decoded) ->
  trace (serve request env w db)
    = [tx_query_text (list_query request decoded)]
  /\ q_user (list_query request decoded) = p_id decoded
  /\ match result (serve request env w db) with
     | Ok resp =>
         exists rows,
           prop (body resp) "transactions" = JArr (map tx_json rows)
           /\ Forall (fun r => In r (transactions db)
                               /\ t_user_id r = p_id decoded) rows
           /\ Forall (fun item =>
                        prop item "user_id" = JNum (inject_Z (p_id decoded)))
                (map tx_json rows)
     | Exn _ =>
         int64_of (q_limit (list_query request decoded)) = None
         \/ int64_of (q_offset (list_query request decoded)) = None
     end.
Proof.
  intros R A. unfold serve. rewrite (fetch_list _ _ _ _ R A).
  split; [apply run_list_trace | ]. split; [reflexivity | ].
  pose proof (run_list_result request decoded (now_sec w) db) as H.
  destruct (result (run (now_sec w) (list_transactions request decoded) db))
    as [resp | e]; [ | exact H].
  destruct H as (lim & off & Hl & Ho & ->).
  exists (limit_offset lim off (selected db (list_query request decoded))).
  split; [reflexivity | ].
  assert (Hrows : Forall (fun r => In r (transactions db)
                                   /\ t_user_id r = p_id decoded)
                    (limit_offset lim off
                       (selected db (list_query request decoded)))).
  { apply Forall_forall. intros r Hr.
    apply limit_offset_incl in Hr.
    apply selected_owner in Hr. exact Hr. }
  split; [exact Hrows | ].
  apply Forall_map. eapply Forall_impl; [ | exact Hrows].
  intros r [_ Hr]. cbn. rewrite Hr. reflexivity.
Qed.

End Listing.

(** ** Pagination and date filters *)

Lemma param_or_parsed request k d s n :
  searchParams_get request k = Some s ->
  parseInt s = Int n ->
  parseInt (param_or request k d) = Int n.
Proof.
  intros Hs Hn. unfold param_or. rewrite Hs.
  destruct (String.eqb_spec s "") as [-> | _]; [discriminate | exact Hn].
Qed.

Lemma param_or_absent request k d :
  searchParams_get request k = None -> param_or request k d = d.
Proof. intros H. unfold param_or. now rewrite H. Qed.

Lemma param_if_given request k s :
  searchParams_get request k = Some s -> s <> "" ->
  param_if request k = Some s.
Proof.
  intros Hs Hne. unfold param_if. rewrite Hs.
  destruct (String.eqb_spec s ""); [contradiction | reflexivity].
Qed.

Lemma limit_offset_negative {A : Type} lim off (l : list A) :
  off < 0 -> limit_offset lim off l = limit_offset lim 0 l.
Proof.
  intros H. unfold limit_offset.
  replace (Z.max 0 off) with (Z.max 0 0) by lia. reflexivity.
Qed.

Lemma nothing_below_empty e : date_ltb e "" = false.
Proof. destruct e; reflexivity. Qed.

Lemma reversed_range_selects_nothing db q s e :
  q_start q = Some s -> q_end q = Some e -> date_ltb e s = true ->
  selected db q = [].
Proof.
  intros Hs He Hlt. unfold selected.
  replace (filter (tx_where q) (transactions db)) with (@nil TxRow);
    [reflexivity | ].
  symmetry. induction (transactions db) as [ | r l IH]; [reflexivity | ].
  cbn [filter]. rewrite <- IH.
  unfold tx_where. rewrite Hs, He.
  destruct (date_leb s (t_date r)) eqn:H1;
    destruct (date_leb (t_date r) e) eqn:H2;
    rewrite ?andb_false_r, ?andb_false_l; try reflexivity.
  exfalso. exact (date_window_empty _ _ _ Hlt H1 H2).
Qed.

Section Pagination.

Context {jwt : JwtLib} {bcrypt : BcryptLib} {d1 : D1Lib}.

(** C7 (as the router has it): for an authenticated GET /api/transactions,
    an absent limit is 50; a limit above 100 (an infinite one too) is cut to
    100, and the request is answered 200 whenever the store accepts the
    offset; an absent offset is 0; a negative offset is not rejected: it is
    bound and echoed as [parseInt] gave it, and whenever the store accepts
    it (it lies above [-2^63]) and the limit, the request is answered 200
    and the page is the one of offset 0. *)
Theorem C7_pagination_defaults_and_clamp
    (request : Request) (env : Env) (w : World) (db : DB) (decoded : Payload) :
  is_route request "/api/transactions" "GET" = true ->
  verifyToken (auth_header request) env w = Ok (Some decoded) ->
  (searchParams_get request "limit" = None ->
     q_limit (list_query request decoded) = Int 50)
  /\ (forall s,
        searchParams_get request "limit" = Some s ->
        parseInt s = Infinity false
        \/ (exists n, parseInt s = Int n /\ 100 < n) ->
        q_limit (list_query request decoded) = Int 100
        /\ forall off,
             int64_of (q_offset (list_query request decoded)) = Some off ->
             exists resp,
               result (serve request env w db) = Ok resp
               /\ status resp = 200
               /\ prop (prop (body resp) "pagination") "limit"
                  = JNum (inject_Z 100))
  /\ (searchParams_get request "offset" = None ->
        q_offset (list_query request decoded) = Int 0)
  /\ (forall s m,
        searchParams_get request "offset" = Some s ->
        parseInt s = Int m -> m < 0 ->
        q_offset (list_query request decoded) = Int m
        /\ forall lim,
             - 2 ^ 63 < m ->
             int64_of (q_limit (list_query request decoded)) = Some lim ->
             exists resp,
               result (serve request env w db) = Ok resp
               /\ status resp = 200
               /\ prop (prop (body resp) "pagination") "offset"
                  = JNum (inject_Z m)
               /\ prop (body resp) "transactions"
                  = JArr (map tx_json
                            (limit_offset lim 0
                               (selected db (list_query request decoded))))).
Proof.
  intros R A. unfold serve. rewrite (fetch_list _ _ _ _ R A).
  assert (Hclamp : forall s,
             searchParams_get request "limit" = Some s ->
             parseInt s = Infinity false
             \/ (exists n, parseInt s = Int n /\ 100 < n) ->
             q_limit (list_query request decoded) = Int 100).
  { intros s Hs Hp. unfold list_query. cbn [q_limit].
    assert (Hne : s <> "").
    { intros ->. destruct Hp as [Hp | [n [Hp _]]]; discriminate Hp. }
    unfold param_or. rewrite Hs.
    destruct (String.eqb_spec s "") as [E | _]; [contradiction | ].
    destruct Hp as [-> | [n [-> Hn]]]; cbn [Math_min]; [reflexivity | ].
    f_equal. lia. }
  split; [ | split; [ | split]].
  - intros H. unfold list_query. cbn [q_limit].
    rewrite (param_or_absent _ _ _ H). reflexivity.
  - intros s Hs Hp. pose proof (Hclamp s Hs Hp) as Hl.
    split; [exact Hl | ]. intros off Ho.
    assert (Hl' : int64_of (q_limit (list_query request decoded)) = Some 100).
    { rewrite Hl. reflexivity. }
    rewrite (run_list _ _ _ _ _ _ Hl' Ho). eexists. split; [reflexivity | ].
    split; [reflexivity | ].
    unfold list_response. rewrite Hl. reflexivity.
  - intros H. unfold list_query. cbn [q_offset].
    rewrite (param_or_absent _ _ _ H). reflexivity.
  - intros s m Hs Hp Hm.
    assert (Ho : q_offset (list_query request decoded) = Int m).
    { unfold list_query. cbn [q_offset].
      apply (param_or_parsed _ _ _ _ _ Hs Hp). }
    split; [exact Ho | ]. intros lim Hlo Hl.
    assert (Ho' : int64_of (q_offset (list_query request decoded)) = Some m).
    { rewrite Ho. apply int64_of_small. lia. }
    rewrite (run_list _ _ _ _ _ _ Hl Ho'). eexists. split; [reflexivity | ].
    split; [reflexivity | ].
    unfold list_response. rewrite Ho.
    split; [reflexivity | ].
    cbn. rewrite (limit_offset_negative _ _ _ Hm). reflexivity.
Qed.

(** C8 (as the router has it): when both bounds are given, the end is not
    empty and the start is strictly greater than the end, the request is
    not rejected: both bounds go into the statement as given, never
    swapped, and, whenever the store accepts the limit and the offset, the
    answer is 200 with an empty list of transactions. *)
Theorem C8_reversed_range_lists_nothing
    (request : Request) (env : Env) (w : World) (db : DB) (decoded : Payload)
    (s e : string) (lim off : Z) :
  is_route request "/api/transactions" "GET" = true ->
  verifyToken (auth_header request) env w = Ok (Some decoded) ->
  searchParams_get request "startDate" = Some s ->
  searchParams_get request "endDate" = Some e ->
  e <> "" ->
  date_ltb e s = true ->
  int64_of (q_limit (list_query request decoded)) = Some lim ->
  int64_of (q_offset (list_query request decoded)) = Some off ->
  q_start (list_query request decoded) = Some s
  /\ q_end (list_query request decoded) = Some e
  /\ result (serve request env w db)
     = Ok (list_response (list_query request decoded) [])
  /\ status (list_response (list_query request decoded) []) = 200
  /\ prop (body (list_response (list_query request decoded) []))
       "transactions" = JArr []
  /\ final (serve request env w db) = db.
Proof.
  intros R A Hs He Hne Hlt Hl Ho.
  assert (Hsne : s <> "").
  { intros ->. rewrite nothing_below_empty in Hlt. discriminate. }
  assert (Hqs : q_start (list_query request decoded) = Some s)
    by (apply param_if_given; assumption).
  assert (Hqe : q_end (list_query request decoded) = Some e)
    by (apply param_if_given; assumption).
  unfold serve. rewrite (fetch_list _ _ _ _ R A).
  rewrite (run_list _ _ _ _ _ _ Hl Ho).
  rewrite (reversed_range_selects_nothing db _ s e Hqs Hqe Hlt).
  replace (limit_offset lim off (@nil TxRow)) with (@nil TxRow).
  - repeat split; auto.
  - unfold limit_offset. rewrite skipn_nil.
    destruct (lim <? 0); [reflexivity | now rewrite firstn_nil].
Qed.

End Pagination.

(** ** The order of a listing *)

Lemma filter_none {A : Type} (f : A -> bool) (l : list A) :
  Forall (fun x => f x = false) l -> filter f l = [].
Proof.
  induction 1 as [ | x l Hx _ IH]; [reflexivity | ].
  cbn. now rewrite Hx, IH.
Qed.

Section Ordering.

Context {jwt : JwtLib} {bcrypt : BcryptLib} {d1 : D1Lib}.

Lemma run_add_valid request decoded now db description category :
  validateTransaction (parseJSON request) = true ->
  to_sql (js_or (prop (parseJSON request) "description") JNull)
    = Some description ->
  to_sql (js_or (prop (parseJSON request) "category") JNull)
    = Some category ->
  existsb (fun u => u_id u =? p_id decoded) (users db) = true ->
  run now (add_transaction request decoded) db =
  {| result := Ok (createJsonResponse (message_body "Transaction added") 201);
     final :=
       {| users := users db;
          transactions := transactions db ++
            [{| t_id := transactions_seq db + 1;
                t_user_id := p_id decoded;
                t_date := str_of (prop (parseJSON request) "date");
                t_description := text_affinity description;
                t_category := text_affinity category;
                t_amount := num_of (prop (parseJSON request) "amount");
                t_type := str_of (prop (parseJSON request) "type");
                t_created_at := current_timestamp now |}];
          users_seq := users_seq db;
          transactions_seq := transactions_seq db + 1 |};
     trace := ["INSERT INTO transactions (user_id, date, description, category, amount, type) VALUES (?, ?, ?, ?, ?, ?)"] |}.
Proof.
  intros Hv Hd Hc Hu. unfold add_transaction.
  rewrite Hv, Hd, Hc. cbn [negb run exec]. rewrite Hu. reflexivity.
Qed.

(** C9 (as the router has it): the rows of a listing are a page of the
    user's selected rows sorted by date, greatest first; the statement has
    no second key, and rows of one date stay in the order of insertion
    (oldest first).  In the example scenario, for a user without other
    transactions, the listing is the 2025-09-03 expense followed by the
    2025-09-01 income. *)
Theorem C9_listing_order :
  (forall (request : Request) (env : Env) (w : World) (db : DB)
          (decoded : Payload),
      is_route request "/api/transactions" "GET" = true ->
      verifyToken (auth_header request) env w = Ok (Some decoded) ->
      Permutation (selected db (list_query request decoded))
        (filter (tx_where (list_query request decoded)) (transactions db))
      /\ StronglySorted date_desc (selected db (list_query request decoded))
      /\ (forall d,
            filter (on_date d) (selected db (list_query request decoded))
            = filter (on_date d)
                (filter (tx_where (list_query request decoded))
                   (transactions db)))
      /\ forall resp,
           result (serve request env w db) = Ok resp ->
           exists rows,
             prop (body resp) "transactions" = JArr (map tx_json rows)
             /\ StronglySorted date_desc rows
             /\ exists lim off,
                  rows = limit_offset lim off
                           (selected db (list_query request decoded)))
  /\ (forall (r1 r2 request : Request) (env : Env) (w1 w2 w3 : World)
             (db : DB) (decoded : Payload),
        is_route r1 "/api/transactions" "POST" = true ->
        is_route r2 "/api/transactions" "POST" = true ->
        is_route request "/api/transactions" "GET" = true ->
        verifyToken (auth_header r1) env w1 = Ok (Some decoded) ->
        verifyToken (auth_header r2) env w2 = Ok (Some decoded) ->
        verifyToken (auth_header request) env w3 = Ok (Some decoded) ->
        req_json r1 = Some income_0901 ->
        req_json r2 = Some expense_0903 ->
        searchParams request = [] ->
        existsb (fun u => u_id u =? p_id decoded) (users db) = true ->
        Forall (fun r => t_user_id r <> p_id decoded) (transactions db) ->
        exists resp,
          result (serve request env w3
                    (final (serve r2 env w2 (final (serve r1 env w1 db)))))
          = Ok resp
          /\ status resp = 200
          /\ map (fun item => (prop item "date", prop item "type",
                               prop item "amount"))
               match prop (body resp) "transactions" with
               | JArr items => items
               | _ => []
               end
             = [(JStr "2025-09-03", JStr "expense", JNum (inject_Z (-150)));
                (JStr "2025-09-01", JStr "income", JNum (inject_Z 1200))]).
Proof.
  split.
  - intros request env w db decoded R A.
    split; [apply order_by_date_desc_perm | ].
    split; [apply order_by_date_desc_sorted | ].
    split; [intros d; apply order_by_date_desc_stable | ].
    intros resp Hres. unfold serve in Hres.
    rewrite (fetch_list _ _ _ _ R A) in Hres.
    pose proof (run_list_result request decoded (now_sec w) db) as H.
    rewrite Hres in H. destruct H as (lim & off & _ & _ & ->).
    eexists. split; [reflexivity | ].
    split; [apply limit_offset_sorted, order_by_date_desc_sorted | ].
    exists lim, off. reflexivity.
  - intros r1 r2 request env w1 w2 w3 db decoded R1 R2 R A1 A2 A B1 B2 P U F.
    unfold serve.
    rewrite (fetch_add _ _ _ _ R1 A1), (fetch_add _ _ _ _ R2 A2),
      (fetch_list _ _ _ _ R A).
    assert (P1 : parseJSON r1 = income_0901) by (unfold parseJSON; now rewrite B1).
    assert (P2 : parseJSON r2 = expense_0903) by (unfold parseJSON; now rewrite B2).
    rewrite (run_add_valid r1 decoded (now_sec w1) db SqlNull SqlNull);
      try (rewrite P1; reflexivity); [ | exact U].
    cbn [final].
    rewrite (run_add_valid r2 decoded (now_sec w2) _ SqlNull SqlNull);
      try (rewrite P2; reflexivity); [ | exact U].
    cbn [final]. rewrite P1, P2.
    assert (Hl : int64_of (q_limit (list_query request decoded)) = Some 50).
    { unfold list_query, param_or, searchParams_get. rewrite P. reflexivity. }
    assert (Ho : int64_of (q_offset (list_query request decoded)) = Some 0).
    { unfold list_query, param_or, searchParams_get. rewrite P. reflexivity. }
    rewrite (run_list _ _ _ _ _ _ Hl Ho).
    eexists. split; [reflexivity | ]. split; [reflexivity | ].
    unfold selected. cbn [transactions].
    rewrite !filter_app.
    rewrite (filter_none _ (transactions db)).
    + assert (Hs : param_if request "startDate" = None)
        by (unfold param_if, searchParams_get; now rewrite P).
      assert (He : param_if request "endDate" = None)
        by (unfold param_if, searchParams_get; now rewrite P).
      unfold tx_where. cbn [list_query q_user q_start q_end filter t_user_id].
      rewrite Hs, He, Z.eqb_refl. reflexivity.
    + eapply Forall_impl; [ | exact F].
      intros r Hr. unfold tx_where. cbn [q_user list_query].
      destruct (Z.eqb_spec (t_user_id r) (p_id decoded)); [contradiction | ].
      reflexivity.
Qed.

End Ordering.

(** ** Tokens *)

Lemma bearer_not_empty tok : (("Bearer " ++ tok) =? "")%string = false.
Proof. reflexivity. Qed.

Lemma bearer_prefix tok : startsWith ("Bearer " ++ tok) "Bearer " = true.
Proof. unfold startsWith. cbn. destruct tok; reflexivity. Qed.

Lemma bearer_slice tok : slice 7 ("Bearer " ++ tok) = tok.
Proof. reflexivity. Qed.

(** The clock in seconds is before [e] exactly when the instant, in
    milliseconds, is before [e] seconds. *)
Lemma now_sec_lt w e : now_sec w < e <-> now_ms w < e * 1000.
Proof.
  unfold now_sec.
  pose proof (Z.div_mod (now_ms w) 1000 ltac:(lia)) as Hd.
  pose proof (Z.mod_pos_bound (now_ms w) 1000 ltac:(lia)) as Hm.
  split; intros H; lia.
Qed.

Lemma prop_string_truthy data k s : prop data k = JStr s -> truthy data = true.
Proof. destruct data; cbn; intros H; try discriminate; reflexivity. Qed.

Section Tokens.

Context {jwt : JwtLib} {bcrypt : BcryptLib} {d1 : D1Lib}.

Lemma verifyToken_issued p e env w :
  p_exp p = Some e ->
  verifyToken ("Bearer " ++ jwt_sign p (JWT_SECRET env)) env w
  = Ok (if now_sec w <? e then Some p else None).
Proof.
  intros He. unfold verifyToken.
  rewrite bearer_not_empty, bearer_prefix, bearer_slice.
  cbn [negb orb]. rewrite (jwt_verify_sign _ _ _ _ He).
  destruct (now_sec w <? e); cbn [negb];
    [rewrite jwt_decode_sign | ]; reflexivity.
Qed.

Lemma login_issues request env w db resp tok :
  result (run (now_sec w) (login request env w) db) = Ok resp ->
  prop (body resp) "token" = JStr tok ->
  exists u,
    find_user db (str_of (prop (parseJSON request) "email")) = Some u
    /\ tok = jwt_sign (login_claims u w) (JWT_SECRET env)
    /\ status resp = 200.
Proof.
  unfold login. destruct (credentials_invalid (parseJSON request)).
  - cbn. intros [= <-]. discriminate.
  - cbn [run exec result].
    destruct (find_user db (str_of (prop (parseJSON request) "email")))
      as [u | ].
    + destruct (bcrypt_compare (str_of (prop (parseJSON request) "password"))
                  (u_password u)); cbn.
      * intros [= <-]. cbn. intros [= <-]. exists u. auto.
      * intros [= <-]. discriminate.
    + cbn. intros [= <-]. discriminate.
Qed.

(** C4: a token issued by a login at world [w0] expires at second
    [now_sec w0 + 7 days].  At every instant strictly before that second the
    token check of the protected routes accepts it and yields the signed
    claims; at that instant and at every later one the check refuses it, and
    every protected request carrying it is answered 401 without touching
    the store. *)
Theorem C4_token_valid_until_expiry
    (login_request : Request) (env : Env) (w0 : World) (db : DB)
    (resp : Response) (tok : string) :
  is_route login_request "/api/auth/login" "POST" = true ->
  result (serve login_request env w0 db) = Ok resp ->
  prop (body resp) "token" = JStr tok ->
  forall w : World,
    (now_ms w < (now_sec w0 + seven_days) * 1000 ->
       exists claims,
         verifyToken ("Bearer " ++ tok) env w = Ok (Some claims)
         /\ p_exp claims = Some (now_sec w0 + seven_days)
         /\ forall request db',
              is_route request "/api/metrics" "GET" = true ->
              hdr_authorization request = Some ("Bearer " ++ tok) ->
              result (serve request env w db') = Ok metrics)
    /\ ((now_sec w0 + seven_days) * 1000 <= now_ms w ->
          verifyToken ("Bearer " ++ tok) env w = Ok None
          /\ forall request db',
               is_route request "/api/auth/signup" "POST" = false ->
               is_route request "/api/auth/login" "POST" = false ->
               hdr_authorization request = Some ("Bearer " ++ tok) ->
               serve request env w db' =
               {| result :=
                    Ok (createJsonResponse (error_body "Unauthorized") 401);
                  final := db'; trace := [] |}).
Proof.
  intros R Hres Htok w.
  unfold serve in Hres. rewrite (fetch_login _ _ _ R) in Hres.
  destruct (login_issues _ _ _ _ _ _ Hres Htok) as (u & _ & -> & _).
  pose proof (verifyToken_issued (login_claims u w0) _ env w eq_refl) as Hv.
  split.
  - intros Hbefore. apply now_sec_lt in Hbefore.
    apply Z.ltb_lt in Hbefore. rewrite Hbefore in Hv.
    exists (login_claims u w0). split; [exact Hv | ]. split; [reflexivity | ].
    intros request db' Rm Hh.
    assert (Ha : auth_header request
                 = "Bearer " ++ jwt_sign (login_claims u w0) (JWT_SECRET env))
      by (unfold auth_header; now rewrite Hh).
    at_route Rm. fold (auth_header request). rewrite Ha, Hv. reflexivity.
  - intros Hafter.
    assert (Hge : (now_sec w <? now_sec w0 + seven_days) = false).
    { apply Z.ltb_ge. destruct (Z.lt_ge_cases (now_sec w) (now_sec w0 + seven_days))
        as [Hlt | Hge]; [ | exact Hge].
      apply now_sec_lt in Hlt. lia. }
    rewrite Hge in Hv. split; [exact Hv | ].
    intros request db' R1 R2 Hh. unfold serve.
    rewrite (fetch_unauthorized _ _ _ R1 R2); [reflexivity | ].
    unfold auth_header. rewrite Hh. exact Hv.
Qed.

End Tokens.

(** ** Signup *)

Lemma find_user_none db email :
  find_user db email = None -> rows_with_email db email = [].
Proof.
  unfold find_user, rows_with_email.
  induction (users db) as [ | u l IH]; cbn; [reflexivity | ].
  destruct (u_email u =? email)%string; [discriminate | exact IH].
Qed.

Lemma find_user_none_not_in db email :
  find_user db email = None -> ~ In email (map u_email (users db)).
Proof.
  unfold find_user.
  induction (users db) as [ | u l IH]; cbn; [tauto | ].
  destruct (String.eqb_spec (u_email u) email) as [ | Hne]; [discriminate | ].
  intros H [Heq | Hin]; [contradiction | exact (IH H Hin)].
Qed.

Lemma find_user_app_new l email u :
  find (fun x => (u_email x =? email)%string) l = None ->
  u_email u = email ->
  find (fun x => (u_email x =? email)%string) (l ++ [u]) = Some u.
Proof.
  intros Hn He. induction l as [ | x l IH]; cbn in *.
  - rewrite He, String.eqb_refl. reflexivity.
  - destruct (u_email x =? email)%string; [discriminate | exact (IH Hn)].
Qed.

Section SignupRace.

Context {d1 : D1Lib}.

Lemma with_user_find db email password now :
  find_user db email = None ->
  find_user (with_user db email password now) email
  = Some {| u_id := users_seq db + 1; u_email := email;
            u_password := password; u_created_at := current_timestamp now |}.
Proof.
  intros H. unfold find_user, with_user. cbn [users].
  apply find_user_app_new; [exact H | reflexivity].
Qed.

Lemma with_user_rows db email password now :
  find_user db email = None ->
  List.length (rows_with_email (with_user db email password now) email) = 1%nat.
Proof.
  intros H. unfold rows_with_email, with_user. cbn [users].
  rewrite filter_app. fold (rows_with_email db email).
  rewrite (find_user_none _ _ H). cbn. rewrite String.eqb_refl. reflexivity.
Qed.

Lemma exec_unique {B : Type} now (op : StoreOp B) db :
  unique_emails db -> unique_emails (snd (exec now op db)).
Proof.
  intros H. destruct op; cbn; try exact H.
  - destruct (find_user db email) eqn:E; cbn; [exact H | ].
    unfold unique_emails. cbn. rewrite map_app. cbn.
    apply NoDup_app; [exact H | repeat constructor; cbn; tauto | ].
    intros x Hx [<- | []]. exact (find_user_none_not_in _ _ E Hx).
  - destruct (existsb _ _); cbn; exact H.
Qed.

Lemma step_unique {A : Type} now (p : Prog A) db :
  unique_emails db -> unique_emails (snd (step now p db)).
Proof.
  intros H. destruct p as [a | e | B op k]; cbn; try exact H.
  pose proof (exec_unique now op db H) as H'.
  destruct (exec now op db) as [[b | e] db']; exact H'.
Qed.

Lemma interleave_unique {A : Type} sched now1 now2 (p1 p2 : Prog A) db :
  unique_emails db ->
  unique_emails (snd (interleave sched now1 now2 p1 p2 db)).
Proof.
  revert p1 p2 db. induction sched as [ | [ | ] rest IH]; intros p1 p2 db H.
  - exact H.
  - cbn [interleave]. pose proof (step_unique now1 p1 db H) as H'.
    destruct (step now1 p1 db) as [p1' db']. apply IH, H'.
  - cbn [interleave]. pose proof (step_unique now2 p2 db H) as H'.
    destruct (step now2 p2 db) as [p2' db']. apply IH, H'.
Qed.

Lemma registered_find db email :
  registered db email -> exists u, find_user db email = Some u.
Proof.
  unfold registered. intros H.
  destruct (find_user db email) as [u | ] eqn:E; [eauto | ].
  rewrite (find_user_none _ _ E) in H. discriminate.
Qed.

(** One step of a suspended signup while the email is still free. *)
Lemma step_signup_fresh now email hashed p db :
  in_signup email hashed p -> settled p = false ->
  find_user db email = None ->
  in_signup email hashed (fst (step now p db))
  /\ ((snd (step now p db) = db /\ settled (fst (step now p db)) = false)
      \/ registered (snd (step now p db)) email).
Proof.
  intros Hp Hs Hf. destruct Hp; try discriminate.
  - unfold signup_lookup. cbn [step exec]. rewrite Hf. cbn.
    split; [constructor | left; split; reflexivity].
  - unfold signup_insert. cbn [step exec]. rewrite Hf. cbn [fst snd].
    split; [constructor | right].
    apply (with_user_rows db email hashed now Hf).
Qed.

(** One step of a signup once the email is registered: the store stays. *)
Lemma step_signup_registered now email hashed p db :
  in_signup email hashed p -> registered db email ->
  in_signup email hashed (fst (step now p db)) /\ snd (step now p db) = db.
Proof.
  intros Hp Hr. destruct (registered_find _ _ Hr) as [u Hu].
  destruct Hp; cbn [step fst snd]; try (split; [constructor | reflexivity]).
  - unfold signup_lookup. cbn [step exec]. rewrite Hu. cbn.
    split; [constructor | reflexivity].
  - unfold signup_insert. cbn [step exec]. rewrite Hu. cbn.
    split; [constructor | reflexivity].
Qed.

Lemma step_signup_inv now email hashed p db :
  in_signup email hashed p ->
  (find_user db email = None /\ settled p = false) \/ registered db email ->
  in_signup email hashed (fst (step now p db))
  /\ ((find_user (snd (step now p db)) email = None
       /\ settled (fst (step now p db)) = false
       /\ snd (step now p db) = db)
      \/ registered (snd (step now p db)) email).
Proof.
  intros Hp [[Hf Hs] | Hr].
  - destruct (step_signup_fresh now _ _ _ _ Hp Hs Hf) as [H1 [[H2 H3] | H2]].
    + split; [exact H1 | left]. rewrite H2. auto.
    + split; [exact H1 | right; exact H2].
  - destruct (step_signup_registered now _ _ _ _ Hp Hr) as [H1 H2].
    split; [exact H1 | right]. rewrite H2. exact Hr.
Qed.

(** Whatever the schedule, two signups for one email keep the invariant. *)
Lemma interleave_signups sched now1 now2 email h1 h2 p1 p2 db :
  in_signup email h1 p1 -> in_signup email h2 p2 ->
  race_inv email p1 p2 db ->
  in_signup email h1 (fst (fst (interleave sched now1 now2 p1 p2 db)))
  /\ in_signup email h2 (snd (fst (interleave sched now1 now2 p1 p2 db)))
  /\ race_inv email
       (fst (fst (interleave sched now1 now2 p1 p2 db)))
       (snd (fst (interleave sched now1 now2 p1 p2 db)))
       (snd (interleave sched now1 now2 p1 p2 db)).
Proof.
  revert p1 p2 db.
  induction sched as [ | [ | ] rest IH]; intros p1 p2 db S1 S2 Inv.
  - cbn. auto.
  - cbn [interleave].
    assert (Hpre : (find_user db email = None /\ settled p1 = false)
                   \/ registered db email)
      by (destruct Inv as [[Hf [Hs _]] | Hr]; auto).
    pose proof (step_signup_inv now1 _ _ _ _ S1 Hpre) as [S1' Hpost].
    destruct (step now1 p1 db) as [p1' db'] eqn:E. cbn [fst snd] in *.
    apply IH; [exact S1' | exact S2 | ].
    destruct Hpost as [[Hf [Hs Hdb]] | Hr]; [ | right; exact Hr].
    destruct Inv as [[_ [_ Hs2]] | Hr].
    + left. auto.
    + subst db'. right. exact Hr.
  - cbn [interleave].
    assert (Hpre : (find_user db email = None /\ settled p2 = false)
                   \/ registered db email)
      by (destruct Inv as [[Hf [_ Hs]] | Hr]; auto).
    pose proof (step_signup_inv now2 _ _ _ _ S2 Hpre) as [S2' Hpost].
    destruct (step now2 p2 db) as [p2' db'] eqn:E. cbn [fst snd] in *.
    apply IH; [exact S1 | exact S2' | ].
    destruct Hpost as [[Hf [Hs Hdb]] | Hr]; [ | right; exact Hr].
    destruct Inv as [[_ [Hs1 _]] | Hr].
    + left. auto.
    + subst db'. right. exact Hr.
Qed.

End SignupRace.

Section Signup.

Context {jwt : JwtLib} {bcrypt : BcryptLib} {d1 : D1Lib}.

Lemma credentials_valid data email password :
  prop data "email" = JStr email ->
  prop data "password" = JStr password ->
  validateEmail (JStr email) = true ->
  (6 <= String.length password)%nat ->
  credentials_invalid data = false.
Proof.
  intros He Hp Hv Hl. unfold credentials_invalid.
  rewrite (prop_string_truthy _ _ _ He), He, Hp, Hv. cbn.
  apply Nat.leb_le in Hl. cbn in Hl. rewrite Hl. reflexivity.
Qed.

(** The program a signup is once its body has passed the two validators. *)
Lemma signup_valid request env w :
  credentials_invalid (parseJSON request) = false ->
  signup request env w =
  signup_lookup (str_of (prop (parseJSON request) "email"))
    (bcrypt_hash (str_of (prop (parseJSON request) "password")) 10 (salt w)).
Proof. intros H. unfold signup. rewrite H. reflexivity. Qed.

Lemma run_signup_new request env w db :
  credentials_invalid (parseJSON request) = false ->
  find_user db (str_of (prop (parseJSON request) "email")) = None ->
  run (now_sec w) (signup request env w) db =
  {| result := Ok user_created;
     final := with_user db (str_of (prop (parseJSON request) "email"))
                (bcrypt_hash (str_of (prop (parseJSON request) "password"))
                   10 (salt w)) (now_sec w);
     trace := ["SELECT id FROM users WHERE email = ?";
               "INSERT INTO users (email, password) VALUES (?, ?)"] |}.
Proof.
  intros Hv Hf. rewrite (signup_valid _ _ _ Hv).
  unfold signup_lookup, signup_insert.
  cbn [run exec]. rewrite Hf. cbn [option_map run exec]. rewrite Hf.
  reflexivity.
Qed.

Lemma run_signup_existing request env w db u :
  credentials_invalid (parseJSON request) = false ->
  find_user db (str_of (prop (parseJSON request) "email")) = Some u ->
  run (now_sec w) (signup request env w) db =
  {| result := Ok email_registered; final := db;
     trace := ["SELECT id FROM users WHERE email = ?"] |}.
Proof.
  intros Hv Hf. rewrite (signup_valid _ _ _ Hv).
  unfold signup_lookup, signup_insert.
  cbn [run exec]. rewrite Hf. reflexivity.
Qed.

End Signup.

Section Accounts.

Context {jwt : JwtLib} {bcrypt : BcryptLib} {d1 : D1Lib}.

(** C5: for a well-formed email that is not registered and a password of
    at least six characters, signup answers 201 and a login with the same
    credentials on the resulting store answers 200 with a token; the token
    check of the protected routes accepts that token at the time of the login and at
    every instant before its expiry, and yields the claims of the new
    user. *)
Theorem C5_signup_then_login
    (r1 r2 : Request) (env : Env) (w1 w2 : World) (db : DB)
    (email password : string) :
  is_route r1 "/api/auth/signup" "POST" = true ->
  is_route r2 "/api/auth/login" "POST" = true ->
  prop (parseJSON r1) "email" = JStr email ->
  prop (parseJSON r1) "password" = JStr password ->
  prop (parseJSON r2) "email" = JStr email ->
  prop (parseJSON r2) "password" = JStr password ->
  validateEmail (JStr email) = true ->
  (6 <= String.length password)%nat ->
  find_user db email = None ->
  result (serve r1 env w1 db) = Ok user_created
  /\ status user_created = 201
  /\ exists tok claims,
       result (serve r2 env w2 (final (serve r1 env w1 db)))
       = Ok (createJsonResponse (JObj [("token", JStr tok)]) 200)
       /\ p_email claims = email
       /\ verifyToken ("Bearer " ++ tok) env w2 = Ok (Some claims)
       /\ forall w, now_ms w < (now_sec w2 + seven_days) * 1000 ->
                    verifyToken ("Bearer " ++ tok) env w = Ok (Some claims).
Proof.
  intros R1 R2 E1 P1 E2 P2 Hv Hl Hf.
  pose proof (credentials_valid _ _ _ E1 P1 Hv Hl) as V1.
  pose proof (credentials_valid _ _ _ E2 P2 Hv Hl) as V2.
  unfold serve. rewrite (fetch_signup _ _ _ R1), (fetch_login _ _ _ R2).
  assert (Hf1 : find_user db (str_of (prop (parseJSON r1) "email")) = None)
    by (rewrite E1; exact Hf).
  rewrite (run_signup_new _ _ _ _ V1 Hf1). cbn [result final].
  split; [reflexivity | ]. split; [reflexivity | ].
  rewrite E1, P1.
  set (u := {| u_id := users_seq db + 1; u_email := email;
               u_password := bcrypt_hash password 10 (salt w1);
               u_created_at := current_timestamp (now_sec w1) |}).
  exists (jwt_sign (login_claims u w2) (JWT_SECRET env)), (login_claims u w2).
  assert (Hlogin :
    result (run (now_sec w2) (login r2 env w2)
              (with_user db email (bcrypt_hash password 10 (salt w1))
                 (now_sec w1)))
    = Ok (createJsonResponse
            (JObj [("token",
                    JStr (jwt_sign (login_claims u w2) (JWT_SECRET env)))])
            200)).
  { unfold login. rewrite V2, E2, P2. cbn [str_of run exec].
    rewrite (with_user_find _ _ _ _ Hf). cbn [u_password].
    rewrite bcrypt_compare_hash. reflexivity. }
  split; [exact Hlogin | ]. split; [reflexivity | ].
  assert (Hcheck : forall w, now_ms w < (now_sec w2 + seven_days) * 1000 ->
            verifyToken
              ("Bearer " ++ jwt_sign (login_claims u w2) (JWT_SECRET env))
              env w = Ok (Some (login_claims u w2))).
  { intros w Hw.
    rewrite (verifyToken_issued (login_claims u w2) _ env w eq_refl).
    apply now_sec_lt in Hw. apply Z.ltb_lt in Hw. now rewrite Hw. }
  split; [ | exact Hcheck].
  apply Hcheck. apply now_sec_lt. unfold seven_days. lia.
Qed.

(** C3: on a store where the email is not registered, a signup followed by
    a second signup with the same email answers 201 then 409; the second
    runs only its lookup, and exactly one row carries the email.  When both
    requests are in flight and each has done its lookup before either
    inserts, the first insert succeeds and the second is refused by the
    store: its handler ends with the store's exception, not with a 409
    response.  Under every schedule the table keeps at most one row per
    email, and once both requests have ended exactly one row carries it. *)
Theorem C3_duplicate_signup
    (r1 r2 : Request) (env : Env) (w1 w2 : World) (db : DB) (email : string) :
  is_route r1 "/api/auth/signup" "POST" = true ->
  is_route r2 "/api/auth/signup" "POST" = true ->
  credentials_invalid (parseJSON r1) = false ->
  credentials_invalid (parseJSON r2) = false ->
  str_of (prop (parseJSON r1) "email") = email ->
  str_of (prop (parseJSON r2) "email") = email ->
  find_user db email = None ->
  (result (serve r1 env w1 db) = Ok user_created
   /\ serve r2 env w2 (final (serve r1 env w1 db)) =
      {| result := Ok email_registered;
         final := final (serve r1 env w1 db);
         trace := ["SELECT id FROM users WHERE email = ?"] |}
   /\ status email_registered = 409
   /\ registered (final (serve r1 env w1 db)) email)
  /\ (interleave [true; false; true; false] (now_sec w1) (now_sec w2)
        (fetch r1 env w1) (fetch r2 env w2) db
      = (Ret user_created,
         Throw "D1_ERROR: UNIQUE constraint failed: users.email",
         final (serve r1 env w1 db))
      /\ Throw "D1_ERROR: UNIQUE constraint failed: users.email"
         <> Ret email_registered)
  /\ (forall sched,
        (unique_emails db ->
         unique_emails
           (snd (interleave sched (now_sec w1) (now_sec w2)
                   (fetch r1 env w1) (fetch r2 env w2) db)))
        /\ (settled (fst (fst (interleave sched (now_sec w1) (now_sec w2)
                                 (fetch r1 env w1) (fetch r2 env w2) db)))
              = true ->
            settled (snd (fst (interleave sched (now_sec w1) (now_sec w2)
                                 (fetch r1 env w1) (fetch r2 env w2) db)))
              = true ->
            registered
              (snd (interleave sched (now_sec w1) (now_sec w2)
                      (fetch r1 env w1) (fetch r2 env w2) db)) email)).
Proof.
  intros R1 R2 V1 V2 E1 E2 Hf.
  assert (Hf1 : find_user db (str_of (prop (parseJSON r1) "email")) = None)
    by (rewrite E1; exact Hf).
  unfold serve. rewrite (fetch_signup _ _ _ R1), (fetch_signup _ _ _ R2).
  rewrite (run_signup_new _ _ _ _ V1 Hf1). cbn [result final].
  rewrite E1.
  split; [ | split].
  - split; [reflexivity | ].
    split; [ | split; [reflexivity | apply with_user_rows, Hf]].
    eapply run_signup_existing; [exact V2 | ].
    rewrite E2. apply with_user_find, Hf.
  - split; [ | discriminate].
    rewrite (signup_valid _ _ _ V1), (signup_valid _ _ _ V2).
    unfold signup_lookup, signup_insert.
    cbn [interleave step exec]. rewrite E1, E2, Hf.
    cbn [option_map interleave step exec]. rewrite Hf.
    cbn [interleave step exec].
    fold (with_user db email
            (bcrypt_hash (str_of (prop (parseJSON r1) "password")) 10 (salt w1))
            (now_sec w1)).
    rewrite (with_user_find _ _ _ _ Hf). reflexivity.
  - intros sched. split; [intros Hu; apply interleave_unique, Hu | ].
    rewrite (signup_valid _ _ _ V1), (signup_valid _ _ _ V2), E1, E2.
    intros S1 S2.
    destruct (interleave_signups sched (now_sec w1) (now_sec w2) email
                (bcrypt_hash (str_of (prop (parseJSON r1) "password")) 10
                   (salt w1))
                (bcrypt_hash (str_of (prop (parseJSON r2) "password")) 10
                   (salt w2))
                _ _ db (at_lookup _ _) (at_lookup _ _)
                (or_introl (conj Hf (conj eq_refl eq_refl))))
      as [_ [_ [[_ [Hs _]] | Hr]]]; [congruence | exact Hr].
Qed.

End Accounts.

(** ** Bodies that cannot be parsed *)

Section Bodies.

Context {jwt : JwtLib} {bcrypt : BcryptLib} {d1 : D1Lib}.

(** C10 (as the router has it): [parseJSON] yields [null] when the body
    cannot be parsed.  With such a body a POST to signup or to login is
    answered 400; a POST to /api/transactions is answered 400 when the
    request carries a token that [verifyToken] accepts, and 401 when
    [verifyToken] returns [null]: the header is absent or is no bearer
    header, or [jwt.verify] reports the token invalid.  In each of these
    cases the handler returns a response, runs no statement and leaves the
    store as it was.  (A token on which [jwt.verify] throws is not among
    them.) *)
Theorem C10_unparseable_body
    (request : Request) (env : Env) (w : World) (db : DB) :
  req_json request = None ->
  parseJSON request = JNull
  /\ (is_route request "/api/auth/signup" "POST" = true
      \/ is_route request "/api/auth/login" "POST" = true ->
      serve request env w db =
      {| result := Ok invalid_email_or_password; final := db; trace := [] |})
  /\ (is_route request "/api/transactions" "POST" = true ->
      (forall decoded,
          verifyToken (auth_header request) env w = Ok (Some decoded) ->
          serve request env w db =
          {| result := Ok invalid_transaction; final := db; trace := [] |})
      /\ (verifyToken (auth_header request) env w = Ok None ->
          serve request env w db =
          {| result := Ok (createJsonResponse (error_body "Unauthorized") 401);
             final := db; trace := [] |})
      /\ (startsWith (auth_header request) "Bearer " = false
          \/ jwt_verify (slice 7 (auth_header request)) (JWT_SECRET env)
               (now_sec w) = Ok false ->
          verifyToken (auth_header request) env w = Ok None))
  /\ status invalid_email_or_password = 400
  /\ status invalid_transaction = 400.
Proof.
  intros Hb.
  assert (Hp : parseJSON request = JNull) by (unfold parseJSON; now rewrite Hb).
  split; [exact Hp | ]. split; [ | split; [ | split; reflexivity]].
  - intros [R | R]; unfold serve.
    + rewrite (fetch_signup _ _ _ R). unfold signup. rewrite Hp. reflexivity.
    + rewrite (fetch_login _ _ _ R). unfold login. rewrite Hp. reflexivity.
  - intros R. split; [ | split].
    + intros decoded A. unfold serve. rewrite (fetch_add _ _ _ _ R A).
      apply add_transaction_invalid. rewrite Hp. reflexivity.
    + intros A. unfold serve.
      destruct (is_route_inv _ _ _ R) as [Hpath Hmethod].
      rewrite fetch_unauthorized; [reflexivity | | | exact A];
        unfold is_route; rewrite Hpath; reflexivity.
    + unfold verifyToken. intros [Hh | Hj].
      * rewrite Hh. cbn [negb]. rewrite orb_true_r. reflexivity.
      * rewrite Hj. cbn [negb].
        destruct ((auth_header request =? "")%string
                  || negb (startsWith (auth_header request) "Bearer "));
          reflexivity.
Qed.

End Bodies.

(** ** The worker on the sample store *)

Example sample_listing :
  listed_ids (demo_serve list_all demo_env at_second_one ledger_db)
  = [JNum (inject_Z 3); JNum (inject_Z 1)].
Proof. vm_compute. reflexivity. Qed.

Example sample_pages :
  listed_ids (demo_serve (list_page [("limit", "2"); ("offset", "0")])
                demo_env at_second_two four_rows)
  = [JNum (inject_Z 1); JNum (inject_Z 4)]
  /\ listed_ids (demo_serve (list_page [("limit", "2"); ("offset", "2")])
                   demo_env at_second_two four_rows)
     = [JNum (inject_Z 3); JNum (inject_Z 2)].
Proof. split; vm_compute; reflexivity. Qed.

Example sample_statuses :
  status_of (demo_serve (get_request "/api/metrics" sarah_bearer [])
               demo_env at_second_one ledger_db) = Some 200
  /\ status_of (demo_serve (get_request "/api/metrics" None [])
                  demo_env at_second_one ledger_db) = Some 401
  /\ status_of (demo_serve (get_request "/api/metrics" sarah_bearer [])
                  demo_env at_expiry ledger_db) = Some 401
  /\ status_of (demo_serve (get_request "/api/reports" sarah_bearer [])
                  demo_env at_second_one ledger_db) = Some 404
  /\ status_of (demo_serve login_sarah demo_env at_second_one ledger_db)
     = Some 200
  /\ status_of (demo_serve (list_page [("limit", "ten")])
                  demo_env at_second_one ledger_db) = None.
Proof. repeat split; vm_compute; reflexivity. Qed.

(** ** The theorems on the sample requests *)

Lemma C1_listing_witness :
  trace (demo_serve list_all demo_env at_second_one ledger_db)
  = ["SELECT * FROM transactions WHERE user_id = ? ORDER BY date DESC LIMIT ? OFFSET ?"]
  /\ q_user (list_query list_all sarah_claims) = 2.
Proof.
  pose proof (@C1_listing_scoped_to_token_user Reference.jwt Reference.bcrypt Reference.d1
                list_all demo_env at_second_one ledger_db sarah_claims
                eq_refl eq_refl) as H.
  split; [exact (proj1 H) | exact (proj1 (proj2 H))].
Defined.

Lemma C3_duplicate_signup_witness :
  result (demo_serve signup_emma demo_env at_second_one ledger_db)
  = Ok user_created
  /\ result (demo_serve signup_emma demo_env at_second_two
               (final (demo_serve signup_emma demo_env at_second_one ledger_db)))
     = Ok email_registered
  /\ fst (@interleave Reference.d1 Response [true; false; true; false] 1 2
            (@fetch Reference.jwt Reference.bcrypt signup_emma demo_env at_second_one)
            (@fetch Reference.jwt Reference.bcrypt signup_emma demo_env at_second_two)
            ledger_db)
     = (Ret user_created,
        Throw "D1_ERROR: UNIQUE constraint failed: users.email").
Proof.
  pose proof (@C3_duplicate_signup Reference.jwt Reference.bcrypt Reference.d1
                signup_emma signup_emma demo_env at_second_one at_second_two
                ledger_db "emma@example.com"
                eq_refl eq_refl eq_refl eq_refl eq_refl eq_refl eq_refl) as H.
  destruct H as [[H1 [H2 _]] [[H3 _] _]].
  split; [exact H1 | ].
  split; [exact (f_equal result H2) | exact (f_equal fst H3)].
Defined.

Lemma C4_token_expiry_witness :
  (exists claims,
      @verifyToken Reference.jwt
        ("Bearer " ++ Reference.sign sarah_claims "s3cret") demo_env before_expiry
      = Ok (Some claims))
  /\ @verifyToken Reference.jwt
       ("Bearer " ++ Reference.sign sarah_claims "s3cret") demo_env at_expiry
     = Ok None.
Proof.
  pose proof (@C4_token_valid_until_expiry Reference.jwt Reference.bcrypt Reference.d1
                login_sarah demo_env at_second_one ledger_db
                (createJsonResponse
                   (JObj [("token", JStr (Reference.sign sarah_claims "s3cret"))])
                   200)
                (Reference.sign sarah_claims "s3cret")
                eq_refl eq_refl eq_refl) as H.
  split.
  - destruct (proj1 (H before_expiry) eq_refl) as [claims [Hc _]].
    exists claims. exact Hc.
  - exact (proj1 (proj2 (H at_expiry) ltac:(vm_compute; discriminate))).
Defined.

Lemma C5_signup_then_login_witness :
  result (demo_serve signup_emma demo_env at_second_one ledger_db)
  = Ok user_created
  /\ exists tok,
       result (demo_serve login_emma demo_env at_second_two
                 (final (demo_serve signup_emma demo_env at_second_one ledger_db)))
       = Ok (createJsonResponse (JObj [("token", JStr tok)]) 200).
Proof.
  pose proof (@C5_signup_then_login Reference.jwt Reference.bcrypt Reference.d1
                signup_emma login_emma demo_env at_second_one at_second_two
                ledger_db "emma@example.com" "letmein"
                eq_refl eq_refl eq_refl eq_refl eq_refl eq_refl eq_refl
                ltac:(cbn; lia) eq_refl) as H.
  destruct H as [H1 [_ [tok [claims [H2 _]]]]].
  split; [exact H1 | exists tok; exact H2].
Defined.

Lemma C7_pagination_witness :
  q_limit (list_query (list_page [("limit", "500"); ("offset", "-5")])
             sarah_claims) = Int 100
  /\ q_offset (list_query (list_page [("limit", "500"); ("offset", "-5")])
                 sarah_claims) = Int (-5)
  /\ q_limit (list_query (list_page []) sarah_claims) = Int 50
  /\ q_offset (list_query (list_page []) sarah_claims) = Int 0.
Proof.
  pose proof (@C7_pagination_defaults_and_clamp Reference.jwt Reference.bcrypt Reference.d1
                (list_page [("limit", "500"); ("offset", "-5")])
                demo_env at_second_one ledger_db sarah_claims
                eq_refl eq_refl) as H.
  pose proof (@C7_pagination_defaults_and_clamp Reference.jwt Reference.bcrypt Reference.d1
                (list_page []) demo_env at_second_one ledger_db sarah_claims
                eq_refl eq_refl) as H0.
  destruct H as [_ [Hclamp [_ Hneg]]]. destruct H0 as [Hl [_ [Ho _]]].
  split; [exact (proj1 (Hclamp "500" eq_refl
                          (or_intror (ex_intro _ 500 (conj eq_refl eq_refl)))))
         | ].
  split; [exact (proj1 (Hneg "-5" (-5) eq_refl eq_refl eq_refl)) | ].
  split; [exact (Hl eq_refl) | exact (Ho eq_refl)].
Defined.

(** C7, as stated, fails: a request with [offset=-5] is not rejected; it is
    answered 200, the offset is echoed, and the first page is returned. *)
Lemma C7_counterexample_negative_offset :
  exists resp,
    result (demo_serve (list_page [("offset", "-5")]) demo_env at_second_one
              ledger_db) = Ok resp
    /\ status resp = 200
    /\ prop (prop (body resp) "pagination") "offset" = JNum (inject_Z (-5))
    /\ prop (prop (body resp) "pagination") "count" = JNum (inject_Z 2).
Proof.
  eexists. split; [vm_compute; reflexivity | ].
  repeat split; reflexivity.
Qed.

Lemma C8_reversed_range_witness :
  result (demo_serve reversed_range demo_env at_second_one ledger_db)
  = Ok (list_response (list_query reversed_range sarah_claims) [])
  /\ q_start (list_query reversed_range sarah_claims) = Some "2025-09-05"
  /\ q_end (list_query reversed_range sarah_claims) = Some "2025-09-01".
Proof.
  pose proof (@C8_reversed_range_lists_nothing Reference.jwt Reference.bcrypt Reference.d1
                reversed_range demo_env at_second_one ledger_db sarah_claims
                "2025-09-05" "2025-09-01" 50 0
                eq_refl eq_refl eq_refl eq_refl
                ltac:(discriminate) eq_refl eq_refl eq_refl) as H.
  destruct H as [Hs [He [Hr _]]].
  split; [exact Hr | split; [exact Hs | exact He]].
Defined.

(** C8, as stated, fails: with [startDate] after [endDate] the request is
    answered 200 with a transaction list (an empty one), not with a
    validation error. *)
Lemma C8_counterexample_reversed_range :
  exists resp,
    result (demo_serve reversed_range demo_env at_second_one ledger_db) = Ok resp
    /\ status resp = 200
    /\ prop (body resp) "transactions" = JArr []
    /\ trace (demo_serve reversed_range demo_env at_second_one ledger_db)
       = ["SELECT * FROM transactions WHERE user_id = ? AND date >= ? AND date <= ? ORDER BY date DESC LIMIT ? OFFSET ?"].
Proof.
  eexists. split; [vm_compute; reflexivity | ].
  repeat split; reflexivity.
Qed.

Lemma C9_listing_order_witness :
  exists resp,
    result (demo_serve list_all demo_env at_second_two
              (final (demo_serve (post_transaction expense_0903) demo_env
                        at_second_one
                        (final (demo_serve (post_transaction income_0901)
                                  demo_env at_second_one sarah_db)))))
    = Ok resp
    /\ status resp = 200
    /\ map (fun item => (prop item "date", prop item "type", prop item "amount"))
         match prop (body resp) "transactions" with
         | JArr items => items
         | _ => []
         end
       = [(JStr "2025-09-03", JStr "expense", JNum (inject_Z (-150)));
          (JStr "2025-09-01", JStr "income", JNum (inject_Z 1200))].
Proof.
  exact (proj2 (@C9_listing_order Reference.jwt Reference.bcrypt Reference.d1)
           (post_transaction income_0901) (post_transaction expense_0903)
           list_all demo_env at_second_one at_second_one at_second_two
           sarah_db sarah_claims
           eq_refl eq_refl eq_refl eq_refl eq_refl eq_refl eq_refl eq_refl
           eq_refl eq_refl (Forall_nil _)).
Defined.

(** C9, as stated, fails on ties: of two transactions of one date the one
    inserted first is listed first, not the most recently inserted one. *)
Lemma C9_counterexample_ties :
  exists resp,
    result (demo_serve list_all demo_env at_second_two
              (after [(post_transaction (same_day "first"), at_second_one);
                      (post_transaction (same_day "second"), at_second_one)]
                 sarah_db)) = Ok resp
    /\ map (fun item => (prop item "id", prop item "description"))
         match prop (body resp) "transactions" with
         | JArr items => items
         | _ => []
         end
       = [(JNum (inject_Z 1), JStr "first"); (JNum (inject_Z 2), JStr "second")].
Proof.
  eexists. split; [vm_compute; reflexivity | reflexivity].
Qed.

Lemma C10_unparseable_body_witness :
  demo_serve (unparseable_post "/api/auth/signup" None) demo_env at_second_one
    ledger_db
  = {| result := Ok invalid_email_or_password; final := ledger_db; trace := [] |}
  /\ demo_serve (unparseable_post "/api/transactions" sarah_bearer) demo_env
       at_second_one ledger_db
     = {| result := Ok invalid_transaction; final := ledger_db; trace := [] |}.
Proof.
  pose proof (@C10_unparseable_body Reference.jwt Reference.bcrypt Reference.d1
                (unparseable_post "/api/auth/signup" None) demo_env
                at_second_one ledger_db eq_refl) as H1.
  pose proof (@C10_unparseable_body Reference.jwt Reference.bcrypt Reference.d1
                (unparseable_post "/api/transactions" sarah_bearer) demo_env
                at_second_one ledger_db eq_refl) as H2.
  split.
  - exact (proj1 (proj2 H1) (or_introl eq_refl)).
  - exact (proj1 (proj1 (proj2 (proj2 H2)) eq_refl) sarah_claims eq_refl).
Defined.

(** C10, as stated, fails: a POST to /api/transactions with an unparseable
    body and no token is answered 401, not 400. *)
Lemma C10_counterexample_unauthenticated :
  demo_serve (unparseable_post "/api/transactions" None) demo_env at_second_one
    ledger_db
  = {| result := Ok (createJsonResponse (error_body "Unauthorized") 401);
       final := ledger_db; trace := [] |}
  /\ status (createJsonResponse (error_body "Unauthorized") 401) <> 400.
Proof. split; [vm_compute; reflexivity | discriminate]. Qed.

(** * Further properties of the router *)

(** ** What the email pattern accepts *)

Lemma append_empty_r (s : string) : s ++ "" = s.
Proof. induction s as [ | c s IH]; cbn; [reflexivity | now rewrite IH]. Qed.

Lemma append_assoc (a b c : string) : (a ++ b) ++ c = a ++ (b ++ c).
Proof. induction a as [ | x a IH]; cbn; [reflexivity | now rewrite IH]. Qed.

Lemma length_append (a b : string) :
  String.length (a ++ b) = (String.length a + String.length b)%nat.
Proof. induction a as [ | x a IH]; cbn; [reflexivity | now rewrite IH]. Qed.

Lemma append_eq_empty (a b : string) : a ++ b = "" -> a = "" /\ b = "".
Proof. destruct a; cbn; [auto | discriminate]. Qed.

Lemma matches_cat_inv r1 r2 s :
  matches (RCat r1 r2) s ->
  exists s1 s2, s = s1 ++ s2 /\ matches r1 s1 /\ matches r2 s2.
Proof. intros H. inversion H; subst. eauto. Qed.

Lemma matches_alt_inv r1 r2 s :
  matches (RAlt r1 r2) s -> matches r1 s \/ matches r2 s.
Proof. intros H. inversion H; subst; auto. Qed.

Lemma nullable_spec r : nullable r = true <-> matches r "".
Proof.
  induction r as [ | | p | r1 IH1 r2 IH2 | r1 IH1 r2 IH2 | r IH]; cbn.
  - split; [discriminate | intros H; inversion H].
  - split; [constructor | reflexivity].
  - split; [discriminate | intros H; inversion H].
  - rewrite andb_true_iff, IH1, IH2. split.
    + intros [H1 H2]. exact (m_cat _ _ "" "" H1 H2).
    + intros H. apply matches_cat_inv in H.
      destruct H as (s1 & s2 & Heq & H1 & H2).
      symmetry in Heq. apply append_eq_empty in Heq. destruct Heq; subst. auto.
  - rewrite orb_true_iff, IH1, IH2. split.
    + intros [H | H]; [now apply m_alt_l | now apply m_alt_r].
    + apply matches_alt_inv.
  - split; [constructor | reflexivity].
Qed.

(** A match of a starred pattern that starts with [c] starts with a match of
    the pattern itself that starts with [c]. *)
Lemma star_head r c s :
  matches (RStar r) (String c s) ->
  exists s1 s2, s = s1 ++ s2 /\ matches r (String c s1) /\ matches (RStar r) s2.
Proof.
  intros H. remember (RStar r) as r' eqn:Hr. remember (String c s) as t eqn:Ht.
  revert s Ht.
  induction H as [ | | | | | | r0 s1 s2 H1 _ H2 IH2]; intros u Ht;
    try discriminate.
  injection Hr as ->.
  destruct s1 as [ | c1 s1]; cbn in Ht.
  - apply (IH2 eq_refl), Ht.
  - injection Ht as -> <-. exists s1, s2. auto.
Qed.

Lemma deriv_spec c r s : matches (deriv c r) s <-> matches r (String c s).
Proof.
  revert s.
  induction r as [ | | p | r1 IH1 r2 IH2 | r1 IH1 r2 IH2 | r IH]; intros s; cbn.
  - split; intros H; inversion H.
  - split; intros H; inversion H.
  - destruct (p c) eqn:Hp; split; intros H; inversion H; subst.
    + now constructor.
    + constructor.
    + congruence.
  - split.
    + intros H.
      assert (Hcat : forall t, matches (RCat (deriv c r1) r2) t ->
                               matches (RCat r1 r2) (String c t)).
      { intros t Ht. apply matches_cat_inv in Ht.
        destruct Ht as (s1 & s2 & -> & H1 & H2).
        apply IH1 in H1. exact (m_cat _ _ (String c s1) s2 H1 H2). }
      destruct (nullable r1) eqn:Hn; [ | now apply Hcat].
      apply matches_alt_inv in H. destruct H as [Hl | Hr].
      * now apply Hcat.
      * apply IH2 in Hr. apply nullable_spec in Hn.
        exact (m_cat _ _ "" (String c s) Hn Hr).
    + intros H. apply matches_cat_inv in H.
      destruct H as (s1 & s2 & Heq & H1 & H2).
      destruct s1 as [ | c1 s1]; cbn in Heq.
      * subst s2. apply IH2 in H2. apply nullable_spec in H1. rewrite H1.
        now apply m_alt_r.
      * injection Heq as <- ->. apply IH1 in H1.
        pose proof (m_cat _ _ s1 s2 H1 H2) as Hc.
        destruct (nullable r1); [now apply m_alt_l | exact Hc].
  - split; intros H; apply matches_alt_inv in H; destruct H as [H | H].
    + apply m_alt_l. now apply IH1.
    + apply m_alt_r. now apply IH2.
    + apply m_alt_l. now apply IH1.
    + apply m_alt_r. now apply IH2.
  - split.
    + intros H. apply matches_cat_inv in H.
      destruct H as (s1 & s2 & -> & H1 & H2).
      apply IH in H1. exact (m_star_more _ (String c s1) s2 H1 H2).
    + intros H. apply star_head in H. destruct H as (s1 & s2 & -> & H1 & H2).
      apply IH in H1. exact (m_cat _ _ s1 s2 H1 H2).
Qed.

Lemma re_test_spec r s : re_test r s = true <-> matches r s.
Proof.
  revert r. induction s as [ | c s IH]; intros r; cbn.
  - apply nullable_spec.
  - rewrite IH. apply deriv_spec.
Qed.

Lemma matches_class_inv p s :
  matches (RClass p) s -> exists c, s = String c "" /\ p c = true.
Proof. intros H. inversion H; subst. eauto. Qed.

Lemma all_chars_app p a b :
  all_chars p (a ++ b) = all_chars p a && all_chars p b.
Proof.
  induction a as [ | c a IH]; cbn; [reflexivity | ].
  rewrite IH. apply andb_assoc.
Qed.

Lemma star_class p s :
  matches (RStar (RClass p)) s <-> all_chars p s = true.
Proof.
  split.
  - intros H. remember (RStar (RClass p)) as r eqn:Hr.
    induction H as [ | | | | | | r0 s1 s2 H1 _ H2 IH2]; try discriminate.
    + reflexivity.
    + injection Hr as ->.
      apply matches_class_inv in H1. destruct H1 as (c & -> & Hc).
      cbn. rewrite Hc. apply IH2. reflexivity.
  - induction s as [ | c s IH]; cbn; [constructor | ].
    intros H. apply andb_true_iff in H. destruct H as [Hc Hs].
    exact (m_star_more _ (String c "") s (m_class p c Hc) (IH Hs)).
Qed.

Lemma plus_class p s :
  matches (RPlus (RClass p)) s <-> s <> "" /\ all_chars p s = true.
Proof.
  unfold RPlus. split.
  - intros H. apply matches_cat_inv in H.
    destruct H as (s1 & s2 & -> & H1 & H2).
    apply matches_class_inv in H1. destruct H1 as (c & -> & Hc).
    apply star_class in H2. cbn. rewrite Hc, H2. split; [discriminate | reflexivity].
  - intros [Hne H]. destruct s as [ | c s]; [contradiction | ].
    cbn in H. apply andb_true_iff in H. destruct H as [Hc Hs].
    apply star_class in Hs.
    exact (m_cat _ _ (String c "") s (m_class p c Hc) Hs).
Qed.

Lemma matches_char c s :
  matches (RClass (Ascii.eqb c)) s <-> s = String c "".
Proof.
  split.
  - intros H. apply matches_class_inv in H. destruct H as (x & -> & Hx).
    apply Ascii.eqb_eq in Hx. now subst.
  - intros ->. constructor. apply Ascii.eqb_refl.
Qed.

Lemma email_re_spec s :
  matches email_re s <->
  exists a b c,
    s = a ++ "@" ++ b ++ "." ++ c
    /\ email_part a /\ email_part b /\ email_part c.
Proof.
  unfold email_re, email_part. split.
  - intros H.
    apply matches_cat_inv in H. destruct H as (a & s1 & -> & Ha & H).
    apply matches_cat_inv in H. destruct H as (at1 & s2 & -> & Hat & H).
    apply matches_cat_inv in H. destruct H as (b & s3 & -> & Hb & H).
    apply matches_cat_inv in H. destruct H as (dot & c & -> & Hdot & Hc).
    apply matches_char in Hat. apply matches_char in Hdot. subst.
    apply plus_class in Ha. apply plus_class in Hb. apply plus_class in Hc.
    exists a, b, c. auto.
  - intros (a & b & c & -> & Ha & Hb & Hc).
    apply plus_class in Ha. apply plus_class in Hb. apply plus_class in Hc.
    apply m_cat; [exact Ha | ].
    apply (m_cat _ _ "@"); [now apply matches_char | ].
    apply m_cat; [exact Hb | ].
    apply (m_cat _ _ "."); [now apply matches_char | exact Hc].
Qed.

Lemma occurrences_app c a b :
  occurrences c (a ++ b) = (occurrences c a + occurrences c b)%nat.
Proof.
  induction a as [ | x a IH]; cbn; [reflexivity | ]. rewrite IH. lia.
Qed.

Lemma email_part_no_at s :
  all_chars not_space_at s = true -> occurrences "@" s = O.
Proof.
  induction s as [ | c s IH]; cbn; [reflexivity | ].
  intros H. apply andb_true_iff in H. destruct H as [Hc Hs].
  unfold not_space_at in Hc. apply andb_true_iff in Hc. destruct Hc as [_ Hc].
  apply negb_true_iff in Hc. rewrite Hc, (IH Hs). reflexivity.
Qed.

Lemma email_part_no_space s :
  all_chars not_space_at s = true ->
  all_chars (fun c => negb (is_space c)) s = true.
Proof.
  induction s as [ | c s IH]; cbn; [reflexivity | ].
  intros H. apply andb_true_iff in H. destruct H as [Hc Hs].
  unfold not_space_at in Hc. apply andb_true_iff in Hc. destruct Hc as [Hc _].
  rewrite Hc, (IH Hs). reflexivity.
Qed.

(** X1: [validateEmail] accepts exactly the strings [local@domain.tld] whose
    three parts are non-empty and hold neither white space nor ["@"]; so an
    accepted email has exactly one ["@"], no white space, and a dot after the
    ["@"] with something on both sides. *)
Theorem validateEmail_shape (v : JValue) :
  (validateEmail v = true <->
   exists local domain tld,
     v = JStr (local ++ "@" ++ domain ++ "." ++ tld)
     /\ email_part local /\ email_part domain /\ email_part tld)
  /\ (forall s,
        v = JStr s -> validateEmail v = true ->
        occurrences "@" s = 1%nat
        /\ all_chars (fun c => negb (is_space c)) s = true
        /\ (5 <= String.length s)%nat).
Proof.
  assert (Hiff : forall s, validateEmail (JStr s) = true <->
            exists local domain tld,
              s = local ++ "@" ++ domain ++ "." ++ tld
              /\ email_part local /\ email_part domain /\ email_part tld).
  { intros s. cbn. rewrite re_test_spec. apply email_re_spec. }
  split.
  - destruct v;
      try (cbn; split;
           [intros H; discriminate H
           | intros (l0 & d0 & t0 & H & _); discriminate H]).
    split.
    + intros H. apply Hiff in H. destruct H as (a & b & c & -> & H).
      exists a, b, c. auto.
    + intros (a & b & c & [= ->] & H). apply Hiff. exists a, b, c. auto.
  - intros s -> H. apply Hiff in H.
    destruct H as (a & b & c & -> & [Ha1 Ha] & [Hb1 Hb] & [Hc1 Hc]).
    split; [ | split].
    + rewrite !occurrences_app, (email_part_no_at _ Ha), (email_part_no_at _ Hb),
        (email_part_no_at _ Hc). reflexivity.
    + rewrite !all_chars_app, (email_part_no_space _ Ha),
        (email_part_no_space _ Hb), (email_part_no_space _ Hc). reflexivity.
    + destruct a; [contradiction | ]. destruct b; [contradiction | ].
      destruct c; [contradiction | ].
      rewrite !length_append. cbn. lia.
Qed.

(** ** What [validateTransaction] accepts *)

Lemma trimStart_blank s :
  all_chars is_space (trimStart s) = all_chars is_space s.
Proof.
  induction s as [ | c s IH]; cbn; [reflexivity | ].
  destruct (is_space c) eqn:Hc; cbn; [exact IH | now rewrite Hc].
Qed.

Lemma trimEnd_empty s : trimEnd s = "" <-> all_chars is_space s = true.
Proof.
  induction s as [ | c s IH]; cbn; [tauto | ].
  destruct (String.eqb_spec (trimEnd s) "") as [He | Hne].
  - destruct (is_space c); cbn.
    + split; [intros _; now apply IH | reflexivity].
    + split; discriminate.
  - cbn. split; [discriminate | ].
    intros H. apply andb_true_iff in H. destruct H as [_ H].
    apply IH in H. contradiction.
Qed.

(** [s.trim()] is empty exactly when [s] holds white space only. *)
Lemma trim_empty s : trim s = "" <-> all_chars is_space s = true.
Proof. unfold trim. rewrite trimEnd_empty, trimStart_blank. tauto. Qed.

Lemma blank_or_not_string_false v :
  blank_or_not_string v = false <->
  exists s, v = JStr s /\ all_chars is_space s = false.
Proof.
  destruct v; cbn; try (split; [discriminate | intros (s0 & H & _); discriminate H]).
  split.
  - intros H. exists s. split; [reflexivity | ].
    destruct (all_chars is_space s) eqn:E; [ | reflexivity].
    apply trim_empty in E. rewrite E in H. discriminate.
  - intros (s0 & [= <-] & H).
    destruct (String.eqb_spec (trim s) "") as [E | _]; [ | reflexivity].
    apply trim_empty in E. congruence.
Qed.

Lemma validateTransaction_inv (data : JValue) :
  validateTransaction data = true ->
  exists d a t,
    prop data "date" = JStr d /\ prop data "amount" = JNum a
    /\ prop data "type" = JStr t
    /\ all_chars is_space d = false /\ all_chars is_space t = false.
Proof.
  intros H. unfold validateTransaction in H.
  destruct (truthy data); cbn in H; [ | discriminate].
  destruct (blank_or_not_string (prop data "date")) eqn:Hd; [discriminate | ].
  destruct (is_number (prop data "amount")) eqn:Ha; cbn in H; [ | discriminate].
  destruct (blank_or_not_string (prop data "type")) eqn:Ht; [discriminate | ].
  apply blank_or_not_string_false in Hd. destruct Hd as (d & Hd & Hd').
  apply blank_or_not_string_false in Ht. destruct Ht as (t & Ht & Ht').
  destruct (prop data "amount") as [ | | | a | | | ] eqn:Hp; try discriminate.
  exists d, a, t. auto.
Qed.

(** X2: [validateTransaction] accepts a body exactly when its [date] and
    its [type] are strings with at least one character that is not white
    space and its [amount] is a number.  Nothing else is looked at: any
    number is accepted, zero and either sign included, with either type. *)
Theorem validateTransaction_accepts_exactly (data : JValue) :
  validateTransaction data = true <->
  exists d a t,
    prop data "date" = JStr d /\ prop data "amount" = JNum a
    /\ prop data "type" = JStr t
    /\ all_chars is_space d = false /\ all_chars is_space t = false.
Proof.
  split; [apply validateTransaction_inv | ].
  intros (d & a & t & Hd & Ha & Ht & Hd' & Ht').
  apply validateTransaction_accepts.
  - apply blank_or_not_string_false. eauto.
  - rewrite Ha. reflexivity.
  - apply blank_or_not_string_false. eauto.
Qed.

(** ** Every handler, case by case *)

Section Outcomes.

Context {jwt : JwtLib} {bcrypt : BcryptLib} {d1 : D1Lib}.

Lemma run_signup_cases request env w db :
  run (now_sec w) (signup request env w) db =
  if credentials_invalid (parseJSON request) then
    {| result := Ok invalid_email_or_password; final := db; trace := [] |}
  else
    match find_user db (str_of (prop (parseJSON request) "email")) with
    | Some _ =>
        {| result := Ok email_registered; final := db;
           trace := ["SELECT id FROM users WHERE email = ?"] |}
    | None =>
        {| result := Ok user_created;
           final := with_user db (str_of (prop (parseJSON request) "email"))
                      (bcrypt_hash (str_of (prop (parseJSON request) "password"))
                         10 (salt w)) (now_sec w);
           trace := ["SELECT id FROM users WHERE email = ?";
                     "INSERT INTO users (email, password) VALUES (?, ?)"] |}
    end.
Proof.
  destruct (credentials_invalid (parseJSON request)) eqn:V.
  - unfold signup. rewrite V. reflexivity.
  - destruct (find_user db (str_of (prop (parseJSON request) "email")))
      as [u | ] eqn:F.
    + exact (run_signup_existing _ _ _ _ u V F).
    + exact (run_signup_new _ _ _ _ V F).
Qed.

Lemma run_login_cases request env w db :
  run (now_sec w) (login request env w) db =
  if credentials_invalid (parseJSON request) then
    {| result := Ok invalid_email_or_password; final := db; trace := [] |}
  else
    {| result :=
         Ok match find_user db (str_of (prop (parseJSON request) "email")) with
            | None => invalid_credentials
            | Some u =>
                if bcrypt_compare (str_of (prop (parseJSON request) "password"))
                     (u_password u)
                then createJsonResponse
                       (JObj [("token",
                               JStr (jwt_sign (login_claims u w) (JWT_SECRET env)))])
                       200
                else invalid_credentials
            end;
       final := db;
       trace := ["SELECT * FROM users WHERE email = ?"] |}.
Proof.
  destruct (credentials_invalid (parseJSON request)) eqn:V.
  - exact (login_invalid _ _ _ _ V).
  - unfold login. rewrite V. cbn [run exec].
    destruct (find_user db (str_of (prop (parseJSON request) "email")))
      as [u | ]; [ | reflexivity].
    destruct (bcrypt_compare _ (u_password u)); reflexivity.
Qed.

Lemma run_add_cases request decoded now db :
  run now (add_transaction request decoded) db =
  if validateTransaction (parseJSON request) then
    match to_sql (js_or (prop (parseJSON request) "description") JNull),
          to_sql (js_or (prop (parseJSON request) "category") JNull) with
    | Some description, Some category =>
        if user_exists db decoded then
          {| result := Ok transaction_added;
             final := with_transaction db
                        (new_transaction db decoded (parseJSON request)
                           description category now);
             trace := ["INSERT INTO transactions (user_id, date, description, category, amount, type) VALUES (?, ?, ?, ?, ?, ?)"] |}
        else
          {| result := Exn "D1_ERROR: FOREIGN KEY constraint failed";
             final := db;
             trace := ["INSERT INTO transactions (user_id, date, description, category, amount, type) VALUES (?, ?, ?, ?, ?, ?)"] |}
    | _, _ =>
        {| result := Exn "D1_TYPE_ERROR: Type 'object' not supported";
           final := db; trace := [] |}
    end
  else {| result := Ok invalid_transaction; final := db; trace := [] |}.
Proof.
  unfold add_transaction, user_exists.
  destruct (validateTransaction (parseJSON request)); cbn [negb];
    [ | reflexivity].
  destruct (to_sql (js_or (prop (parseJSON request) "description") JNull));
    [ | reflexivity].
  destruct (to_sql (js_or (prop (parseJSON request) "category") JNull));
    [ | reflexivity].
  cbn [run exec].
  destruct (existsb (fun u => u_id u =? p_id decoded) (users db)); reflexivity.
Qed.

Lemma run_list_cases request decoded now db :
  run now (list_transactions request decoded) db =
  match int64_of (q_limit (list_query request decoded)),
        int64_of (q_offset (list_query request decoded)) with
  | Some lim, Some off =>
      {| result :=
           Ok (list_response (list_query request decoded)
                 (limit_offset lim off
                    (selected db (list_query request decoded))));
         final := db;
         trace := [tx_query_text (list_query request decoded)] |}
  | _, _ =>
      {| result := Exn "D1_ERROR: datatype mismatch"; final := db;
         trace := [tx_query_text (list_query request decoded)] |}
  end.
Proof.
  destruct (int64_of (q_limit (list_query request decoded))) as [lim | ]
    eqn:Hl.
  - destruct (int64_of (q_offset (list_query request decoded))) as [off | ]
      eqn:Ho.
    + exact (run_list _ _ _ _ _ _ Hl Ho).
    + unfold list_transactions. cbv zeta. rewrite run_select, Hl, Ho.
      reflexivity.
  - unfold list_transactions. cbv zeta. rewrite run_select, Hl. reflexivity.
Qed.

(** The router, route by route, on a store. *)
Lemma serve_cases request env w db :
  serve request env w db =
  if is_route request "/api/auth/signup" "POST" then
    run (now_sec w) (signup request env w) db
  else if is_route request "/api/auth/login" "POST" then
    run (now_sec w) (login request env w) db
  else
    match verifyToken (auth_header request) env w with
    | Exn e => {| result := Exn e; final := db; trace := [] |}
    | Ok None => {| result := Ok unauthorized; final := db; trace := [] |}
    | Ok (Some decoded) =>
        if is_route request "/api/metrics" "GET" then
          {| result := Ok metrics; final := db; trace := [] |}
        else if is_route request "/api/transactions" "GET" then
          run (now_sec w) (list_transactions request decoded) db
        else if is_route request "/api/transactions" "POST" then
          run (now_sec w) (add_transaction request decoded) db
        else {| result := Ok not_found; final := db; trace := [] |}
    end.
Proof.
  unfold serve, fetch. fold (auth_header request).
  destruct (is_route request "/api/auth/signup" "POST"); [reflexivity | ].
  destruct (is_route request "/api/auth/login" "POST"); [reflexivity | ].
  destruct (verifyToken (auth_header request) env w) as [[decoded | ] | e];
    [ | reflexivity | reflexivity].
  destruct (is_route request "/api/metrics" "GET"); [reflexivity | ].
  destruct (is_route request "/api/transactions" "GET"); [reflexivity | ].
  destruct (is_route request "/api/transactions" "POST"); reflexivity.
Qed.

End Outcomes.

(** ** The router as a whole *)

Ltac by_route request env w :=
  rewrite serve_cases;
  destruct (is_route request "/api/auth/signup" "POST") eqn:?Rsignup;
  [ rewrite run_signup_cases
  | destruct (is_route request "/api/auth/login" "POST") eqn:?Rlogin;
    [ rewrite run_login_cases
    | destruct (verifyToken (auth_header request) env w)
        as [[?decoded | ] | ?thrown] eqn:?Auth;
      [ destruct (is_route request "/api/metrics" "GET") eqn:?Rmetrics;
        [ | destruct (is_route request "/api/transactions" "GET") eqn:?Rlist;
            [ rewrite run_list_cases
            | destruct (is_route request "/api/transactions" "POST") eqn:?Radd;
              [ rewrite run_add_cases | ] ] ]
      | | ] ] ].

Section Whole.

Context {jwt : JwtLib} {bcrypt : BcryptLib} {d1 : D1Lib}.

Lemma verifyToken_needs_bearer header env w :
  startsWith header "Bearer " = false -> verifyToken header env w = Ok None.
Proof.
  intros H. unfold verifyToken. rewrite H. cbn [negb].
  rewrite orb_true_r. reflexivity.
Qed.



(** X3: a request that is neither the signup nor the login POST and whose
    Authorization header is absent or does not start with ["Bearer "] is
    answered 401, whatever its path and method (an unknown path too), with
    no statement run. *)
Theorem missing_bearer_is_unauthorized
    (request : Request) (env : Env) (w : World) (db : DB) :
  auth_route request = false ->
  startsWith (auth_header request) "Bearer " = false ->
  serve request env w db =
  {| result := Ok unauthorized; final := db; trace := [] |}
  /\ status unauthorized = 401.
Proof.
  intros Hr Hh. split; [ | reflexivity].
  apply orb_false_iff in Hr. destruct Hr as [R1 R2].
  rewrite serve_cases, R1, R2, (verifyToken_needs_bearer _ _ _ Hh).
  reflexivity.
Qed.

(** X4: behind an accepted token, the answer is the 404 [Not found] exactly
    when the request is none of GET /api/metrics, GET /api/transactions and
    POST /api/transactions; that answer and the metrics answer run no
    statement, and the metrics are the same three numbers for every user and
    store. *)
Theorem authenticated_routing
    (request : Request) (env : Env) (w : World) (db : DB) (decoded : Payload) :
  auth_route request = false ->
  verifyToken (auth_header request) env w = Ok (Some decoded) ->
  (result (serve request env w db) = Ok not_found
   <-> protected_route request = false)
  /\ (protected_route request = false ->
      serve request env w db =
      {| result := Ok not_found; final := db; trace := [] |})
  /\ (is_route request "/api/metrics" "GET" = true ->
      serve request env w db =
      {| result := Ok metrics; final := db; trace := [] |}).
Proof.
  intros Hr A. apply orb_false_iff in Hr. destruct Hr as [R1 R2].
  unfold protected_route.
  rewrite serve_cases, R1, R2, A.
  destruct (is_route request "/api/metrics" "GET") eqn:Rm.
  { cbn [orb]. cbv iota. repeat split; try discriminate; auto. }
  destruct (is_route request "/api/transactions" "GET") eqn:Rl.
  { rewrite run_list_cases. cbn [orb]. cbv iota.
    repeat split; try discriminate.
    destruct (int64_of (q_limit (list_query request decoded)));
      [ | discriminate].
    destruct (int64_of (q_offset (list_query request decoded)));
      discriminate. }
  destruct (is_route request "/api/transactions" "POST") eqn:Ra.
  { rewrite run_add_cases. cbn [orb]. cbv iota.
    repeat split; try discriminate.
    destruct (validateTransaction (parseJSON request)); [ | discriminate].
    destruct (to_sql _); [ | discriminate].
    destruct (to_sql _); [ | discriminate].
    destruct (user_exists db decoded); discriminate. }
  cbn [orb]. cbv iota. repeat split; auto; discriminate.
Qed.

(** X5: whenever the router answers, the status is one of 200, 201, 400,
    401, 404 and 409 and the content type is [application/json]. *)
Theorem response_statuses
    (request : Request) (env : Env) (w : World) (db : DB) (resp : Response) :
  result (serve request env w db) = Ok resp ->
  In (status resp) router_statuses
  /\ content_type resp = "application/json".
Proof.
  unfold router_statuses.
  by_route request env w.
  - destruct (credentials_invalid (parseJSON request));
      [ | destruct (find_user db _)]; intros [= <-]; cbn; auto 10.
  - destruct (credentials_invalid (parseJSON request)); cbn [result];
      [intros [= <-]; cbn; auto 10 | ].
    destruct (find_user db _) as [u | ];
      [destruct (bcrypt_compare _ (u_password u)) | ];
      intros [= <-]; cbn; auto 10.
  - intros [= <-]; cbn; auto 10.
  - destruct (int64_of (q_limit (list_query request decoded)));
      [ | discriminate].
    destruct (int64_of (q_offset (list_query request decoded)));
      [ | discriminate].
    intros [= <-]; cbn; auto 10.
  - destruct (validateTransaction (parseJSON request));
      [ | intros [= <-]; cbn; auto 10].
    destruct (to_sql _); [ | discriminate].
    destruct (to_sql _); [ | discriminate].
    destruct (user_exists db decoded); [ | discriminate].
    intros [= <-]; cbn; auto 10.
  - intros [= <-]; cbn; auto 10.
  - intros [= <-]; cbn; auto 10.
  - discriminate.
Qed.


(** X7: a request changes the store only when it is answered 201, and then
    by exactly one appended row: a user row for a signup, a transaction row
    for an insert.  Every other outcome, exceptions included, leaves the
    store as it was; no row is ever altered or removed. *)
Theorem store_changes_only_on_201
    (request : Request) (env : Env) (w : World) (db : DB) :
  final (serve request env w db) = db
  \/ (result (serve request env w db) = Ok user_created
      /\ exists row,
           users (final (serve request env w db)) = (users db ++ [row])%list
           /\ transactions (final (serve request env w db)) = transactions db)
  \/ (result (serve request env w db) = Ok transaction_added
      /\ exists row,
           transactions (final (serve request env w db))
           = (transactions db ++ [row])%list
           /\ users (final (serve request env w db)) = users db).
Proof.
  by_route request env w; try (left; reflexivity).
  - destruct (credentials_invalid (parseJSON request)); [now left | ].
    destruct (find_user db _); [now left | ].
    right; left. split; [reflexivity | ]. eexists. split; reflexivity.
  - destruct (credentials_invalid (parseJSON request)); now left.
  - destruct (int64_of (q_limit (list_query request decoded)));
      [ | now left].
    destruct (int64_of (q_offset (list_query request decoded))); now left.
  - destruct (validateTransaction (parseJSON request)); [ | now left].
    destruct (to_sql _); [ | now left].
    destruct (to_sql _); [ | now left].
    destruct (user_exists db decoded); [ | now left].
    right; right. split; [reflexivity | ]. eexists. split; reflexivity.
Qed.

End Whole.

(** ** Pages and bounds of a listing *)

Lemma selected_within db request decoded r :
  In r (selected db (list_query request decoded)) -> within_bounds request r.
Proof.
  unfold selected. intros H.
  apply (Permutation_in _ (order_by_date_desc_perm _)) in H.
  apply filter_In in H. destruct H as [_ Hw].
  unfold tx_where in Hw. cbn [list_query q_start q_end q_user] in Hw.
  apply andb_true_iff in Hw. destruct Hw as [Hw He].
  apply andb_true_iff in Hw. destruct Hw as [_ Hs].
  split.
  - intros s Hp. rewrite Hp in Hs. exact Hs.
  - intros e Hp. rewrite Hp in He. exact He.
Qed.

Lemma limit_offset_length {A : Type} lim off (l : list A) :
  0 <= lim -> Z.of_nat (List.length (limit_offset lim off l)) <= lim.
Proof.
  intros H. unfold limit_offset.
  destruct (Z.ltb_spec lim 0) as [Hneg | _]; [lia | ].
  rewrite length_firstn. lia.
Qed.

Lemma limit_offset_all {A : Type} lim off (l : list A) :
  lim < 0 -> off <= 0 -> limit_offset lim off l = l.
Proof.
  intros Hl Ho. unfold limit_offset.
  destruct (Z.ltb_spec lim 0) as [_ | Hge]; [ | lia].
  replace (Z.max 0 off) with 0 by lia. reflexivity.
Qed.

Lemma firstn_plus {A : Type} n k (l : list A) :
  firstn (n + k) l = (firstn n l ++ firstn k (skipn n l))%list.
Proof.
  revert l. induction n as [ | n IH]; intros l; [reflexivity | ].
  destruct l as [ | x l]; cbn.
  - now rewrite firstn_nil.
  - now rewrite IH.
Qed.

Lemma skipn_plus {A : Type} n k (l : list A) :
  skipn (n + k) l = skipn k (skipn n l).
Proof.
  revert l. induction n as [ | n IH]; intros l; [reflexivity | ].
  destruct l as [ | x l]; cbn; [now rewrite skipn_nil | apply IH].
Qed.

Lemma limit_offset_next_page {A : Type} lim off (l : list A) :
  0 <= lim -> 0 <= off ->
  (limit_offset lim off l ++ limit_offset lim (off + lim) l)%list
  = limit_offset (2 * lim) off l.
Proof.
  intros Hl Ho. unfold limit_offset.
  destruct (Z.ltb_spec lim 0) as [Hneg | _]; [lia | ].
  destruct (Z.ltb_spec (2 * lim) 0) as [Hneg | _]; [lia | ].
  replace (Z.max 0 off) with off by lia.
  replace (Z.max 0 (off + lim)) with (off + lim) by lia.
  replace (Z.to_nat (off + lim)) with (Z.to_nat off + Z.to_nat lim)%nat by lia.
  replace (Z.to_nat (2 * lim)) with (Z.to_nat lim + Z.to_nat lim)%nat by lia.
  rewrite skipn_plus, firstn_plus. reflexivity.
Qed.

Lemma selected_same_filter db q1 q2 :
  q_user q1 = q_user q2 -> q_start q1 = q_start q2 -> q_end q1 = q_end q2 ->
  selected db q1 = selected db q2.
Proof.
  intros Hu Hs He. unfold selected. f_equal. apply filter_ext.
  intros r. unfold tx_where. now rewrite Hu, Hs, He.
Qed.

Section Pages.

Context {jwt : JwtLib} {bcrypt : BcryptLib} {d1 : D1Lib}.

(** X8: in every answered listing, each record lies within the given date
    bounds (both inclusive), the [count] of the pagination block is the
    number of records, and for a limit that is not negative that number is
    at most the limit, which is at most 100; a limit of 0 lists nothing. *)
Theorem listing_within_bounds_and_limit
    (request : Request) (env : Env) (w : World) (db : DB) (decoded : Payload)
    (resp : Response) :
  is_route request "/api/transactions" "GET" = true ->
  verifyToken (auth_header request) env w = Ok (Some decoded) ->
  result (serve request env w db) = Ok resp ->
  exists rows lim,
    q_limit (list_query request decoded) = Int lim
    /\ listed resp = map tx_json rows
    /\ prop (prop (body resp) "pagination") "count"
       = JNum (inject_Z (Z.of_nat (List.length rows)))
    /\ Forall (within_bounds request) rows
    /\ lim <= 100
    /\ (0 <= lim -> Z.of_nat (List.length rows) <= lim).
Proof.
  intros R A. unfold serve. rewrite (fetch_list _ _ _ _ R A), run_list_cases.
  destruct (int64_of (q_limit (list_query request decoded))) as [lim | ]
    eqn:Hl; [ | discriminate].
  destruct (int64_of (q_offset (list_query request decoded))) as [off | ]
    eqn:Ho; [ | discriminate].
  intros [= <-]. apply int64_of_Int in Hl.
  exists (limit_offset lim off (selected db (list_query request decoded))), lim.
  split; [exact Hl | ]. split; [reflexivity | ]. split; [reflexivity | ].
  split; [ | split].
  - apply Forall_forall. intros r Hr. apply limit_offset_incl in Hr.
    exact (selected_within _ _ _ _ Hr).
  - unfold list_query in Hl. cbn [q_limit] in Hl.
    destruct (parseInt (param_or request "limit" "50")) as [ | [ | ] | n];
      cbn in Hl; try discriminate Hl; injection Hl as <-; lia.
  - intros H. apply limit_offset_length, H.
Qed.

(** X9: a negative limit removes the ceiling.  With a negative [limit]
    that the store accepts (above [-2^63]) and an offset it accepts that is
    absent or not positive, the listing answers 200 with every stored row
    of the user that lies within the bounds, however many there are, and
    echoes the negative limit. *)
Theorem negative_limit_lists_everything
    (request : Request) (env : Env) (w : World) (db : DB) (decoded : Payload)
    (s : string) (n off : Z) :
  is_route request "/api/transactions" "GET" = true ->
  verifyToken (auth_header request) env w = Ok (Some decoded) ->
  searchParams_get request "limit" = Some s ->
  parseInt s = Int n -> - 2 ^ 63 < n < 0 ->
  int64_of (q_offset (list_query request decoded)) = Some off -> off <= 0 ->
  result (serve request env w db)
  = Ok (list_response (list_query request decoded)
          (selected db (list_query request decoded)))
  /\ q_limit (list_query request decoded) = Int n
  /\ Permutation (selected db (list_query request decoded))
       (filter (tx_where (list_query request decoded)) (transactions db)).
Proof.
  intros R A Hs Hn Hneg Ho Hoff.
  assert (Hl : q_limit (list_query request decoded) = Int n).
  { unfold list_query. cbn [q_limit].
    rewrite (param_or_parsed _ _ _ _ _ Hs Hn). cbn. f_equal. lia. }
  assert (Hl' : int64_of (q_limit (list_query request decoded)) = Some n).
  { rewrite Hl. apply int64_of_small. lia. }
  unfold serve. rewrite (fetch_list _ _ _ _ R A), run_list_cases, Hl', Ho.
  rewrite (limit_offset_all _ _ _ (proj2 Hneg) Hoff).
  split; [reflexivity | ]. split; [exact Hl | ].
  apply order_by_date_desc_perm.
Qed.

(** X10: two listings by the same user with the same bounds and the same
    limit, the second at the offset of the first plus the limit, both
    offsets being ones the store accepts, give consecutive pages of one
    ordered list: put end to end they are the page of twice the limit at
    the first offset, with no row twice and none skipped. *)
Theorem consecutive_pages
    (g1 g2 : Request) (env : Env) (w1 w2 : World) (db : DB) (decoded : Payload)
    (lim off : Z) :
  is_route g1 "/api/transactions" "GET" = true ->
  is_route g2 "/api/transactions" "GET" = true ->
  verifyToken (auth_header g1) env w1 = Ok (Some decoded) ->
  verifyToken (auth_header g2) env w2 = Ok (Some decoded) ->
  param_if g1 "startDate" = param_if g2 "startDate" ->
  param_if g1 "endDate" = param_if g2 "endDate" ->
  int64_of (q_limit (list_query g1 decoded)) = Some lim ->
  int64_of (q_limit (list_query g2 decoded)) = Some lim ->
  int64_of (q_offset (list_query g1 decoded)) = Some off ->
  int64_of (q_offset (list_query g2 decoded)) = Some (off + lim) ->
  0 <= lim -> 0 <= off ->
  exists rows1 rows2,
    result (serve g1 env w1 db) = Ok (list_response (list_query g1 decoded) rows1)
    /\ result (serve g2 env w2 db)
       = Ok (list_response (list_query g2 decoded) rows2)
    /\ (rows1 ++ rows2)%list
       = limit_offset (2 * lim) off (selected db (list_query g1 decoded)).
Proof.
  intros R1 R2 A1 A2 Hs He L1 L2 O1 O2 Hl Ho.
  unfold serve.
  rewrite (fetch_list _ _ _ _ R1 A1), (fetch_list _ _ _ _ R2 A2).
  rewrite !run_list_cases, L1, L2, O1, O2.
  eexists. eexists. split; [reflexivity | ]. split; [reflexivity | ].
  rewrite (selected_same_filter db (list_query g2 decoded)
             (list_query g1 decoded)); [ | reflexivity | now symmetry
                                        | now symmetry].
  apply limit_offset_next_page; assumption.
Qed.

End Pages.

(** ** Insert, then list *)





Lemma listed_list_response q rows :
  listed (list_response q rows) = map tx_json rows.
Proof. reflexivity. Qed.

Section InsertThenList.

Context {jwt : JwtLib} {bcrypt : BcryptLib} {d1 : D1Lib}.


(** X12: an insert by one user never shows in another user's listing: the
    answer to any listing request under claims with a different id is the
    same after the insert as before it. *)
Theorem insert_invisible_to_other_users
    (r g : Request) (env : Env) (w1 w2 : World) (db : DB)
    (decoded other : Payload) :
  is_route r "/api/transactions" "POST" = true ->
  is_route g "/api/transactions" "GET" = true ->
  verifyToken (auth_header r) env w1 = Ok (Some decoded) ->
  verifyToken (auth_header g) env w2 = Ok (Some other) ->
  p_id other <> p_id decoded ->
  result (serve g env w2 (final (serve r env w1 db)))
  = result (serve g env w2 db).
Proof.
  intros R G A1 A2 Hne.
  unfold serve. rewrite (fetch_add _ _ _ _ R A1), !(fetch_list _ _ _ _ G A2).
  rewrite !run_list_cases.
  assert (Hsel : selected (final (run (now_sec w1) (add_transaction r decoded) db))
                   (list_query g other)
                 = selected db (list_query g other)).
  { rewrite run_add_cases.
    destruct (validateTransaction (parseJSON r)); [ | reflexivity].
    destruct (to_sql _); [ | reflexivity].
    destruct (to_sql _); [ | reflexivity].
    destruct (user_exists db decoded); [ | reflexivity].
    cbn [final]. unfold selected, with_transaction. cbn [transactions].
    rewrite filter_app. cbn [filter].
    unfold tx_where at 2. cbn [new_transaction t_user_id list_query q_user].
    destruct (Z.eqb_spec (p_id decoded) (p_id other)) as [E | _];
      [congruence | ].
    cbn. now rewrite app_nil_r. }
  rewrite Hsel.
  destruct (int64_of (q_limit (list_query g other))); [ | reflexivity].
  destruct (int64_of (q_offset (list_query g other))); reflexivity.
Qed.

End InsertThenList.

(** ** Login and the token it issues *)

Section LoginToken.

Context {jwt : JwtLib} {bcrypt : BcryptLib} {d1 : D1Lib}.

(** X13: login answers 200 only when the body passed the validators, a row
    carries exactly that email and [bcrypt.compare] accepted the password
    against the hash of that row; the token then signs the id and email of
    that row with an expiry seven days ahead.  Whatever the answer, login
    runs at most the one lookup and leaves the store as it was. *)
Theorem login_token_requires_match
    (request : Request) (env : Env) (w : World) (db : DB) :
  is_route request "/api/auth/login" "POST" = true ->
  (forall resp,
      result (serve request env w db) = Ok resp -> status resp = 200 ->
      exists u,
        credentials_invalid (parseJSON request) = false
        /\ find_user db (str_of (prop (parseJSON request) "email")) = Some u
        /\ bcrypt_compare (str_of (prop (parseJSON request) "password"))
             (u_password u) = true
        /\ resp = createJsonResponse
                    (JObj [("token",
                            JStr (jwt_sign (login_claims u w) (JWT_SECRET env)))])
                    200)
  /\ final (serve request env w db) = db
  /\ (List.length (trace (serve request env w db)) <= 1)%nat
  /\ exists resp, result (serve request env w db) = Ok resp.
Proof.
  intros R. unfold serve. rewrite (fetch_login _ _ _ R), run_login_cases.
  destruct (credentials_invalid (parseJSON request)).
  - cbn. repeat split; eauto. intros resp [= <-]. discriminate.
  - cbn [result final trace]. repeat split; eauto.
    intros resp [= <-].
    destruct (find_user db (str_of (prop (parseJSON request) "email")))
      as [u | ]; [ | discriminate].
    destruct (bcrypt_compare _ (u_password u)) eqn:C; [ | discriminate].
    intros _. exists u. auto.
Qed.

(** X14: a token is good for the ledger of the user who logged in and for
    no other.  When a login answered with a token, every listing that
    carries that token before its expiry, on any later store, holds only
    rows whose [user_id] is the id of the row that login matched. *)
Theorem token_lists_its_user
    (login_request g : Request) (env : Env) (w0 w : World) (db0 db : DB)
    (resp : Response) (tok : string) :
  is_route login_request "/api/auth/login" "POST" = true ->
  result (serve login_request env w0 db0) = Ok resp ->
  prop (body resp) "token" = JStr tok ->
  is_route g "/api/transactions" "GET" = true ->
  hdr_authorization g = Some ("Bearer " ++ tok) ->
  now_ms w < (now_sec w0 + seven_days) * 1000 ->
  exists u,
    find_user db0 (str_of (prop (parseJSON login_request) "email")) = Some u
    /\ verifyToken (auth_header g) env w = Ok (Some (login_claims u w0))
    /\ forall resp',
         result (serve g env w db) = Ok resp' ->
         exists rows,
           listed resp' = map tx_json rows
           /\ Forall (fun t => t_user_id t = u_id u) rows.
Proof.
  intros R Hres Htok G Hh Hw.
  unfold serve in Hres. rewrite (fetch_login _ _ _ R) in Hres.
  destruct (login_issues _ _ _ _ _ _ Hres Htok) as (u & Hf & -> & _).
  exists u. split; [exact Hf | ].
  assert (A : verifyToken (auth_header g) env w = Ok (Some (login_claims u w0))).
  { unfold auth_header. rewrite Hh.
    rewrite (verifyToken_issued (login_claims u w0) _ env w eq_refl).
    apply now_sec_lt in Hw. apply Z.ltb_lt in Hw. now rewrite Hw. }
  split; [exact A | ].
  intros resp'. unfold serve. rewrite (fetch_list _ _ _ _ G A), run_list_cases.
  destruct (int64_of (q_limit (list_query g (login_claims u w0))))
    as [lim | ]; [ | discriminate].
  destruct (int64_of (q_offset (list_query g (login_claims u w0))))
    as [off | ]; [ | discriminate].
  intros [= <-]. eexists. split; [apply listed_list_response | ].
  apply Forall_forall. intros t Ht. apply limit_offset_incl in Ht.
  apply selected_owner in Ht. exact (proj2 Ht).
Qed.

End LoginToken.

(** ** The draft's guards against the validators *)

Lemma not_blank_truthy s : all_chars is_space s = false -> truthy (JStr s) = true.
Proof. destruct s; [discriminate | reflexivity]. Qed.

(** X16: the validators of the router are stricter than the presence tests
    of the draft, with one exception.  Credentials the validators accept
    pass the draft's test; a transaction [validateTransaction] accepts is
    rejected by the draft exactly when its amount is zero; and a body whose
    date, amount and type are non-empty strings passes the draft's test
    although [validateTransaction] rejects it. *)
Theorem draft_guards_against_validators (data : JValue) :
  (credentials_invalid data = false -> Draft.missing_credentials data = false)
  /\ (validateTransaction data = true ->
      (Draft.transaction_rejected data = true
       <-> Qeq_bool (num_of (prop data "amount")) 0 = true))
  /\ (forall d a t,
        prop data "date" = JStr d -> prop data "amount" = JStr a ->
        prop data "type" = JStr t ->
        d <> "" -> a <> "" -> t <> "" ->
        Draft.transaction_rejected data = false
        /\ validateTransaction data = false).
Proof.
  split; [ | split].
  - unfold credentials_invalid, Draft.missing_credentials. intros H.
    apply orb_false_iff in H. destruct H as [H Hp].
    apply orb_false_iff in H. destruct H as [_ He].
    apply negb_false_iff in He. apply negb_false_iff in Hp.
    destruct (prop data "email") as [ | | | | e | | ]; try discriminate.
    destruct (prop data "password") as [ | | | | p | | ]; try discriminate.
    destruct e; [discriminate | ]. destruct p; [discriminate | ]. reflexivity.
  - intros H. pose proof H as H'.
    apply validateTransaction_inv in H.
    destruct H as (d & a & t & Hd & Ha & Ht & Hd' & Ht').
    unfold Draft.transaction_rejected.
    rewrite (prop_string_truthy _ _ _ Hd), Hd, Ha, Ht.
    rewrite (not_blank_truthy _ Hd'), (not_blank_truthy _ Ht').
    cbn. rewrite orb_false_r. rewrite negb_involutive. tauto.
  - intros d a t Hd Ha Ht Hdn Han Htn.
    unfold Draft.transaction_rejected, validateTransaction.
    rewrite (prop_string_truthy _ _ _ Hd), Hd, Ha, Ht.
    destruct d; [contradiction | ]. destruct a; [contradiction | ].
    destruct t; [contradiction | ]. cbn [truthy negb orb String.eqb].
    split; [reflexivity | ].
    destruct (blank_or_not_string _); reflexivity.
Qed.

(** ** The client against the worker *)

Lemma api_request_header tok path params options :
  tok <> "" ->
  auth_header (api_request (Some tok) path params options) = "Bearer " ++ tok.
Proof.
  intros H. unfold auth_header, api_request. cbn [hdr_authorization].
  destruct (String.eqb_spec tok ""); [contradiction | reflexivity].
Qed.

Lemma fold_loadMetrics fetched state :
  fold_left appReducer (loadMetrics fetched) state =
  {| currentPage := currentPage state;
     app_metrics := match fetched with
                    | Ok m => Some m
                    | Exn _ => app_metrics state
                    end;
     loading := false;
     app_error := match fetched with
                  | Ok _ => None
                  | Exn _ => Some "Failed to load metrics"
                  end |}.
Proof. destruct fetched; reflexivity. Qed.

Section ClientFacts.

Context {jwt : JwtLib} {bcrypt : BcryptLib} {d1 : D1Lib}.

Variable JSON_stringify : JValue -> string.
Variable error_page : string.

(** X17: the header [apiFetch] builds from a stored token is the header the
    worker's token check takes apart again.  With the non-empty token of a
    login in local storage, [apiFetch('/api/metrics')] resolves with the
    three metrics at every instant before the token's expiry and rejects
    from the expiry on; with no token stored and none in the options it
    rejects at every instant. *)
Theorem apiFetch_metrics
    (login_request : Request) (env : Env) (w0 : World) (db0 : DB)
    (resp : Response) (tok : string) :
  is_route login_request "/api/auth/login" "POST" = true ->
  result (serve login_request env w0 db0) = Ok resp ->
  prop (body resp) "token" = JStr tok ->
  tok <> "" ->
  forall (w : World) (db : DB),
    (now_ms w < (now_sec w0 + seven_days) * 1000 ->
       apiFetch JSON_stringify error_page (Some tok) "/api/metrics" []
         no_options env w db
       = Ok (body metrics))
    /\ ((now_sec w0 + seven_days) * 1000 <= now_ms w ->
          exists message,
            apiFetch JSON_stringify error_page (Some tok) "/api/metrics" []
              no_options env w db
            = Exn message)
    /\ exists message,
         apiFetch JSON_stringify error_page None "/api/metrics" []
           no_options env w db
         = Exn message.
Proof.
  intros R Hres Htok Hne w db.
  unfold serve in Hres. rewrite (fetch_login _ _ _ R) in Hres.
  destruct (login_issues _ _ _ _ _ _ Hres Htok) as (u & _ & -> & _).
  pose proof (verifyToken_issued (login_claims u w0) _ env w eq_refl) as Hv.
  set (tok := jwt_sign (login_claims u w0) (JWT_SECRET env)) in *.
  set (req := api_request (Some tok) "/api/metrics" [] no_options).
  assert (Hh : auth_header req = "Bearer " ++ tok)
    by (apply api_request_header, Hne).
  split; [ | split].
  - intros Hw. apply now_sec_lt in Hw. apply Z.ltb_lt in Hw. rewrite Hw in Hv.
    unfold apiFetch. fold req. rewrite serve_cases.
    change (is_route req "/api/auth/signup" "POST") with false.
    change (is_route req "/api/auth/login" "POST") with false.
    change (is_route req "/api/metrics" "GET") with true.
    cbv iota. rewrite Hh, Hv. reflexivity.
  - intros Hw.
    assert (Hge : (now_sec w <? now_sec w0 + seven_days) = false).
    { apply Z.ltb_ge.
      destruct (Z.lt_ge_cases (now_sec w) (now_sec w0 + seven_days))
        as [Hlt | Hge]; [ | exact Hge].
      apply now_sec_lt in Hlt. lia. }
    rewrite Hge in Hv.
    unfold apiFetch. fold req. rewrite serve_cases.
    change (is_route req "/api/auth/signup" "POST") with false.
    change (is_route req "/api/auth/login" "POST") with false.
    cbv iota. rewrite Hh, Hv. cbn. eauto.
  - unfold apiFetch. rewrite serve_cases. cbn. eauto.
Qed.

(** X18: what the metrics effect leaves in the state.  Off the dashboard it
    dispatches nothing.  On the dashboard it always ends with [loading]
    false and the page unchanged; when the fetch resolved, the metrics are
    what it resolved to and the error is cleared; when it rejected, the
    error is [Failed to load metrics] and the metrics of before stay in
    place. *)
Theorem metrics_effect_outcome
    (page : Page) (fetched : Res JValue) (state : AppState) :
  (page <> dashboard -> useMetrics page fetched state = state)
  /\ (page = dashboard ->
      loading (useMetrics page fetched state) = false
      /\ currentPage (useMetrics page fetched state) = currentPage state
      /\ match fetched with
         | Ok m =>
             app_metrics (useMetrics page fetched state) = Some m
             /\ app_error (useMetrics page fetched state) = None
         | Exn _ =>
             app_metrics (useMetrics page fetched state) = app_metrics state
             /\ app_error (useMetrics page fetched state)
                = Some "Failed to load metrics"
         end).
Proof.
  split.
  - intros H. unfold useMetrics. destruct page; try reflexivity. contradiction.
  - intros ->. unfold useMetrics. cbn [is_dashboard negb].
    rewrite fold_loadMetrics. destruct fetched; cbn; auto.
Qed.

(** X19: from the login to the dashboard.  With the non-empty token of a
    login in local storage and before its expiry, the metrics effect on the
    dashboard, fed by [apiFetch('/api/metrics')] against the worker, ends
    with the worker's three metrics in the state, no error and [loading]
    false, whatever the state was and whatever the store holds. *)
Theorem dashboard_shows_worker_metrics
    (login_request : Request) (env : Env) (w0 w : World) (db0 db : DB)
    (resp : Response) (tok : string) (state : AppState) :
  is_route login_request "/api/auth/login" "POST" = true ->
  result (serve login_request env w0 db0) = Ok resp ->
  prop (body resp) "token" = JStr tok ->
  tok <> "" ->
  now_ms w < (now_sec w0 + seven_days) * 1000 ->
  useMetrics dashboard
    (apiFetch JSON_stringify error_page (Some tok) "/api/metrics" []
       no_options env w db)
    state
  = {| currentPage := currentPage state;
       app_metrics :=
         Some (JObj [("totalRevenue", JNum (inject_Z 100000));
                     ("monthlyGrowth", JNum (21 # 2));
                     ("cashFlow", JNum (inject_Z 50000))]);
       loading := false;
       app_error := None |}.
Proof.
  intros R Hres Htok Hne Hw.
  unfold serve in Hres. rewrite (fetch_login _ _ _ R) in Hres.
  destruct (login_issues _ _ _ _ _ _ Hres Htok) as (u & _ & -> & _).
  pose proof (verifyToken_issued (login_claims u w0) _ env w eq_refl) as Hv.
  apply now_sec_lt in Hw. apply Z.ltb_lt in Hw. rewrite Hw in Hv.
  set (tok := jwt_sign (login_claims u w0) (JWT_SECRET env)) in *.
  set (req := api_request (Some tok) "/api/metrics" [] no_options).
  assert (Hh : auth_header req = "Bearer " ++ tok)
    by (apply api_request_header, Hne).
  assert (Hf : apiFetch JSON_stringify error_page (Some tok) "/api/metrics" []
                 no_options env w db = Ok (body metrics)).
  { unfold apiFetch. fold req. rewrite serve_cases.
    change (is_route req "/api/auth/signup" "POST") with false.
    change (is_route req "/api/auth/login" "POST") with false.
    change (is_route req "/api/metrics" "GET") with true.
    cbv iota. rewrite Hh, Hv. reflexivity. }
  rewrite Hf. unfold useMetrics. cbn [is_dashboard negb].
  rewrite fold_loadMetrics. reflexivity.
Qed.

End ClientFacts.

(** ** The authentication hooks against the worker *)

Section HookFacts.

Context {jwt : JwtLib} {bcrypt : BcryptLib} {d1 : D1Lib}.

Variable JSON_stringify : JValue -> string.
Variable error_page : string.
Variable json_error : string.
Variable type_error : string.

Lemma signup_post_route email password :
  is_route (credentials_post "/api/auth/signup" email password)
    "/api/auth/signup" "POST" = true.
Proof. reflexivity. Qed.

Lemma login_post_route email password :
  is_route (credentials_post "/api/auth/login" email password)
    "/api/auth/login" "POST" = true.
Proof. reflexivity. Qed.

(** X20: the two signup hooks against the worker.  Both end with
    [loading] false and leave user and token as they were.  The hook that
    does not test [res.ok] ends without an error whatever the worker
    answered, a 400 or a 409 included; the hook that tests it ends without
    an error exactly when the worker answered 201 [User created], and
    otherwise holds the text of the 400 or 409 response (or [Signup failed]
    where that text is empty). *)
Theorem signup_hooks_on_worker
    (email password : string) (env : Env) (w : World) (db : DB)
    (state : AuthState) :
  exists resp,
    result (serve (credentials_post "/api/auth/signup" email password)
              env w db) = Ok resp
    /\ signup_unchecked
         (Ok (http_of JSON_stringify error_page
                (serve (credentials_post "/api/auth/signup" email password)
                   env w db))) state
       = {| auth_user := auth_user state; auth_token := auth_token state;
            auth_loading := false; auth_error := None |}
    /\ signup_checked
         (Ok (http_of JSON_stringify error_page
                (serve (credentials_post "/api/auth/signup" email password)
                   env w db))) state
       = {| auth_user := auth_user state; auth_token := auth_token state;
            auth_loading := false;
            auth_error :=
              if status resp =? 201 then None
              else Some (message_or (JSON_stringify (body resp))
                           "Signup failed") |}
    /\ (resp = user_created /\ find_user db email = None
        \/ resp = invalid_email_or_password
        \/ resp = email_registered /\ find_user db email <> None).
Proof.
  unfold serve, http_of, signup_checked, signup_unchecked.
  rewrite (fetch_signup _ _ _ (signup_post_route email password)).
  rewrite run_signup_cases.
  change (str_of (prop (parseJSON (credentials_post "/api/auth/signup" email
                                     password)) "email")) with email.
  destruct (credentials_invalid _).
  - cbn. eexists. split; [reflexivity | ].
    split; [reflexivity | ]. split; [reflexivity | ]. right. left. reflexivity.
  - destruct (find_user db email) eqn:Hf; cbn.
    + eexists. split; [reflexivity | ].
      split; [reflexivity | ]. split; [reflexivity | ].
      right. right. split; [reflexivity | discriminate].
    + eexists. split; [reflexivity | ].
      split; [reflexivity | ]. split; [reflexivity | ].
      left. split; reflexivity.
Qed.

(** X21: the login hook against the worker.  It ends with [loading] false.
    When the worker answered 200 the state holds the issued token, the
    email as typed and no error; on any other answer user and token stay as
    they were and the error is the text of the response. *)
Theorem login_hook_on_worker
    (email password : string) (env : Env) (w : World) (db : DB)
    (state : AuthState) :
  auth_loading
    (login_hook json_error type_error email
       (Ok (http_of JSON_stringify error_page
              (serve (credentials_post "/api/auth/login" email password)
                 env w db))) state) = false
  /\ exists resp,
       result (serve (credentials_post "/api/auth/login" email password)
                 env w db) = Ok resp
       /\ (status resp = 200 ->
           exists u,
             find_user db email = Some u
             /\ login_hook json_error type_error email
                  (Ok (http_of JSON_stringify error_page
                         (serve (credentials_post "/api/auth/login" email
                                   password) env w db))) state
                = {| auth_user := Some email;
                     auth_token :=
                       JStr (jwt_sign (login_claims u w) (JWT_SECRET env));
                     auth_loading := false;
                     auth_error := None |})
       /\ (status resp <> 200 ->
           login_hook json_error type_error email
             (Ok (http_of JSON_stringify error_page
                    (serve (credentials_post "/api/auth/login" email password)
                       env w db))) state
           = {| auth_user := auth_user state;
                auth_token := auth_token state;
                auth_loading := false;
                auth_error := Some (JSON_stringify (body resp)) |}).
Proof.
  unfold serve, http_of, login_hook.
  rewrite (fetch_login _ _ _ (login_post_route email password)).
  rewrite run_login_cases.
  change (str_of (prop (parseJSON (credentials_post "/api/auth/login" email
                                     password)) "email")) with email.
  destruct (credentials_invalid _).
  - cbn. split; [reflexivity | ]. eexists. split; [reflexivity | ].
    split; [discriminate | reflexivity].
  - cbn [result].
    destruct (find_user db email) as [u | ].
    + destruct (bcrypt_compare _ (u_password u)).
      * cbn. split; [reflexivity | ]. eexists. split; [reflexivity | ].
        split; [ | intros H; contradiction].
        intros _. exists u. split; reflexivity.
      * cbn. split; [reflexivity | ]. eexists. split; [reflexivity | ].
        split; [discriminate | reflexivity].
    + cbn. split; [reflexivity | ]. eexists. split; [reflexivity | ].
      split; [discriminate | reflexivity].
Qed.

End HookFacts.

(** * The further properties on the sample stores *)

Lemma missing_bearer_witness :
  demo_serve (get_request "/api/reports" None []) demo_env at_second_one
    ledger_db
  = {| result := Ok unauthorized; final := ledger_db; trace := [] |}.
Proof.
  exact (proj1 (@missing_bearer_is_unauthorized Reference.jwt Reference.bcrypt Reference.d1
                  (get_request "/api/reports" None []) demo_env at_second_one
                  ledger_db eq_refl eq_refl)).
Defined.

Lemma authenticated_routing_witness :
  demo_serve (get_request "/api/reports" sarah_bearer []) demo_env
    at_second_one ledger_db
  = {| result := Ok not_found; final := ledger_db; trace := [] |}.
Proof.
  exact (proj1 (proj2 (@authenticated_routing Reference.jwt Reference.bcrypt Reference.d1
                         (get_request "/api/reports" sarah_bearer []) demo_env
                         at_second_one ledger_db sarah_claims
                         eq_refl eq_refl))
           eq_refl).
Defined.

Lemma response_statuses_witness :
  In (status user_created) router_statuses
  /\ content_type user_created = "application/json".
Proof.
  exact (@response_statuses Reference.jwt Reference.bcrypt Reference.d1 signup_emma
           demo_env at_second_one ledger_db user_created eq_refl).
Defined.


Lemma listing_within_bounds_witness :
  exists rows lim,
    q_limit (list_query (list_page [("startDate", "2025-09-02")]) sarah_claims)
    = Int lim
    /\ listed (list_response
                 (list_query (list_page [("startDate", "2025-09-02")])
                    sarah_claims)
                 [seed_row 3 2 "2025-09-02" "Laptop Purchase" (-1200) "expense"])
       = map tx_json rows
    /\ Forall (within_bounds (list_page [("startDate", "2025-09-02")])) rows
    /\ (0 <= lim -> Z.of_nat (List.length rows) <= lim).
Proof.
  destruct (@listing_within_bounds_and_limit Reference.jwt Reference.bcrypt Reference.d1
              (list_page [("startDate", "2025-09-02")]) demo_env at_second_one
              ledger_db sarah_claims
              (list_response
                 (list_query (list_page [("startDate", "2025-09-02")])
                    sarah_claims)
                 [seed_row 3 2 "2025-09-02" "Laptop Purchase" (-1200) "expense"])
              eq_refl eq_refl eq_refl)
    as [rows [lim [Hl [Hr [_ [Hb [_ Hn]]]]]]].
  exists rows, lim. repeat split; assumption.
Defined.

Lemma negative_limit_witness :
  result (demo_serve (list_page [("limit", "-1")]) demo_env at_second_one
            ledger_db)
  = Ok (list_response (list_query (list_page [("limit", "-1")]) sarah_claims)
          (selected ledger_db
             (list_query (list_page [("limit", "-1")]) sarah_claims)))
  /\ q_limit (list_query (list_page [("limit", "-1")]) sarah_claims)
     = Int (-1).
Proof.
  pose proof (@negative_limit_lists_everything Reference.jwt Reference.bcrypt Reference.d1
                (list_page [("limit", "-1")]) demo_env at_second_one ledger_db
                sarah_claims "-1" (-1) 0
                eq_refl eq_refl eq_refl eq_refl ltac:(lia) eq_refl
                ltac:(lia)) as H.
  split; [exact (proj1 H) | exact (proj1 (proj2 H))].
Defined.

Lemma consecutive_pages_witness :
  exists rows1 rows2,
    result (demo_serve (list_page [("limit", "1")]) demo_env at_second_one
              ledger_db)
    = Ok (list_response (list_query (list_page [("limit", "1")]) sarah_claims)
            rows1)
    /\ result (demo_serve (list_page [("limit", "1"); ("offset", "1")])
                 demo_env at_second_two ledger_db)
       = Ok (list_response
               (list_query (list_page [("limit", "1"); ("offset", "1")])
                  sarah_claims) rows2)
    /\ (rows1 ++ rows2)%list
       = limit_offset 2 0
           (selected ledger_db
              (list_query (list_page [("limit", "1")]) sarah_claims)).
Proof.
  exact (@consecutive_pages Reference.jwt Reference.bcrypt Reference.d1
           (list_page [("limit", "1")])
           (list_page [("limit", "1"); ("offset", "1")])
           demo_env at_second_one at_second_two ledger_db sarah_claims 1 0
           eq_refl eq_refl eq_refl eq_refl eq_refl eq_refl
           eq_refl eq_refl eq_refl eq_refl
           ltac:(lia) ltac:(lia)).
Defined.


Lemma insert_invisible_witness :
  result (demo_serve (get_request "/api/transactions" david_bearer [])
            demo_env at_second_two
            (final (demo_serve (post_transaction income_0901) demo_env
                      at_second_one ledger_db)))
  = result (demo_serve (get_request "/api/transactions" david_bearer [])
              demo_env at_second_two ledger_db).
Proof.
  exact (@insert_invisible_to_other_users Reference.jwt Reference.bcrypt Reference.d1
           (post_transaction income_0901)
           (get_request "/api/transactions" david_bearer [])
           demo_env at_second_one at_second_two ledger_db
           sarah_claims david_claims
           eq_refl eq_refl eq_refl eq_refl
           ltac:(vm_compute; discriminate)).
Defined.

Lemma login_token_witness :
  final (demo_serve login_sarah demo_env at_second_one ledger_db) = ledger_db
  /\ (List.length (trace (demo_serve login_sarah demo_env at_second_one
                            ledger_db)) <= 1)%nat.
Proof.
  pose proof (@login_token_requires_match Reference.jwt Reference.bcrypt Reference.d1
                login_sarah demo_env at_second_one ledger_db eq_refl) as H.
  split; [exact (proj1 (proj2 H)) | exact (proj1 (proj2 (proj2 H)))].
Defined.

Lemma token_lists_its_user_witness :
  exists u,
    find_user ledger_db "sarah@example.com" = Some u
    /\ @verifyToken Reference.jwt (auth_header list_all) demo_env before_expiry
       = Ok (Some (login_claims u at_second_one)).
Proof.
  destruct (@token_lists_its_user Reference.jwt Reference.bcrypt Reference.d1
              login_sarah list_all demo_env at_second_one before_expiry
              ledger_db four_rows sarah_login_response sarah_token
              eq_refl eq_refl eq_refl eq_refl eq_refl eq_refl)
    as [u [Hu [Hv _]]].
  exists u. split; [exact Hu | exact Hv].
Defined.

Lemma apiFetch_metrics_witness :
  @apiFetch Reference.jwt Reference.bcrypt Reference.d1 sample_text sample_error_page
    (Some sarah_token) "/api/metrics" [] no_options demo_env before_expiry
    four_rows
  = Ok (body metrics)
  /\ exists message,
       @apiFetch Reference.jwt Reference.bcrypt Reference.d1 sample_text sample_error_page
         (Some sarah_token) "/api/metrics" [] no_options demo_env at_expiry
         four_rows
       = Exn message.
Proof.
  pose proof (@apiFetch_metrics Reference.jwt Reference.bcrypt Reference.d1
                sample_text sample_error_page
                login_sarah demo_env at_second_one ledger_db
                sarah_login_response sarah_token
                eq_refl eq_refl eq_refl ltac:(vm_compute; discriminate)) as H.
  split.
  - exact (proj1 (H before_expiry four_rows) eq_refl).
  - exact (proj1 (proj2 (H at_expiry four_rows))
             ltac:(vm_compute; discriminate)).
Defined.

Lemma dashboard_metrics_witness :
  app_metrics
    (useMetrics dashboard
       (@apiFetch Reference.jwt Reference.bcrypt Reference.d1 sample_text sample_error_page
          (Some sarah_token) "/api/metrics" [] no_options demo_env
          before_expiry four_rows)
       initialState)
  = Some (body metrics).
Proof.
  exact (f_equal app_metrics
           (@dashboard_shows_worker_metrics Reference.jwt Reference.bcrypt Reference.d1
              sample_text sample_error_page
              login_sarah demo_env at_second_one before_expiry ledger_db
              four_rows sarah_login_response sarah_token initialState
              eq_refl eq_refl eq_refl ltac:(vm_compute; discriminate)
              eq_refl)).
Defined.
